(** * Speech evaluation system: a shallow embedding and its properties

    The development follows the layout of the Python package:

    - [Py]          the fragment of the Python runtime the services rely on
                    (strings as sequences of code points, numbers, JSON
                    values, exceptions);
    - [Config]      [config.py]: the evaluation configuration and thresholds;
    - [LLM]         [services/llm.py]: text normalisation, the retrying
                    backend call, the response parser, the comparison entry
                    points;
    - [STT]         [services/stt.py]: the recorder, the transcription
                    client, the service facade and the module-level functions;
    - [Evaluation]  [services/evaluation.py]: the orchestrator;
    - [Fixtures]    concrete environments on which the functions are run.

    Stateful code is written with explicit state passing ([ST]); code that
    may raise returns an [outcome].  What comes from outside the repository
    (the two backends, the file system, the audio layer, [json.loads],
    [str.lower]) is a parameter: a field of [World] or of [STT.AudioEnv], or
    an argument.  The properties come after the definitions, grouped by
    component. *)

From Stdlib Require Import ZArith QArith Lqa List String Ascii Lia Bool.
From stdpp Require Import base gmap list.
From Equations Require Import Equations.
Import ListNotations.

Close Scope Q_scope.
#[local] Set Warnings "-register-all".

(* ===================================================================== *)
(** * The Python runtime fragment *)
(* ===================================================================== *)

Module Py.

(** A Python [str] is a sequence of Unicode code points. *)
Abbreviation codepoint := N.
Abbreviation str := (list N).

(** String literals of the source are written [py "..."]: the UTF-8 bytes of
    the Rocq literal decoded into code points. *)
Fixpoint utf8_decode (bs : list N) : str :=
  match bs with
  | [] => []
  | b0 :: r0 =>
    if (b0 <? 128)%N then b0 :: utf8_decode r0
    else
      match r0 with
      | [] => [b0]
      | b1 :: r1 =>
        if (b0 <? 224)%N then
          ((b0 - 192) * 64 + (b1 - 128))%N :: utf8_decode r1
        else
          match r1 with
          | [] => [b0; b1]
          | b2 :: r2 =>
            if (b0 <? 240)%N then
              (((b0 - 224) * 64 + (b1 - 128)) * 64 + (b2 - 128))%N
                :: utf8_decode r2
            else
              match r2 with
              | [] => [b0; b1; b2]
              | b3 :: r3 =>
                ((((b0 - 240) * 64 + (b1 - 128)) * 64 + (b2 - 128)) * 64
                 + (b3 - 128))%N :: utf8_decode r3
              end
          end
      end
  end.

Definition py (s : string) : str :=
  utf8_decode (map N_of_ascii (list_ascii_of_string s)).
Arguments py s : simpl never.

(** ** Whitespace

    [str.isspace], [str.strip] and the regular expression class [\s] (on
    [str] patterns) share one table of whitespace code points. *)
Definition isspace (c : codepoint) : bool :=
  ((9 <=? c) && (c <=? 13) || (28 <=? c) && (c <=? 32)
   || (c =? 133) || (c =? 160) || (c =? 5760)
   || (8192 <=? c) && (c <=? 8202)
   || (c =? 8232) || (c =? 8233) || (c =? 8239) || (c =? 8287)
   || (c =? 12288))%N.

Definition SPACE : codepoint := 32%N.

Fixpoint lstrip (s : str) : str :=
  match s with
  | [] => []
  | c :: t => if isspace c then lstrip t else s
  end.

Fixpoint rstrip (s : str) : str :=
  match s with
  | [] => []
  | c :: t =>
    match rstrip t with
    | [] => if isspace c then [] else [c]
    | t' => c :: t'
    end
  end.

(** [s.strip()] *)
Definition strip (s : str) : str := rstrip (lstrip s).

(** [s.replace(old, new)] for one-character [old] and [new]. *)
Definition replace_char (old new c : codepoint) : codepoint :=
  if (c =? old)%N then new else c.

Definition replace1 (old new : codepoint) (s : str) : str :=
  map (replace_char old new) s.

(** [re.sub(r"\s+", " ", s)]: every maximal run of whitespace becomes one
    space.  The space is emitted at the last character of the run. *)
Fixpoint collapse_ws (s : str) : str :=
  match s with
  | [] => []
  | c :: t =>
    if isspace c then
      match t with
      | [] => [SPACE]
      | c' :: _ => if isspace c' then collapse_ws t else SPACE :: collapse_ws t
      end
    else c :: collapse_ws t
  end.

(** [s.startswith(p)] *)
Fixpoint startswith (s p : str) : bool :=
  match p, s with
  | [], _ => true
  | _ :: _, [] => false
  | a :: p', b :: s' => (a =? b)%N && startswith s' p'
  end.

(** [s.endswith(p)] *)
Definition endswith (s p : str) : bool := startswith (rev s) (rev p).

(** [needle in s] *)
Fixpoint contains (needle s : str) : bool :=
  startswith s needle ||
  match s with
  | [] => false
  | _ :: t => contains needle t
  end.

(** [s[k:]] and [s[:-k]] for [0 < k] *)
Definition slice_from (k : nat) (s : str) : str := drop k s.
Definition slice_to_minus (k : nat) (s : str) : str := take (length s - k) s.

(** ** Numbers

    A [float] is a finite value, an infinity or NaN.  A finite double denotes
    a rational and comparisons are exact, so finite values are kept as the
    rationals they denote; an [int] is compared with a [float] by value. *)
Inductive pynum :=
| Fin (q : Q)
| PInf
| NInf
| NaN.

Definition num_le (a b : pynum) : bool :=
  match a, b with
  | NaN, _ | _, NaN => false
  | NInf, _ => true
  | _, PInf => true
  | Fin p, Fin q => Qle_bool p q
  | _, _ => false
  end.

Definition num_lt (a b : pynum) : bool :=
  match a, b with
  | NaN, _ | _, NaN => false
  | PInf, _ | _, NInf => false
  | NInf, _ => true
  | _, PInf => true
  | Fin p, Fin q => negb (Qle_bool q p)
  end.

(** ** Values *)
Inductive pyval :=
| PNone
| PBool (b : bool)
| PInt (z : Z)
| PFloat (f : pynum)
| PStr (s : str)
| PList (l : list pyval)
| PDict (d : gmap str pyval).

Abbreviation dict := (gmap str pyval).

(** [type(v).__name__] *)
Definition type_name (v : pyval) : str :=
  match v with
  | PNone => py "NoneType"
  | PBool _ => py "bool"
  | PInt _ => py "int"
  | PFloat _ => py "float"
  | PStr _ => py "str"
  | PList _ => py "list"
  | PDict _ => py "dict"
  end.

(** The numeric value of an [int], [bool] or [float]. *)
Definition num_of (v : pyval) : option pynum :=
  match v with
  | PInt z => Some (Fin (inject_Z z))
  | PBool b => Some (Fin (inject_Z (if b then 1 else 0)))
  | PFloat f => Some f
  | _ => None
  end.

(** ** Exceptions *)
Inductive exn_class :=
| ValueError
| RuntimeError
| TypeError
| AttributeError
| OverflowError
| OSError              (* [IOError] is an alias of [OSError] *)
| FileNotFoundError    (* subclass of [OSError] *)
| InterruptedError     (* subclass of [OSError] *)
| JSONDecodeError      (* subclass of [ValueError] *)
| RecursionError       (* subclass of [RuntimeError] *)
| WaveError            (* [wave.Error] *)
| APIError.            (* [openai.APIError] *)

Definition exn_class_eqb (a b : exn_class) : bool :=
  match a, b with
  | ValueError, ValueError | RuntimeError, RuntimeError
  | TypeError, TypeError | AttributeError, AttributeError
  | OverflowError, OverflowError | OSError, OSError
  | FileNotFoundError, FileNotFoundError
  | InterruptedError, InterruptedError
  | JSONDecodeError, JSONDecodeError | RecursionError, RecursionError
  | WaveError, WaveError | APIError, APIError => true
  | _, _ => false
  end.

(** [issubclass(c, d)] *)
Definition subclass (c d : exn_class) : bool :=
  exn_class_eqb c d ||
  match c, d with
  | FileNotFoundError, OSError
  | InterruptedError, OSError
  | JSONDecodeError, ValueError
  | RecursionError, RuntimeError => true
  | _, _ => false
  end.

(** An exception instance; [exn_msg] is [str(e)]. *)
Record exn := Exn { exn_cls : exn_class; exn_msg : str }.

(** [except (c1, ..., cn)] catches [e] *)
Definition caught_by (classes : list exn_class) (e : exn) : bool :=
  existsb (subclass (exn_cls e)) classes.

(** The result of running code that may raise. *)
Inductive outcome (A : Type) :=
| Ok (a : A)
| Raise (e : exn).
Arguments Ok {A} a.
Arguments Raise {A} e.

Definition is_ok {A} (o : outcome A) : bool :=
  match o with Ok _ => true | Raise _ => false end.

(** The least [int] that [float] refuses to convert. *)
Definition float_max_int : Z := (2 ^ 1024 - 2 ^ 970)%Z.

(** [float(v)].  String conversion is the runtime's ([float_of_str], [None]
    for a malformed literal).  An [int] beyond the range of a double raises
    [OverflowError]; rounding to the nearest double is not modelled.  The
    messages of these built-in exceptions are shortened. *)
Definition to_float (float_of_str : str -> option pynum) (v : pyval)
  : outcome pynum :=
  match v with
  | PFloat f => Ok f
  | PInt z =>
    if (Z.abs z <? float_max_int)%Z then Ok (Fin (inject_Z z))
    else Raise (Exn OverflowError (py "int too large to convert to float"))
  | PBool b => Ok (Fin (inject_Z (if b then 1 else 0)))
  | PStr s =>
    match float_of_str s with
    | Some f => Ok f
    | None => Raise (Exn ValueError (py "could not convert string to float"))
    end
  | _ => Raise (Exn TypeError
                  (py "float() argument must be a string or a real number"))
  end.

(** [a / b] rounded to the nearest integer, ties to even, for [0 < b]. *)
Definition div_half_even (a b : Z) : Z :=
  let q := (a / b)%Z in
  let r := (a mod b)%Z in
  if (2 * r <? b)%Z then q
  else if (b <? 2 * r)%Z then (q + 1)%Z
  else if Z.even q then q else (q + 1)%Z.

(** The power of two [2^s] that brings the quotient of [0 < a] by [0 < b]
    into the interval from [2^52] to [2^53], where doubles are the
    integers. *)
Definition double_scale (a b : Z) : Z :=
  let s := (52 - (Z.log2 a - Z.log2 b))%Z in
  if (a * 2 ^ Z.max s 0 <? b * 2 ^ Z.max (- s) 0 * 2 ^ 52)%Z
  then (s + 1)%Z else s.

(** [a / b] on two [int]s with [0 <= a] and [0 < b]: the double nearest to
    the quotient, ties to even, as the rational it denotes.  The quotient is
    scaled by [2^s], rounded to an integer and scaled back.  A quotient
    beyond the range of a double raises [OverflowError] in Python and one
    below the normal range is rounded on a coarser grid; neither is
    modelled, and neither can occur for the lengths of lists. *)
Definition true_div (a b : Z) : Q :=
  if (a <=? 0)%Z then 0%Q
  else
    let s := double_scale a b in
    let m := div_half_even (a * 2 ^ Z.max s 0) (b * 2 ^ Z.max (- s) 0) in
    (inject_Z (m * 2 ^ Z.max (- s) 0) / inject_Z (2 ^ Z.max s 0))%Q.

(** [min(a, x)] and [max(a, y)] for an [int] literal first argument: the
    second argument is returned only when it compares strictly below
    (above) the first.  [max] is only applied to numbers. *)
Definition py_min_int (a : Z) (x : pynum) : pyval :=
  if num_lt x (Fin (inject_Z a)) then PFloat x else PInt a.

Definition py_max_int (a : Z) (y : pyval) : pyval :=
  match num_of y with
  | Some n => if num_lt (Fin (inject_Z a)) n then y else PInt a
  | None => PInt a
  end.

End Py.
Export Py.

(* ===================================================================== *)
(** * [config.py] *)
(* ===================================================================== *)

Module Config.

(** [EVALUATION_CONFIG] *)
Record EvaluationConfig := {
  text_normalization : bool;
  punctuation_ignore : bool;
  case_sensitive : bool;
  min_similarity_threshold : pynum;
  high_accuracy_threshold : pynum;
  detailed_error_analysis : bool;
  include_suggestions : bool
}.

(** The configuration obtained when no environment variable is set. *)
Definition default_config : EvaluationConfig := {|
  text_normalization := true;
  punctuation_ignore := true;
  case_sensitive := false;
  min_similarity_threshold := Fin 60;
  high_accuracy_threshold := Fin 90;
  detailed_error_analysis := true;
  include_suggestions := true
|}.

(** [0 <= t <= 100] *)
Definition in_percent_range (t : pynum) : bool :=
  num_le (Fin 0) t && num_le t (Fin 100).

(** [', '.join(errors)] *)
Fixpoint join_comma (l : list str) : str :=
  match l with
  | [] => []
  | [x] => x
  | x :: r => x ++ py ", " ++ join_comma r
  end.

(** [validate_config]; [api_key] is [OPENAI_API_KEY]. *)
Definition validate_config (api_key : option str) (cfg : EvaluationConfig)
  : outcome bool :=
  let errors :=
    (match api_key with
     | None | Some [] => [py "OPENAI_API_KEY 未設定"]
     | Some _ => []
     end)
    ++ (if in_percent_range (min_similarity_threshold cfg) then []
        else [py "MIN_SIMILARITY_THRESHOLD 必須在 0-100 之間"])
    ++ (if in_percent_range (high_accuracy_threshold cfg) then []
        else [py "HIGH_ACCURACY_THRESHOLD 必須在 0-100 之間"]) in
  match errors with
  | [] => Ok true
  | _ => Raise (Exn ValueError (py "配置錯誤: " ++ join_comma errors))
  end.

(** The dictionary returned by [get_evaluation_thresholds]; its four keys
    are fixed, so it is kept as a record. *)
Record Thresholds := {
  excellent : pyval;
  good : pyval;
  fair : pyval;
  poor : pyval
}.

Definition get_evaluation_thresholds (cfg : EvaluationConfig) : Thresholds := {|
  excellent := PFloat (high_accuracy_threshold cfg);
  good := py_max_int 75 (PFloat (min_similarity_threshold cfg));
  fair := PFloat (min_similarity_threshold cfg);
  poor := PInt 0
|}.

End Config.
Export Config.

(* ===================================================================== *)
(** * The environment of the services *)
(* ===================================================================== *)

(** Counters of the calls made to the two backends. *)
Record Calls := {
  stt_calls : nat;
  llm_calls : nat
}.

Definition no_calls : Calls := {| stt_calls := 0; llm_calls := 0 |}.

Definition count_stt (st : Calls) : Calls :=
  {| stt_calls := S (stt_calls st); llm_calls := llm_calls st |}.

Definition count_llm (st : Calls) : Calls :=
  {| stt_calls := stt_calls st; llm_calls := S (llm_calls st) |}.

(** Everything the services obtain from outside the repository: runtime
    functions, the configuration read at import time, the file system and the
    two backends.  A backend is a function of the number of calls made so
    far, so that successive attempts may answer differently. *)
Record World := {
  str_lower : str -> str;                      (* [s.lower()] *)
  json_loads : str -> option pyval;            (* [None]: it raises *)
  json_loads_error : str -> exn;
      (* what [json.loads] raises then: a [JSONDecodeError], or the plain
         [ValueError] of an integer with too many digits, or the
         [RecursionError] of a text nested too deeply *)
  json_dumps : pyval -> str;
  float_of_str : str -> option pynum;
  format_mb : Z -> str;          (* [f"{size / 1024 / 1024:.1f}"] *)
  path_name : str -> str;                      (* [Path(p).name] *)
  EVALUATION_CONFIG : EvaluationConfig;
  file_size : str -> option Z;   (* [None]: the path does not exist *)
  file_open : str -> option str; (* [Some msg]: [open] raises [IOError] *)
  transcriptions_create : nat -> str -> outcome str;
  chat_completions_create : nat -> str -> outcome str;
  uuid4 : str;
  now_isoformat : str;
  elapsed : Q
}.

(** A computation over a mutable state [S] that may raise.  State changes
    made before an exception is raised persist, as in Python. *)
Definition ST (S A : Type) : Type := S -> outcome A * S.

Definition ret {S A} (a : A) : ST S A := fun st => (Ok a, st).

Definition raise {S A} (c : exn_class) (msg : str) : ST S A :=
  fun st => (Raise (Exn c msg), st).

Definition bind {S A B} (m : ST S A) (k : A -> ST S B) : ST S B :=
  fun st =>
    match m st with
    | (Ok a, st') => k a st'
    | (Raise e, st') => (Raise e, st')
    end.

Definition gets {S A} (f : S -> A) : ST S A := fun st => (Ok (f st), st).

Definition modify {S} (f : S -> S) : ST S unit := fun st => (Ok tt, f st).

(** The first [except] clause whose classes match the exception. *)
Fixpoint find_clause {S A} (e : exn)
  (clauses : list (list exn_class * (exn -> ST S A)))
  : option (exn -> ST S A) :=
  match clauses with
  | [] => None
  | (classes, handler) :: rest =>
    if caught_by classes e then Some handler else find_clause e rest
  end.

(** [try: m except c1 as e: h1 e except c2 as e: h2 e ...]: an exception
    raised by a handler is not offered to the later clauses. *)
Definition try_clauses {S A} (m : ST S A)
  (clauses : list (list exn_class * (exn -> ST S A))) : ST S A :=
  fun st =>
    match m st with
    | (Ok a, st') => (Ok a, st')
    | (Raise e, st') =>
      match find_clause e clauses with
      | Some handler => handler e st'
      | None => (Raise e, st')
      end
    end.

Definition try_except {S A} (m : ST S A) (classes : list exn_class)
  (handler : exn -> ST S A) : ST S A :=
  try_clauses m [(classes, handler)].

(** Code that calls the backends. *)
Definition M (A : Type) : Type := ST Calls A.

Notation "'let!' x ':=' m 'in' k" := (bind m (fun x => k))
  (at level 10, x name, m at level 100, k at level 200).

(* ===================================================================== *)
(** * [services/llm.py] *)
(* ===================================================================== *)

Module LLM.

Module TextProcessor.

(** The chain of [str.replace] calls mapping full-width punctuation to
    ASCII. *)
Definition replace_fullwidth (text : str) : str :=
  let text := replace1 65292%N 44%N text in     (* fullwidth comma *)
  let text := replace1 12290%N 46%N text in     (* ideographic full stop *)
  let text := replace1 65311%N 63%N text in     (* fullwidth question mark *)
  let text := replace1 65281%N 33%N text in     (* fullwidth exclamation mark *)
  let text := replace1 65306%N 58%N text in     (* fullwidth colon *)
  let text := replace1 65307%N 59%N text in     (* fullwidth semicolon *)
  let text := replace1 12300%N 34%N text in     (* left corner bracket *)
  let text := replace1 12301%N 34%N text in     (* right corner bracket *)
  let text := replace1 12302%N 39%N text in     (* left white corner bracket *)
  replace1 12303%N 39%N text.                   (* right white corner bracket *)

(** The character class of the second [re.sub]: full stop, comma,
    exclamation mark, question mark, semicolon, colon, both parentheses,
    double quote, apostrophe and hyphen. *)
Definition is_punct (c : codepoint) : bool :=
  ((c =? 46) || (c =? 44) || (c =? 33) || (c =? 63) || (c =? 59)
   || (c =? 58) || (c =? 40) || (c =? 41) || (c =? 34) || (c =? 39)
   || (c =? 45))%N.

(** [re.sub] of that class by the empty string. *)
Definition remove_punct (text : str) : str :=
  List.filter (fun c => negb (is_punct c)) text.

(** [TextProcessor.normalize_text] *)
Definition normalize_text (lower : str -> str) (cfg : EvaluationConfig)
  (text : str) : str :=
  match text with
  | [] => []
  | _ =>
    let text := strip text in
    let text :=
      if text_normalization cfg then replace_fullwidth (collapse_ws text)
      else text in
    let text := if punctuation_ignore cfg then remove_punct text else text in
    let text := if case_sensitive cfg then text else lower text in
    strip text
  end.

End TextProcessor.
Export TextProcessor.

(** [LLMService]: the settings copied from [OPENAI_LLM_CONFIG]. *)
Record LLMService := {
  llm_model : str;
  llm_temperature : Q;
  llm_max_tokens : Z;
  llm_top_p : Q
}.

Definition NL : codepoint := 10%N.

(** Lines joined by newlines. *)
Fixpoint unlines (l : list str) : str :=
  match l with
  | [] => []
  | x :: r => x ++ NL :: unlines r
  end.

Definition dict_of (l : list (str * pyval)) : dict := list_to_map l.

Definition example1 : pyval := PDict (dict_of [
  (py "summary", PStr (py "轉錄結果與標準文本完全不相關。"));
  (py "accuracy_score", PInt 0);
  (py "semantic_similarity", PInt 0);
  (py "error_analysis", PDict (dict_of [
     (py "substitutions", PInt 0); (py "deletions", PInt 6);
     (py "insertions", PInt 7); (py "total_errors", PInt 13)]));
  (py "key_differences", PList [PStr (py "內容完全不同")]);
  (py "suggestions", PList [PStr (py "請確認音檔內容是否正確")]);
  (py "reasoning", PStr (py "轉錄文字與標準文本在主題和內容上沒有任何關聯，無法進行有效比對。錯誤數是基於刪除所有標準文本並插入所有轉錄文本計算得出。"))]).

Definition example2 : pyval := PDict (dict_of [
  (py "summary", PStr (py "轉錄結果基本正確，但在'果'字上出現同音異字錯誤。"));
  (py "accuracy_score", PInt 80);
  (py "semantic_similarity", PInt 85);
  (py "error_analysis", PDict (dict_of [
     (py "substitutions", PInt 1); (py "deletions", PInt 0);
     (py "insertions", PInt 0); (py "total_errors", PInt 1)]));
  (py "key_differences", PList [PStr (py "'果'被錯寫為'安'")]);
  (py "suggestions", PList [PStr (py "加強對同音異字的辨識模型")]);
  (py "reasoning", PStr (py "主體語意正確，但存在一個字的替換錯誤，屬於常見的同音字問題。"))]).

(** [LLMService._build_comparison_prompt] *)
Definition build_comparison_prompt (w : World)
  (reference_text transcribed_text : str) : str :=
  unlines [
    [];
    py "你是專業的語音識別品質評估分析師。請根據我給的範例，比對【待分析文本】並只回傳 JSON 格式的評估結果。";
    [];
    py "---";
    py "【範例一】";
    py "[輸入]";
    py "標準文本: " ++ py "今天天氣真好";
    py "轉錄文字: " ++ py "請投入適量衣物";
    py "[輸出JSON]";
    json_dumps w example1;
    py "---";
    py "【範例二】";
    py "[輸入]";
    py "標準文本: " ++ py "我喜歡吃蘋果";
    py "轉錄文字: " ++ py "我喜歡吃蘋安";
    py "[輸出JSON]";
    json_dumps w example2;
    py "---";
    [];
    py "現在，請根據以上範例的邏輯和格式，評估以下文本：";
    [];
    py "【待分析文本】";
    py "[輸入]";
    py "標準文本: " ++ reference_text;
    py "轉錄文字: " ++ transcribed_text;
    py "[輸出JSON]"
  ].

(** One request to the chat-completion backend: [Ok content] is
    [response.choices[0].message.content]. *)
Definition chat_request (w : World) (prompt : str) : M str :=
  fun st => (chat_completions_create w (llm_calls st) prompt, count_llm st).

(** [LLMService._call_openai_api]: the recursion on [retry_count] stops at 2. *)
Equations call_openai_api (w : World) (prompt : str) (retry_count : nat)
  (st : Calls) : outcome str * Calls by wf (2 - retry_count) lt :=
call_openai_api w prompt retry_count st with chat_request w prompt st := {
  | (Ok content, st') => (Ok (strip content), st')
  | (Raise e, st') with caught_by [APIError] e := {
    | false => (Raise e, st')
    | true with decide (retry_count < 2) := {
      | left _ => call_openai_api w prompt (S retry_count) st'
      | right _ => (Raise (Exn RuntimeError (py "OpenAI API 呼叫失敗")), st')
      }
    }
  }.
Next Obligation. lia. Qed.

(** The text handed to [json.loads]: the response without the optional code
    fence. *)
Definition strip_code_fence (response_text : str) : str :=
  let cleaned_text := strip response_text in
  let cleaned_text :=
    if startswith cleaned_text (py "```json") then slice_from 7 cleaned_text
    else cleaned_text in
  let cleaned_text :=
    if startswith cleaned_text (py "```") then slice_from 3 cleaned_text
    else cleaned_text in
  let cleaned_text :=
    if endswith cleaned_text (py "```") then slice_to_minus 3 cleaned_text
    else cleaned_text in
  strip cleaned_text.

Definition default_error_analysis : dict := dict_of [
  (py "substitutions", PInt 0); (py "deletions", PInt 0);
  (py "insertions", PInt 0); (py "total_errors", PInt 0)].

(** [required_fields], in the order of the literal. *)
Definition required_fields : list (str * pyval) := [
  (py "summary", PStr (py "分析完成"));
  (py "accuracy_score", PFloat (Fin 0));
  (py "semantic_similarity", PFloat (Fin 0));
  (py "error_analysis", PDict default_error_analysis);
  (py "key_differences", PList []);
  (py "suggestions", PList []);
  (py "reasoning", PStr [])].

(** [d.setdefault(k, v)] *)
Definition setdefault (d : dict) (kv : str * pyval) : dict :=
  match d !! kv.1 with
  | Some _ => d
  | None => <[kv.1 := kv.2]> d
  end.

(** [d.get(k, default)] *)
Definition dict_get (d : dict) (k : str) (default : pyval) : pyval :=
  match d !! k with
  | Some v => v
  | None => default
  end.

Definition is_dict (v : pyval) : bool :=
  match v with PDict _ => true | _ => false end.

(** [max(0, min(100, x))] *)
Definition clamp_score (x : pynum) : pyval := py_max_int 0 (py_min_int 100 x).

(** The body of the [try] block of [_parse_comparison_response], after
    [json.loads] has produced [loaded]. *)
Definition validate_comparison (w : World) (loaded : pyval) : outcome dict :=
  match loaded with
  | PDict result =>
    let result := foldl setdefault result required_fields in
    let result :=
      if is_dict (dict_get result (py "error_analysis") PNone) then result
      else <[py "error_analysis" := PDict default_error_analysis]> result in
    match to_float (float_of_str w)
            (dict_get result (py "accuracy_score") (PInt 0)) with
    | Raise e => Raise e
    | Ok a =>
      let result := <[py "accuracy_score" := clamp_score a]> result in
      match to_float (float_of_str w)
              (dict_get result (py "semantic_similarity") (PInt 0)) with
      | Raise e => Raise e
      | Ok s => Ok (<[py "semantic_similarity" := clamp_score s]> result)
      end
    end
  | _ =>
    (* [result.setdefault] on a value that is not a mapping *)
    Raise (Exn AttributeError
             (py "'" ++ type_name loaded
              ++ py "' object has no attribute 'setdefault'"))
  end.

(** [LLMService._parse_comparison_response] *)
Definition parse_comparison_response (w : World) (response_text : str)
  : outcome dict :=
  let wrapped :=
    Raise (Exn RuntimeError (py "無法解析LLM的回應: " ++ response_text)) in
  match json_loads w (strip_code_fence response_text) with
  | None =>
    let e := json_loads_error w (strip_code_fence response_text) in
    if caught_by [JSONDecodeError; TypeError] e then wrapped else Raise e
  | Some loaded =>
    match validate_comparison w loaded with
    | Ok result => Ok result
    | Raise e =>
      if caught_by [JSONDecodeError; TypeError] e then wrapped else Raise e
    end
  end.

(** [not text or not text.strip()] *)
Definition blank (text : str) : bool :=
  match text with
  | [] => true
  | _ => match strip text with [] => true | _ => false end
  end.

(** [LLMService.compare_text_accuracy] *)
Definition service_compare_text_accuracy (w : World)
  (transcribed_text reference_text : str) : M dict :=
  if blank transcribed_text then raise ValueError (py "轉錄文字不能為空")
  else if blank reference_text then raise ValueError (py "標準文本不能為空")
  else
    try_except
      (let norm_transcribed :=
         normalize_text (str_lower w) (EVALUATION_CONFIG w) transcribed_text in
       let norm_reference :=
         normalize_text (str_lower w) (EVALUATION_CONFIG w) reference_text in
       let prompt := build_comparison_prompt w norm_reference norm_transcribed in
       let! response_text := call_openai_api w prompt 0 in
       fun st => (parse_comparison_response w response_text, st))
      [APIError; RuntimeError; ValueError]
      (fun e => raise RuntimeError (py "AI 分析過程發生錯誤: " ++ exn_msg e)).

(** The module-level [compare_text_accuracy]; [llm_service] is the global,
    [None] when the service failed to initialise. *)
Definition compare_text_accuracy (w : World) (llm_service : option LLMService)
  (transcribed_text reference_text : str) : M dict :=
  match llm_service with
  | None => raise RuntimeError (py "文字比對分析服務不可用")
  | Some _ => service_compare_text_accuracy w transcribed_text reference_text
  end.

(** [OPENAI_LLM_CONFIG] *)
Record LLMConfig := {
  llm_api_key : option str;
  cfg_model : str;
  cfg_temperature : Q;
  cfg_max_tokens : Z;
  cfg_top_p : Q
}.

(** [LLMService.__init__] *)
Definition LLMService_init (c : LLMConfig) : outcome LLMService :=
  match llm_api_key c with
  | None | Some [] => Raise (Exn RuntimeError (py "缺少 OPENAI_API_KEY"))
  | Some _ =>
    Ok {| llm_model := cfg_model c; llm_temperature := cfg_temperature c;
          llm_max_tokens := cfg_max_tokens c; llm_top_p := cfg_top_p c |}
  end.

(** The module-level global [llm_service]. *)
Definition init_llm_service (c : LLMConfig) : outcome (option LLMService) :=
  match LLMService_init c with
  | Ok s => Ok (Some s)
  | Raise e =>
    if caught_by [RuntimeError; ValueError] e then Ok None else Raise e
  end.

End LLM.
Export LLM.

(* ===================================================================== *)
(** * [services/stt.py] *)
(* ===================================================================== *)

Module STT.

(** An operation of the audio layer or of the file system either completes
    or fails with a message; the failure is raised as the exception class the
    library documents for it. *)
Inductive io (A : Type) :=
| Done (a : A)
| Fails (msg : str).
Arguments Done {A} a.
Arguments Fails {A} msg.

Definition run_io {S A} (cls : exn_class) (r : io A) : ST S A :=
  match r with
  | Done a => ret a
  | Fails msg => raise cls msg
  end.

(** What the audio layer and the operating system do during one call of a
    recorder method. *)
Record AudioEnv := {
  pyaudio_init : io unit;        (* [pyaudio.PyAudio()], [IOError] *)
  device_count : nat;            (* [get_device_count()] *)
  open_stream : io unit;         (* [audio.open(...)], [IOError] *)
  thread_start : io unit;        (* [Thread.start()], [RuntimeError] *)
  thread_alive : bool;           (* [record_thread.is_alive()] *)
  inflight_frame : option (list N);
      (* a read of the capture thread that completes during [join] *)
  stop_stream : io unit;         (* [stream.stop_stream()], [IOError] *)
  close_stream : io unit;        (* [stream.close()], [IOError] *)
  terminate : io unit;           (* [audio.terminate()], [IOError] *)
  mkstemp : io str;              (* [tempfile.mkstemp], [OSError] *)
  wave_write : io unit           (* writing the WAV file, [IOError] *)
}.

Module AudioRecorder.

Definition frame := list N.

Inductive PyAudio := PyAudioInstance.
Inductive Stream := StreamInstance.
Inductive Thread := ThreadInstance.

Definition chunk : Z := 1024.
Definition channels : Z := 1.
Definition sample_rate : Z := 16000.

(** The mutable attributes of an [AudioRecorder]. *)
Record t := {
  is_recording : bool;
  audio_data : list frame;
  audio : option PyAudio;
  stream : option Stream;
  record_thread : option Thread
}.

(** The attributes [AudioRecorder.__init__] sets when it completes. *)
Definition init : t := {|
  is_recording := false;
  audio_data := [];
  audio := None;
  stream := None;
  record_thread := None
|}.

(** [AudioRecorder.__init__]: before the attributes are set, a temporary
    [pyaudio.PyAudio()] is created to read the sample width and terminated;
    either operation may raise [IOError], and the constructor then raises
    with none of the attributes of [t] set. *)
Definition construct (env : AudioEnv) : outcome t :=
  match pyaudio_init env with
  | Fails msg => Raise (Exn OSError msg)
  | Done _ =>
    match terminate env with
    | Fails msg => Raise (Exn OSError msg)
    | Done _ => Ok init
    end
  end.

Definition set_is_recording (v : bool) (self : t) : t :=
  {| is_recording := v; audio_data := audio_data self; audio := audio self;
     stream := stream self; record_thread := record_thread self |}.

Definition set_audio_data (v : list frame) (self : t) : t :=
  {| is_recording := is_recording self; audio_data := v; audio := audio self;
     stream := stream self; record_thread := record_thread self |}.

Definition set_audio (v : option PyAudio) (self : t) : t :=
  {| is_recording := is_recording self; audio_data := audio_data self;
     audio := v; stream := stream self;
     record_thread := record_thread self |}.

Definition set_stream (v : option Stream) (self : t) : t :=
  {| is_recording := is_recording self; audio_data := audio_data self;
     audio := audio self; stream := v;
     record_thread := record_thread self |}.

Definition set_record_thread (v : option Thread) (self : t) : t :=
  {| is_recording := is_recording self; audio_data := audio_data self;
     audio := audio self; stream := stream self; record_thread := v |}.

(** [AudioRecorder._cleanup_audio] *)
Definition cleanup_audio (env : AudioEnv) : ST t unit :=
  try_except
    (let! _ :=
       (fun self =>
          match stream self with
          | Some _ =>
            (let! _ := run_io OSError (stop_stream env) in
             let! _ := run_io OSError (close_stream env) in
             modify (set_stream None)) self
          | None => ret tt self
          end) in
     fun self =>
       match audio self with
       | Some _ =>
         (let! _ := run_io OSError (terminate env) in
          modify (set_audio None)) self
       | None => ret tt self
       end)
    [OSError; AttributeError]
    (fun _ => ret tt).

(** [AudioRecorder.start_recording] *)
Definition start_recording (env : AudioEnv) : ST t bool :=
  fun self =>
    if is_recording self then (Ok false, self)
    else
      try_except
        (let! _ := run_io OSError (pyaudio_init env) in
         let! _ := modify (set_audio (Some PyAudioInstance)) in
         if (device_count env =? 0)%nat then
           raise RuntimeError (py "未找到音頻設備")
         else
           let! _ := run_io OSError (open_stream env) in
           let! _ := modify (set_stream (Some StreamInstance)) in
           let! _ := modify (set_audio_data []) in
           let! _ := modify (set_is_recording true) in
           let! _ := modify (set_record_thread (Some ThreadInstance)) in
           let! _ := run_io RuntimeError (thread_start env) in
           ret true)
        [RuntimeError; OSError]
        (fun _ => let! _ := cleanup_audio env in ret false)
        self.

(** One iteration of the loop of [AudioRecorder._record_audio], run by the
    capture thread; the result tells whether the loop continues. *)
Definition record_audio_step (read : io frame) : ST t bool :=
  fun self =>
    if is_recording self && bool_decide (is_Some (stream self)) then
      match read with
      | Done data => (Ok true, set_audio_data (audio_data self ++ [data]) self)
      | Fails _ => (Ok false, self)
      end
    else (Ok false, self).

(** [record_thread.join(timeout=2.0)] when the thread is alive: a read that
    was in flight when the flag was cleared may still append its frame. *)
Definition join_thread (env : AudioEnv) : ST t unit :=
  fun self =>
    match record_thread self with
    | Some _ =>
      if thread_alive env then
        match inflight_frame env with
        | Some data =>
          (Ok tt, set_audio_data (audio_data self ++ [data]) self)
        | None => (Ok tt, self)
        end
      else (Ok tt, self)
    | None => (Ok tt, self)
    end.

(** [AudioRecorder._save_audio_to_file] *)
Definition save_audio_to_file (env : AudioEnv) : ST t str :=
  let! temp_path := run_io OSError (mkstemp env) in
  try_except
    (let! _ := run_io OSError (wave_write env) in ret temp_path)
    [OSError; WaveError]
    (fun e => raise RuntimeError (py "儲存音頻檔案失敗: " ++ exn_msg e)).

(** [AudioRecorder.stop_recording]; [None] is the empty result. *)
Definition stop_recording (env : AudioEnv) : ST t (option str) :=
  fun self =>
    if negb (is_recording self) then (Ok None, self)
    else
      try_except
        (let! _ := modify (set_is_recording false) in
         let! _ := join_thread env in
         let! data := gets audio_data in
         match data with
         | [] => let! _ := cleanup_audio env in ret None
         | _ =>
           let! temp_file := save_audio_to_file env in
           let! _ := cleanup_audio env in
           ret (Some temp_file)
         end)
        [RuntimeError; OSError; InterruptedError]
        (fun _ => let! _ := cleanup_audio env in ret None)
        self.

(** [AudioRecorder.get_recording_duration], in seconds: the double that
    the division of the two [int]s returns. *)
Definition get_recording_duration (self : t) : Q :=
  if negb (is_recording self) then 0%Q
  else
    match audio_data self with
    | [] => 0%Q
    | _ =>
      let total_frames := (Z.of_nat (length (audio_data self)) * chunk)%Z in
      true_div total_frames sample_rate
    end.

(** [AudioRecorder.__del__] on a recorder whose [__init__] completed;
    [env_stop] is the audio layer during the call of [stop_recording], [env]
    during the final [_cleanup_audio]. *)
Definition del_constructed (env_stop env : AudioEnv) : ST t unit :=
  let! _ :=
    (fun self =>
       if is_recording self then
         (let! _ := stop_recording env_stop in ret tt) self
       else ret tt self) in
  cleanup_audio env.

(** [AudioRecorder.__del__].  The object is [Some self] when [__init__]
    completed and [None] when it raised: the attributes of [t] were then
    never set, and reading [self.is_recording] raises [AttributeError]. *)
Definition del (env_stop env : AudioEnv) : ST (option t) unit :=
  fun object =>
    match object with
    | Some self =>
      let (o, self') := del_constructed env_stop env self in (o, Some self')
    | None =>
      (Raise (Exn AttributeError
                (py "'AudioRecorder' object has no attribute 'is_recording'")),
       None)
    end.

End AudioRecorder.

(** [OPENAI_STT_CONFIG] and [STT_MODE] *)
Record STTConfig := {
  api_key : option str;
  stt_model : str;
  stt_language : option str;
  stt_response_format : str;
  stt_temperature : Q;
  STT_MODE : str
}.

Module OpenAISTTClient.

Record t := {
  model : str;
  language : option str;
  response_format : str;
  temperature : Q
}.

(** [OpenAISTTClient.__init__] *)
Definition init (c : STTConfig) : outcome t :=
  match api_key c with
  | None | Some [] => Raise (Exn RuntimeError (py "缺少 OPENAI_API_KEY"))
  | Some _ =>
    Ok {| model := stt_model c; language := stt_language c;
          response_format := stt_response_format c;
          temperature := stt_temperature c |}
  end.

Definition max_size : Z := 25 * 1024 * 1024.

(** [OpenAISTTClient._handle_transcription_error] *)
Definition handle_transcription_error {A} (w : World) (error : exn) : M A :=
  let error_msg := exn_msg error in
  if contains (py "Unrecognized file format") error_msg then
    raise ValueError (py "檔案格式不被支援或檔案損壞")
  else if contains (py "file too large") (str_lower w error_msg) then
    raise ValueError (py "檔案超過 25MB 限制")
  else raise RuntimeError (py "語音識別檔案處理失敗: " ++ error_msg).

(** One request to the transcription backend, on the opened file. *)
Definition transcription_request (w : World) (audio_file_path : str) : M str :=
  fun st =>
    match file_open w audio_file_path with
    | Some msg => (Raise (Exn OSError msg), st)
    | None =>
      (transcriptions_create w (stt_calls st) audio_file_path, count_stt st)
    end.

(** [OpenAISTTClient.transcribe_audio]: the transcript and the confidence. *)
Definition transcribe_audio (w : World) (audio_file_path : str)
  : M (str * pynum) :=
  match audio_file_path with
  | [] => raise ValueError (py "音頻檔案路徑不能為空")
  | _ =>
    match file_size w audio_file_path with
    | None =>
      raise FileNotFoundError (py "音頻檔案不存在: " ++ audio_file_path)
    | Some file_size =>
      if (file_size >? max_size)%Z then
        raise ValueError
          (py "檔案過大: " ++ format_mb w file_size ++ py "MB，超過 25MB 限制")
      else if (file_size <? 1024)%Z then
        raise ValueError (py "檔案過小，可能沒有有效的音頻內容")
      else
        try_clauses
          (let! text := transcription_request w audio_file_path in
           let transcript := strip text in
           match transcript with
           | [] =>
             raise ValueError
               (py "無法識別語音內容，檔案可能損壞或不包含語音")
           | _ => ret (transcript, Fin 1)
           end)
          [([APIError],
            fun e => raise RuntimeError (py "OpenAI 服務錯誤: " ++ exn_msg e));
           ([OSError; ValueError],
            fun e => handle_transcription_error w e)]
    end
  end.

End OpenAISTTClient.

Module STTService.

Record t := {
  mode : str;
  client : OpenAISTTClient.t;
  recorder : AudioRecorder.t
}.

Definition set_recorder (r : AudioRecorder.t) (self : t) : t :=
  {| mode := mode self; client := client self; recorder := r |}.

Definition str_eqb (a b : str) : bool := bool_decide (a = b).

(** [STTService.__init__]; [env] is the audio layer while the recorder is
    constructed. *)
Definition init (env : AudioEnv) (c : STTConfig) : outcome t :=
  if str_eqb (STT_MODE c) (py "openai") then
    match OpenAISTTClient.init c with
    | Ok cl =>
      match AudioRecorder.construct env with
      | Ok r => Ok {| mode := STT_MODE c; client := cl; recorder := r |}
      | Raise e => Raise e
      end
    | Raise e => Raise e
    end
  else Raise (Exn ValueError (py "不支援的 STT 模式: " ++ STT_MODE c)).

(** [STTService.transcribe_audio] *)
Definition transcribe_audio (w : World) (self : t) (audio_file_path : str)
  : M (str * pynum) :=
  match audio_file_path with
  | [] => raise ValueError (py "音頻檔案路徑不能為空")
  | _ =>
    try_except
      (OpenAISTTClient.transcribe_audio w audio_file_path)
      [RuntimeError; ValueError]
      (fun e => raise RuntimeError (py "語音識別失敗: " ++ exn_msg e))
  end.

(** The recorder methods act on the [recorder] attribute. *)
Definition on_recorder {A} (m : ST AudioRecorder.t A) : ST t A :=
  fun self =>
    let (o, r) := m (recorder self) in (o, set_recorder r self).

Definition start_recording (env : AudioEnv) : ST t bool :=
  on_recorder (AudioRecorder.start_recording env).

Definition stop_recording (env : AudioEnv) : ST t (option str) :=
  on_recorder (AudioRecorder.stop_recording env).

Definition is_recording (self : t) : bool :=
  AudioRecorder.is_recording (recorder self).

Definition get_recording_duration (self : t) : Q :=
  AudioRecorder.get_recording_duration (recorder self).

End STTService.

(** The module-level global [stt_service]: [None] unless the constructor
    succeeds; its [RuntimeError] and [ValueError] are logged and dropped,
    and any other exception ends the import of the module. *)
Definition init_stt_service (env : AudioEnv) (c : STTConfig)
  : outcome (option STTService.t) :=
  match STTService.init env c with
  | Ok s => Ok (Some s)
  | Raise e =>
    if caught_by [RuntimeError; ValueError] e then Ok None else Raise e
  end.

Definition unavailable {S A} : ST S A := raise RuntimeError (py "STT 服務不可用").

(** The module-level functions; the state is the global [stt_service]. *)
Definition transcribe_audio (w : World) (stt_service : option STTService.t)
  (audio_file_path : str) : M (str * pynum) :=
  match stt_service with
  | None => unavailable
  | Some svc => STTService.transcribe_audio w svc audio_file_path
  end.

Definition on_service {A} (m : ST STTService.t A)
  : ST (option STTService.t) A :=
  fun stt_service =>
    match stt_service with
    | None => unavailable None
    | Some svc => let (o, svc') := m svc in (o, Some svc')
    end.

Definition start_recording (env : AudioEnv) : ST (option STTService.t) bool :=
  on_service (STTService.start_recording env).

Definition stop_recording (env : AudioEnv)
  : ST (option STTService.t) (option str) :=
  on_service (STTService.stop_recording env).

Definition is_recording : ST (option STTService.t) bool :=
  fun stt_service =>
    match stt_service with
    | None => (Ok false, stt_service)
    | Some svc => (Ok (STTService.is_recording svc), stt_service)
    end.

Definition get_recording_duration : ST (option STTService.t) Q :=
  fun stt_service =>
    match stt_service with
    | None => (Ok 0%Q, stt_service)
    | Some svc => (Ok (STTService.get_recording_duration svc), stt_service)
    end.

End STT.

(* ===================================================================== *)
(** * [services/evaluation.py] *)
(* ===================================================================== *)

Module Evaluation.

(** [EvaluationResult] *)
Record EvaluationResult := {
  evaluation_id : str;
  timestamp : str;
  audio_file : str;
  reference_text : str;
  transcription : dict;
  comparison : dict;
  evaluation_metrics : dict;
  processing_time : Q;
  success : bool;
  error_message : option str
}.

(** [EvaluationResult.__init__] *)
Definition new_result (w : World) : EvaluationResult := {|
  evaluation_id := uuid4 w;
  timestamp := now_isoformat w;
  audio_file := [];
  reference_text := [];
  transcription := ∅;
  comparison := ∅;
  evaluation_metrics := ∅;
  processing_time := 0%Q;
  success := false;
  error_message := None
|}.

Definition set_inputs (path ref : str) (r : EvaluationResult)
  : EvaluationResult :=
  {| evaluation_id := evaluation_id r; timestamp := timestamp r;
     audio_file := path; reference_text := ref;
     transcription := transcription r; comparison := comparison r;
     evaluation_metrics := evaluation_metrics r;
     processing_time := processing_time r; success := success r;
     error_message := error_message r |}.

Definition set_transcription (d : dict) (r : EvaluationResult)
  : EvaluationResult :=
  {| evaluation_id := evaluation_id r; timestamp := timestamp r;
     audio_file := audio_file r; reference_text := reference_text r;
     transcription := d; comparison := comparison r;
     evaluation_metrics := evaluation_metrics r;
     processing_time := processing_time r; success := success r;
     error_message := error_message r |}.

Definition set_comparison (d : dict) (r : EvaluationResult)
  : EvaluationResult :=
  {| evaluation_id := evaluation_id r; timestamp := timestamp r;
     audio_file := audio_file r; reference_text := reference_text r;
     transcription := transcription r; comparison := d;
     evaluation_metrics := evaluation_metrics r;
     processing_time := processing_time r; success := success r;
     error_message := error_message r |}.

Definition set_evaluation_metrics (d : dict) (r : EvaluationResult)
  : EvaluationResult :=
  {| evaluation_id := evaluation_id r; timestamp := timestamp r;
     audio_file := audio_file r; reference_text := reference_text r;
     transcription := transcription r; comparison := comparison r;
     evaluation_metrics := d;
     processing_time := processing_time r; success := success r;
     error_message := error_message r |}.

Definition set_processing_time (t : Q) (r : EvaluationResult)
  : EvaluationResult :=
  {| evaluation_id := evaluation_id r; timestamp := timestamp r;
     audio_file := audio_file r; reference_text := reference_text r;
     transcription := transcription r; comparison := comparison r;
     evaluation_metrics := evaluation_metrics r;
     processing_time := t; success := success r;
     error_message := error_message r |}.

Definition set_success (b : bool) (r : EvaluationResult) : EvaluationResult :=
  {| evaluation_id := evaluation_id r; timestamp := timestamp r;
     audio_file := audio_file r; reference_text := reference_text r;
     transcription := transcription r; comparison := comparison r;
     evaluation_metrics := evaluation_metrics r;
     processing_time := processing_time r; success := b;
     error_message := error_message r |}.

Definition set_error_message (m : option str) (r : EvaluationResult)
  : EvaluationResult :=
  {| evaluation_id := evaluation_id r; timestamp := timestamp r;
     audio_file := audio_file r; reference_text := reference_text r;
     transcription := transcription r; comparison := comparison r;
     evaluation_metrics := evaluation_metrics r;
     processing_time := processing_time r; success := success r;
     error_message := m |}.

(** The accuracy tiers and the labels stored under [accuracy_level]. *)
Inductive AccuracyLevel :=
| Excellent
| Good
| Fair
| NeedsImprovement.

Definition level_label (l : AccuracyLevel) : str :=
  match l with
  | Excellent => py "優秀"
  | Good => py "良好"
  | Fair => py "普通"
  | NeedsImprovement => py "需要改進"
  end.

Definition level_rank (l : AccuracyLevel) : nat :=
  match l with
  | Excellent => 3
  | Good => 2
  | Fair => 1
  | NeedsImprovement => 0
  end.

(** [a >= b]; values without a numeric order raise [TypeError]. *)
Definition py_ge (a b : pyval) : outcome bool :=
  match num_of a, num_of b with
  | Some x, Some y => Ok (num_le y x)
  | _, _ => Raise (Exn TypeError (py "'>=' not supported"))
  end.

(** The [if]/[elif] chain of [_calculate_evaluation_metrics]. *)
Definition accuracy_tier (thresholds : Thresholds) (accuracy_score : pyval)
  : outcome AccuracyLevel :=
  match py_ge accuracy_score (excellent thresholds) with
  | Raise e => Raise e
  | Ok true => Ok Excellent
  | Ok false =>
    match py_ge accuracy_score (good thresholds) with
    | Raise e => Raise e
    | Ok true => Ok Good
    | Ok false =>
      match py_ge accuracy_score (fair thresholds) with
      | Raise e => Raise e
      | Ok true => Ok Fair
      | Ok false => Ok NeedsImprovement
      end
    end
  end.

(** [EvaluationService._calculate_evaluation_metrics] *)
Definition calculate_evaluation_metrics (cfg : EvaluationConfig)
  (comparison : dict) (confidence : pynum) : outcome dict :=
  let accuracy_score := dict_get comparison (py "accuracy_score") (PInt 0) in
  let semantic_similarity :=
    dict_get comparison (py "semantic_similarity") (PInt 0) in
  let thresholds := get_evaluation_thresholds cfg in
  match accuracy_tier thresholds accuracy_score with
  | Raise e => Raise e
  | Ok level =>
    Ok (dict_of [
      (py "accuracy_score", accuracy_score);
      (py "semantic_similarity", semantic_similarity);
      (py "accuracy_level", PStr (level_label level));
      (py "confidence", PFloat confidence);
      (py "processing_status", PStr (py "completed"))])
  end.

(** The module-level globals the orchestrator reaches through its imports. *)
Record Services := {
  stt_service : option STT.STTService.t;
  llm_service : option LLMService
}.

(** The state of a call: the result object under construction and the
    backend call counters. *)
Definition EvalState : Type := EvaluationResult * Calls.

Definition update (f : EvaluationResult -> EvaluationResult)
  : ST EvalState unit :=
  modify (fun s => (f s.1, s.2)).

Definition call {A} (m : M A) : ST EvalState A :=
  fun s => let (o, st) := m s.2 in (o, (s.1, st)).

Definition pure_call {A} (o : outcome A) : ST EvalState A := fun s => (o, s).

Definition is_empty (d : dict) : bool := bool_decide (d = ∅).

(** The body of the [try] block of [evaluate_single_file]. *)
Definition evaluate_body (w : World) (g : Services)
  (audio_file_path reference_text : str) : ST EvalState unit :=
  let! _ := update (set_inputs audio_file_path reference_text) in
  let! tc := call (STT.transcribe_audio w (stt_service g) audio_file_path) in
  let transcript := tc.1 in
  let confidence := tc.2 in
  let! _ := update (set_transcription (dict_of [
    (py "file_path", PStr audio_file_path);
    (py "file_name", PStr (path_name w audio_file_path));
    (py "transcript", PStr transcript);
    (py "confidence", PFloat confidence);
    (py "success", PBool true);
    (py "error", PNone)])) in
  let! comparison :=
    call (compare_text_accuracy w (llm_service g) transcript reference_text) in
  let comparison := <[py "success" := PBool true]> comparison in
  let! _ := update (set_comparison comparison) in
  let! metrics :=
    pure_call
      (calculate_evaluation_metrics (EVALUATION_CONFIG w) comparison
         confidence) in
  let! _ := update (set_evaluation_metrics metrics) in
  update (set_success true).

(** The placeholder records of the [except] clause. *)
Definition failed_transcription (w : World) (audio_file_path msg : str)
  : dict :=
  dict_of [
    (py "file_path", PStr audio_file_path);
    (py "file_name", PStr (path_name w audio_file_path));
    (py "transcript", PNone);
    (py "confidence", PFloat (Fin 0));
    (py "success", PBool false);
    (py "error", PStr msg)].

Definition failed_comparison (msg : str) : dict :=
  dict_of [
    (py "summary", PStr (py "評估失敗"));
    (py "accuracy_score", PFloat (Fin 0));
    (py "semantic_similarity", PFloat (Fin 0));
    (py "error_analysis", PDict default_error_analysis);
    (py "key_differences", PList []);
    (py "suggestions",
       PList [PStr (py "檢查音頻檔案"); PStr (py "確認網路連線")]);
    (py "reasoning", PStr (py "評估過程發生錯誤: " ++ msg));
    (py "success", PBool false);
    (py "error", PStr msg)].

Definition failed_metrics : dict :=
  dict_of [
    (py "accuracy_score", PFloat (Fin 0));
    (py "semantic_similarity", PFloat (Fin 0));
    (py "accuracy_level", PStr (py "評估失敗"));
    (py "confidence", PFloat (Fin 0));
    (py "processing_status", PStr (py "failed"))].

(** The [except (RuntimeError, ValueError) as e] clause. *)
Definition evaluate_handler (w : World) (audio_file_path : str) (e : exn)
  : ST EvalState unit :=
  let! _ := update (set_error_message (Some (exn_msg e))) in
  let! _ := update (set_success false) in
  let! _ := update (fun r =>
    if is_empty (transcription r) then
      set_transcription (failed_transcription w audio_file_path (exn_msg e)) r
    else r) in
  let! _ := update (fun r =>
    if is_empty (comparison r) then
      set_comparison (failed_comparison (exn_msg e)) r
    else r) in
  update (set_evaluation_metrics failed_metrics).

(** [EvaluationService.evaluate_single_file]: [try], [except], [finally] and
    the final [return result]. *)
Definition evaluate_single_file (w : World) (g : Services)
  (audio_file_path reference_text : str) : M EvaluationResult :=
  fun st =>
    let result := new_result w in
    let '(o, (result, st')) :=
      try_except
        (evaluate_body w g audio_file_path reference_text)
        [RuntimeError; ValueError]
        (evaluate_handler w audio_file_path)
        (result, st) in
    let result := set_processing_time (elapsed w) result in
    match o with
    | Ok _ => (Ok result, st')
    | Raise e => (Raise e, st')
    end.

(** The module-level [evaluate_single_file]; [evaluation_service] is the
    global, [true] when the service object exists. *)
Definition module_evaluate_single_file (evaluation_service : bool)
  (w : World) (g : Services) (audio_file_path reference_text : str)
  : M EvaluationResult :=
  if evaluation_service then
    evaluate_single_file w g audio_file_path reference_text
  else raise RuntimeError (py "評估服務不可用，請檢查系統配置").

(** [EvaluationResult.to_dict] *)
Definition to_dict (r : EvaluationResult) : dict :=
  dict_of [
    (py "evaluation_id", PStr (evaluation_id r));
    (py "timestamp", PStr (timestamp r));
    (py "audio_file", PStr (audio_file r));
    (py "reference_text", PStr (reference_text r));
    (py "transcription", PDict (transcription r));
    (py "comparison", PDict (comparison r));
    (py "evaluation_metrics", PDict (evaluation_metrics r));
    (py "processing_time", PFloat (Fin (processing_time r)));
    (py "success", PBool (success r));
    (py "error_message",
       match error_message r with
       | Some m => PStr m
       | None => PNone
       end)].

End Evaluation.
Export Evaluation.

(* ===================================================================== *)
(** * [run.py] *)
(* ===================================================================== *)

Module Run.

(** [validate_environment] *)
Definition validate_environment (api_key : option str)
  (cfg : EvaluationConfig) : outcome bool :=
  match validate_config api_key cfg with
  | Ok _ => Ok true
  | Raise e => if caught_by [ValueError] e then Ok false else Raise e
  end.

End Run.

(* ===================================================================== *)
(** * [app.py] *)
(* ===================================================================== *)

Module App.

(** [bool(v)] *)
Definition truthy (v : pyval) : bool :=
  match v with
  | PNone => false
  | PBool b => b
  | PInt z => negb (z =? 0)%Z
  | PFloat (Fin q) => negb (Qeq_bool q 0)
  | PFloat _ => true
  | PStr s => match s with [] => false | _ => true end
  | PList l => match l with [] => false | _ => true end
  | PDict d => negb (bool_decide (d = ∅))
  end.

(** What a view function returns: a value, or a value with a status code. *)
Inductive endpoint_result :=
| Body (data : pyval)
| BodyStatus (data : pyval) (status_code : Z).

(** A response: the JSON body and the status code. *)
Definition Response : Type := dict * Z.

(** [try: m finally: final] *)
Definition try_finally {S A} (m : ST S A) (final : ST S unit) : ST S A :=
  fun s =>
    let (o, s1) := m s in
    match final s1 with
    | (Ok _, s2) => (o, s2)
    | (Raise e, s2) => (Raise e, s2)
    end.

(** The decorator [api_response].  In the body of a success the entries of
    [data] come last and win over [success] and [timestamp]. *)
Definition api_response {S} (w : World) (func : ST S endpoint_result)
  : ST S Response :=
  try_except
    (let! result := func in
     let data := match result with Body d | BodyStatus d _ => d end in
     let status_code :=
       match result with Body _ => 200%Z | BodyStatus _ c => c end in
     match data with
     | PDict d =>
       ret (d ∪ dict_of [(py "success", PBool true);
                         (py "timestamp", PStr (now_isoformat w))],
            status_code)
     | _ => raise TypeError (py "API endpoint must return a dictionary.")
     end)
    [ValueError; RuntimeError; TypeError]
    (fun e =>
       ret (dict_of [(py "success", PBool false);
                     (py "timestamp", PStr (now_isoformat w));
                     (py "error", PStr (exn_msg e))],
            500%Z)).

(** The process state the views act on: the global [stt_service], the
    backend call counters and the files removed with [unlink]. *)
Record AppState := {
  app_stt_service : option STT.STTService.t;
  app_calls : Calls;
  app_unlinked : list str
}.

Definition with_stt {A} (m : ST (option STT.STTService.t) A)
  : ST AppState A :=
  fun s =>
    let (o, g) := m (app_stt_service s) in
    (o, {| app_stt_service := g; app_calls := app_calls s;
           app_unlinked := app_unlinked s |}).

Definition with_calls {A} (m : M A) : ST AppState A :=
  fun s =>
    let (o, c) := m (app_calls s) in
    (o, {| app_stt_service := app_stt_service s; app_calls := c;
           app_unlinked := app_unlinked s |}).

(** [if filepath.exists(): filepath.unlink()] *)
Definition unlink_if_exists (w : World) (filepath : str) : ST AppState unit :=
  fun s =>
    match file_size w filepath with
    | Some _ =>
      (Ok tt, {| app_stt_service := app_stt_service s;
                 app_calls := app_calls s;
                 app_unlinked := filepath :: app_unlinked s |})
    | None => (Ok tt, s)
    end.

Definition error_body (msg : str) : pyval :=
  PDict (dict_of [(py "error", PStr msg)]).

(** [start_recording_api], before decoration *)
Definition start_recording_view (env : STT.AudioEnv)
  : ST AppState endpoint_result :=
  let! started := with_stt (STT.start_recording env) in
  if started : bool then
    ret (Body (PDict (dict_of [(py "message", PStr (py "錄音已開始"));
                               (py "recording", PBool true)])))
  else
    ret (BodyStatus (error_body (py "無法開始錄音，請檢查麥克風設定")) 400).

(** [recording_status], before decoration *)
Definition recording_status_view : ST AppState endpoint_result :=
  let! recording := with_stt STT.is_recording in
  let! duration := with_stt STT.get_recording_duration in
  ret (Body (PDict (dict_of [(py "recording", PBool recording);
                             (py "duration", PFloat (Fin duration))]))).

(** [(request.get_json(silent=True) or {}).get("reference_text", "").strip()];
    [request_json] is what [get_json] returns, [None] when the request has
    no JSON body. *)
Definition request_reference_text {S} (request_json : option pyval)
  : ST S str :=
  let data :=
    match request_json with
    | Some v => if truthy v then v else PDict ∅
    | None => PDict ∅
    end in
  match data with
  | PDict d =>
    match dict_get d (py "reference_text") (PStr []) with
    | PStr text => ret (strip text)
    | v =>
      raise AttributeError
        (py "'" ++ type_name v ++ py "' object has no attribute 'strip'")
    end
  | v =>
    raise AttributeError
      (py "'" ++ type_name v ++ py "' object has no attribute 'get'")
  end.

(** [stop_recording_api], before decoration; [evaluation_service] and
    [llm_service] are the globals of the two other service modules. *)
Definition stop_recording_view (w : World) (evaluation_service : bool)
  (llm_service : option LLMService) (env : STT.AudioEnv)
  (request_json : option pyval) : ST AppState endpoint_result :=
  let! audio_file_path_str := with_stt (STT.stop_recording env) in
  match audio_file_path_str with
  | None | Some [] =>
    ret (BodyStatus (error_body (py "沒有錄音資料或錄音失敗")) 400)
  | Some filepath =>
    let! reference_text := request_reference_text request_json in
    match reference_text with
    | [] => ret (BodyStatus (error_body (py "缺少標準參考文本")) 400)
    | _ =>
      try_finally
        (let! result :=
           (fun s =>
              with_calls
                (module_evaluate_single_file evaluation_service w
                   {| stt_service := app_stt_service s;
                      llm_service := llm_service |}
                   filepath reference_text) s) in
         ret (Body (PDict (to_dict result))))
        (unlink_if_exists w filepath)
    end
  end.

(** The three decorated views. *)
Definition start_recording_api (w : World) (env : STT.AudioEnv)
  : ST AppState Response :=
  api_response w (start_recording_view env).

Definition recording_status (w : World) : ST AppState Response :=
  api_response w recording_status_view.

Definition stop_recording_api (w : World) (evaluation_service : bool)
  (llm_service : option LLMService) (env : STT.AudioEnv)
  (request_json : option pyval) : ST AppState Response :=
  api_response w
    (stop_recording_view w evaluation_service llm_service env request_json).

End App.

(* ===================================================================== *)
(** * Concrete environments *)
(* ===================================================================== *)

Module Fixtures.

(** [str.lower] on Basic Latin; it agrees with Python on ASCII text. *)
Definition ascii_lower_char (c : codepoint) : codepoint :=
  if ((65 <=? c) && (c <=? 90))%N then (c + 32)%N else c.

Definition ascii_lower (s : str) : str := map ascii_lower_char s.

Definition api_failure : outcome str :=
  Raise (Exn APIError (py "Connection error.")).

(** A world described by its file system, its two backends and its JSON
    decoder. *)
Definition world (fs : str -> option Z)
  (whisper gpt : nat -> str -> outcome str)
  (loads : str -> option pyval) : World := {|
  str_lower := ascii_lower;
  json_loads := loads;
  json_loads_error :=
    fun _ => Exn JSONDecodeError
               (py "Expecting value: line 1 column 1 (char 0)");
  json_dumps := fun _ => py "{}";
  float_of_str := fun _ => None;
  format_mb := fun _ => py "30.0";
  path_name := fun p => p;
  EVALUATION_CONFIG := default_config;
  file_size := fs;
  file_open := fun _ => None;
  transcriptions_create := whisper;
  chat_completions_create := gpt;
  uuid4 := py "00000000-0000-4000-8000-000000000000";
  now_isoformat := py "2025-01-01T00:00:00";
  elapsed := 0%Q
|}.

(** No file exists and both backends are unreachable. *)
Definition offline : World :=
  world (fun _ => None) (fun _ _ => api_failure) (fun _ _ => api_failure)
    (fun _ => None).

(** Every path is a file of [size] bytes. *)
Definition with_file (size : Z) : World :=
  world (fun _ => Some size) (fun _ _ => api_failure)
    (fun _ _ => api_failure) (fun _ => None).

Definition stt_config (key : option str) : STT.STTConfig := {|
  STT.api_key := key;
  STT.stt_model := py "whisper-1";
  STT.stt_language := None;
  STT.stt_response_format := py "json";
  STT.stt_temperature := 0%Q;
  STT.STT_MODE := py "openai"
|}.

Definition client : STT.OpenAISTTClient.t := {|
  STT.OpenAISTTClient.model := py "whisper-1";
  STT.OpenAISTTClient.language := None;
  STT.OpenAISTTClient.response_format := py "json";
  STT.OpenAISTTClient.temperature := 0%Q
|}.

Definition service (r : STT.AudioRecorder.t) : STT.STTService.t := {|
  STT.STTService.mode := py "openai";
  STT.STTService.client := client;
  STT.STTService.recorder := r
|}.

Definition llm : LLMService := {|
  llm_model := py "gpt-4o-mini";
  llm_temperature := (3 # 10)%Q;
  llm_max_tokens := 800;
  llm_top_p := (9 # 10)%Q
|}.

Definition services : Services := {|
  stt_service := Some (service STT.AudioRecorder.init);
  llm_service := Some llm
|}.

(** An audio layer on which every operation succeeds. *)
Definition healthy_audio : STT.AudioEnv := {|
  STT.pyaudio_init := STT.Done tt;
  STT.device_count := 1;
  STT.open_stream := STT.Done tt;
  STT.thread_start := STT.Done tt;
  STT.thread_alive := true;
  STT.inflight_frame := None;
  STT.stop_stream := STT.Done tt;
  STT.close_stream := STT.Done tt;
  STT.terminate := STT.Done tt;
  STT.mkstemp := STT.Done (py "/tmp/recording_0.wav");
  STT.wave_write := STT.Done tt
|}.

(** The same, except that [stream.stop_stream()] fails. *)
Definition failing_stop_stream : STT.AudioEnv := {|
  STT.pyaudio_init := STT.Done tt;
  STT.device_count := 1;
  STT.open_stream := STT.Done tt;
  STT.thread_start := STT.Done tt;
  STT.thread_alive := true;
  STT.inflight_frame := None;
  STT.stop_stream := STT.Fails (py "Stream not open");
  STT.close_stream := STT.Done tt;
  STT.terminate := STT.Done tt;
  STT.mkstemp := STT.Done (py "/tmp/recording_0.wav");
  STT.wave_write := STT.Done tt
|}.

(** A recorder in the middle of a session with one captured frame. *)
Definition recording : STT.AudioRecorder.t := {|
  STT.AudioRecorder.is_recording := true;
  STT.AudioRecorder.audio_data := [[0; 0]%N];
  STT.AudioRecorder.audio := Some STT.AudioRecorder.PyAudioInstance;
  STT.AudioRecorder.stream := Some STT.AudioRecorder.StreamInstance;
  STT.AudioRecorder.record_thread := Some STT.AudioRecorder.ThreadInstance
|}.

(** A world whose JSON decoder returns [loaded] for every text. *)
Definition decoding (loaded : pyval) : World :=
  world (fun _ => None) (fun _ _ => api_failure) (fun _ _ => api_failure)
    (fun _ => Some loaded).

(** A backend payload with both scores out of range and nothing else. *)
Definition out_of_range_payload : dict :=
  dict_of [(py "accuracy_score", PInt (-10));
           (py "semantic_similarity", PInt 150)].

(** The backend text [{accuracy_score: null}], with the JSON quotes around
    the key, and the mapping it decodes to. *)
Definition null_score_text : str :=
  py "{" ++ [34%N] ++ py "accuracy_score" ++ [34%N] ++ py ": null}".

Definition null_score_payload : dict :=
  dict_of [(py "accuracy_score", PNone)].

(** The chat backend answers every request with [content]; the decoder
    rejects every text. *)
Definition answering (content : str) : World :=
  world (fun _ => None) (fun _ _ => api_failure) (fun _ _ => Ok content)
    (fun _ => None).

(** A two-kilobyte recording that the transcription backend hears as the
    reference sentence of the first prompt example; the chat backend answers
    and the decoder reads the answer as [loaded]. *)
Definition transcribing (loaded : pyval) : World :=
  world (fun _ => Some 2048%Z) (fun _ _ => Ok (py "今天天氣真好"))
    (fun _ _ => Ok (py "{}")) (fun _ => Some loaded).

(** A comparison that scores 100 on both scales. *)
Definition perfect_match : pyval :=
  PDict (dict_of [(py "accuracy_score", PInt 100);
                  (py "semantic_similarity", PInt 100)]).

(** A configuration that [validate_config] accepts, with the high-accuracy
    threshold below 75. *)
Definition low_bar : EvaluationConfig := {|
  text_normalization := true;
  punctuation_ignore := true;
  case_sensitive := false;
  min_similarity_threshold := Fin 60;
  high_accuracy_threshold := Fin 70;
  detailed_error_analysis := true;
  include_suggestions := true
|}.

(** Settings without an API key. *)
Definition llm_config (key : option str) : LLMConfig := {|
  llm_api_key := key;
  cfg_model := py "gpt-4o-mini";
  cfg_temperature := (3 # 10)%Q;
  cfg_max_tokens := 800;
  cfg_top_p := (9 # 10)%Q
|}.

(** An audio layer on which the capture thread cannot be started. *)
Definition failing_thread_start : STT.AudioEnv := {|
  STT.pyaudio_init := STT.Done tt;
  STT.device_count := 1;
  STT.open_stream := STT.Done tt;
  STT.thread_start := STT.Fails (py "can't start new thread");
  STT.thread_alive := false;
  STT.inflight_frame := None;
  STT.stop_stream := STT.Done tt;
  STT.close_stream := STT.Done tt;
  STT.terminate := STT.Done tt;
  STT.mkstemp := STT.Done (py "/tmp/recording_0.wav");
  STT.wave_write := STT.Done tt
|}.

(** The process state with the service holding recorder [r], no backend call
    made and no file removed. *)
Definition app_state (r : STT.AudioRecorder.t) : App.AppState := {|
  App.app_stt_service := Some (service r);
  App.app_calls := no_calls;
  App.app_unlinked := []
|}.

End Fixtures.

(* ===================================================================== *)
(** * Vocabulary of the statements *)
(* ===================================================================== *)

(** The failure of the module-level functions of [stt.py] when the global
    service is missing. *)
Definition stt_unavailable : exn := Exn RuntimeError (py "STT 服務不可用").


Definition not_found_error (path : str) : exn :=
  Exn FileNotFoundError (py "音頻檔案不存在: " ++ path).

Definition too_large_error (w : World) (size : Z) : exn :=
  Exn ValueError
    (py "檔案過大: " ++ format_mb w size ++ py "MB，超過 25MB 限制").

Definition too_small_error : exn :=
  Exn ValueError (py "檔案過小，可能沒有有效的音頻內容").

(** The numeric value of the [good] threshold, [max(75, low)]. *)
Definition good_num (low : pynum) : pynum :=
  if num_lt (Fin 75) low then low else Fin 75.

(** The chain of comparisons on numeric values. *)
Definition tier_num (high low s : pynum) : AccuracyLevel :=
  if num_le high s then Excellent
  else if num_le (good_num low) s then Good
  else if num_le low s then Fair
  else NeedsImprovement.

(** What [_calculate_evaluation_metrics] stores under [accuracy_level]. *)
Definition stored_accuracy_level (cfg : EvaluationConfig) (comparison : dict)
  (confidence : pynum) : outcome (option pyval) :=
  match calculate_evaluation_metrics cfg comparison confidence with
  | Ok metrics => Ok (metrics !! py "accuracy_level")
  | Raise e => Raise e
  end.

(** The order of the four labels, from needs improvement (0) to
    excellent (3). *)
Definition label_rank (label : str) : nat :=
  if bool_decide (label = py "優秀") then 3
  else if bool_decide (label = py "良好") then 2
  else if bool_decide (label = py "普通") then 1
  else 0.

(** The thresholds of the worked example: excellent 90, minimum
    similarity 60. *)
Definition thresholds_90_60 : Thresholds :=
  get_evaluation_thresholds default_config.

(** The first default listed for a key. *)
Fixpoint default_of (k : str) (l : list (str * pyval)) : option pyval :=
  match l with
  | [] => None
  | (k', v) :: r => if bool_decide (k' = k) then Some v else default_of k r
  end.

(** The mapping after the backfill and the repair of [error_analysis]. *)
Definition repaired (payload : dict) : dict :=
  let result := foldl setdefault payload required_fields in
  if is_dict (dict_get result (py "error_analysis") PNone) then result
  else <[py "error_analysis" := PDict default_error_analysis]> result.

(** The two fields that are clamped. *)
Definition score_field (k : str) : bool :=
  bool_decide (k = py "accuracy_score")
  || bool_decide (k = py "semantic_similarity").

(** The backend value of a score field: the payload's, or the default. *)
Definition backend_score (payload : dict) (k : str) : pyval :=
  dict_get payload k (PFloat (Fin 0)).

(** A stored score is a number within [0, 100]. *)
Definition in_score_range (v : pyval) : Prop :=
  exists n, num_of v = Some n /\
            num_le (Fin 0) n = true /\ num_le n (Fin 100) = true.

(** The state after [k] requests to the chat backend. *)
Fixpoint after_requests (k : nat) (st : Calls) : Calls :=
  match k with
  | 0 => st
  | S k' => count_llm (after_requests k' st)
  end.

(** The outcome of the [k]-th request (from 0) made from state [st]. *)
Definition attempt (w : World) (prompt : str) (st : Calls) (k : nat)
  : outcome str :=
  chat_completions_create w (llm_calls (after_requests k st)) prompt.

(** The request failed with an [APIError]. *)
Definition api_error (o : outcome str) : bool :=
  match o with
  | Ok _ => false
  | Raise e => caught_by [APIError] e
  end.

(** The failure raised after the third [APIError]. *)
Definition retries_exhausted : exn :=
  Exn RuntimeError (py "OpenAI API 呼叫失敗").

(** Character maps that leave whitespace alone. *)
Definition respects_space (f : codepoint -> codepoint) : Prop :=
  forall c, (isspace c = true -> f c = c) /\ isspace (f c) = isspace c.

(** The character map computed by the chain of [replace] calls. *)
Definition fullwidth_char (c : codepoint) : codepoint :=
  replace_char 12303 39 (replace_char 12302 39 (replace_char 12301 34
    (replace_char 12300 34 (replace_char 65307 59 (replace_char 65306 58
      (replace_char 65281 33 (replace_char 65311 63 (replace_char 12290 46
        (replace_char 65292 44 c))))))))).

(** The code points the chain rewrites. *)
Definition fullwidth_sources : list codepoint :=
  [65292; 12290; 65311; 65281; 65306; 65307; 12300; 12301; 12302; 12303]%N.

(** What the normalisation needs from [str.lower]. *)
Record lower_laws (lower : str -> str) : Prop := {
  lower_idem : forall s, lower (lower s) = lower s;
  lower_strip : forall s, lower (strip s) = strip (lower s);
  lower_collapse_ws :
    forall s, collapse_ws s = s -> collapse_ws (lower s) = lower s;
  lower_replace_fullwidth :
    forall s, replace_fullwidth s = s ->
              replace_fullwidth (lower s) = lower s;
  lower_remove_punct :
    forall s, remove_punct s = s -> remove_punct (lower s) = lower s
}.

(** A string in normal form for [cfg]. *)
Definition normalized (lower : str -> str) (cfg : EvaluationConfig)
  (r : str) : Prop :=
  strip r = r /\
  (text_normalization cfg = true ->
   collapse_ws r = r /\ replace_fullwidth r = r) /\
  (punctuation_ignore cfg = true -> remove_punct r = r) /\
  (case_sensitive cfg = false -> lower r = r).

Section RecorderStatements.

Import STT STT.AudioRecorder.

(** The release operations of the audio layer all succeed. *)
Definition releases (env : AudioEnv) : Prop :=
  stop_stream env = Done tt /\ close_stream env = Done tt /\
  terminate env = Done tt.

(** Both handles are released. *)
Definition released (self : t) : Prop :=
  stream self = None /\ audio self = None.

(** The states a recorder goes through when the release operations do not
    fail: from [__init__], by the two methods and by the capture thread. *)
Inductive reachable : t -> Prop :=
| reach_init : reachable init
| reach_start env self :
    reachable self -> releases env ->
    reachable (start_recording env self).2
| reach_stop env self :
    reachable self -> releases env ->
    reachable (stop_recording env self).2
| reach_capture read self :
    reachable self -> reachable (record_audio_step read self).2.

(** When not recording, the handles are released. *)
Definition idle_released (self : t) : Prop :=
  is_recording self = false -> released self.

End RecorderStatements.

(** [OPENAI_API_KEY] is set and not empty. *)
Definition key_set (api_key : option str) : bool :=
  match api_key with
  | Some (_ :: _) => true
  | _ => false
  end.

(** The three conditions [validate_config] checks. *)
Definition configured (api_key : option str) (cfg : EvaluationConfig) : bool :=
  key_set api_key
  && in_percent_range (min_similarity_threshold cfg)
  && in_percent_range (high_accuracy_threshold cfg).

(** The message of the [RuntimeError] that [_parse_comparison_response]
    raises for a response it cannot decode. *)
Definition unparsable (response_text : str) : exn :=
  Exn RuntimeError (py "無法解析LLM的回應: " ++ response_text).

(** The [AttributeError] of [setdefault] on a value that is not a mapping. *)
Definition no_setdefault (v : pyval) : exn :=
  Exn AttributeError
    (py "'" ++ type_name v ++ py "' object has no attribute 'setdefault'").

(** The failure of [float(v)], if any. *)
Definition float_failure (w : World) (v : pyval) : option exn :=
  match to_float (float_of_str w) v with
  | Ok _ => None
  | Raise e => Some e
  end.

(** The first score of the payload that [float] refuses, in the order the
    parser converts them. *)
Definition first_float_failure (w : World) (payload : dict) : option exn :=
  match float_failure w (backend_score payload (py "accuracy_score")) with
  | Some e => Some e
  | None => float_failure w (backend_score payload (py "semantic_similarity"))
  end.

(** The comparison as [evaluate_single_file] stores it. *)
Definition marked_successful (report : dict) : dict :=
  <[py "success" := PBool true]> report.

(** A file size the transcription client accepts: 1024 bytes to 25 MB, both
    included. *)
Definition accepted_size (size : Z) : bool :=
  ((1024 <=? size) && (size <=? 25 * 1024 * 1024))%Z.

(** The [RuntimeError] in which [STTService.transcribe_audio] wraps a
    failure of the client. *)
Definition stt_failure (cause : str) : exn :=
  Exn RuntimeError (py "語音識別失敗: " ++ cause).

(** The exception [_handle_transcription_error] raises for [error]. *)
Definition handled (w : World) (error : exn) : exn :=
  if contains (py "Unrecognized file format") (exn_msg error) then
    Exn ValueError (py "檔案格式不被支援或檔案損壞")
  else if contains (py "file too large") (str_lower w (exn_msg error)) then
    Exn ValueError (py "檔案超過 25MB 限制")
  else Exn RuntimeError (py "語音識別檔案處理失敗: " ++ exn_msg error).

(** The [ValueError] for a transcript that is empty once stripped. *)
Definition no_speech : exn :=
  Exn ValueError (py "無法識別語音內容，檔案可能損壞或不包含語音").

(** What the client does on a file that passed its checks: the outcome and
    whether a request was made. *)
Definition request_phase (w : World) (path : str) (st : Calls)
  : outcome (str * pynum) * bool :=
  match file_open w path with
  | Some msg => (Raise (handled w (Exn OSError msg)), false)
  | None =>
    match transcriptions_create w (stt_calls st) path with
    | Ok text =>
      match strip text with
      | [] => (Raise (handled w no_speech), true)
      | _ => (Ok (strip text, Fin 1), true)
      end
    | Raise e =>
      if caught_by [APIError] e then
        (Raise (Exn RuntimeError (py "OpenAI 服務錯誤: " ++ exn_msg e)), true)
      else if caught_by [OSError; ValueError] e then (Raise (handled w e), true)
      else (Raise e, true)
    end
  end.

(** The wrapping done by [STTService.transcribe_audio]. *)
Definition wrapped (o : outcome (str * pynum)) : outcome (str * pynum) :=
  match o with
  | Ok r => Ok r
  | Raise e =>
    if caught_by [RuntimeError; ValueError] e
    then Raise (stt_failure (exn_msg e)) else Raise e
  end.

(** The transcription record [evaluate_single_file] stores after a
    successful transcription. *)
Definition transcribed_record (w : World) (path transcript : str)
  (confidence : pynum) : dict :=
  dict_of [
    (py "file_path", PStr path);
    (py "file_name", PStr (path_name w path));
    (py "transcript", PStr transcript);
    (py "confidence", PFloat confidence);
    (py "success", PBool true);
    (py "error", PNone)].

(** The result object after the [except] clause and the [finally] block. *)
Definition failure_result (w : World) (path ref : str)
  (transcription comparison : dict) (msg : str) : EvaluationResult := {|
  evaluation_id := uuid4 w;
  timestamp := now_isoformat w;
  audio_file := path;
  reference_text := ref;
  transcription := transcription;
  comparison := comparison;
  evaluation_metrics := failed_metrics;
  processing_time := elapsed w;
  success := false;
  error_message := Some msg
|}.

(** The result object of a run in which no step raised. *)
Definition success_result (w : World) (path ref : str)
  (transcription comparison metrics : dict) : EvaluationResult := {|
  evaluation_id := uuid4 w;
  timestamp := now_isoformat w;
  audio_file := path;
  reference_text := ref;
  transcription := transcription;
  comparison := comparison;
  evaluation_metrics := metrics;
  processing_time := elapsed w;
  success := true;
  error_message := None
|}.

(** The failure of the module-level [compare_text_accuracy] when the global
    service is missing. *)
Definition llm_unavailable : exn :=
  Exn RuntimeError (py "文字比對分析服務不可用").

(** The [ValueError] for a blank reference text. *)
Definition blank_reference : exn :=
  Exn ValueError (py "標準文本不能為空").

Section RecorderVocabulary.

Import STT STT.AudioRecorder.

(** The four operations of a start all succeed. *)
Definition launches (env : AudioEnv) : Prop :=
  pyaudio_init env = Done tt /\ device_count env <> 0 /\
  open_stream env = Done tt /\ thread_start env = Done tt.

(** The recorder right after a successful start. *)
Definition fresh_session : t := {|
  is_recording := true;
  audio_data := [];
  audio := Some PyAudioInstance;
  stream := Some StreamInstance;
  record_thread := Some ThreadInstance
|}.

(** The buffer once the capture thread has been joined. *)
Definition joined_data (env : AudioEnv) (self : t) : list frame :=
  match record_thread self, thread_alive env, inflight_frame env with
  | Some _, true, Some data => audio_data self ++ [data]
  | _, _, _ => audio_data self
  end.

(** The object [__del__] later receives from a call of the constructor
    under the audio layer [env]: without attributes when it raised. *)
Definition constructed (env : AudioEnv) : option t :=
  match construct env with
  | Ok self => Some self
  | Raise _ => None
  end.

(** The seconds of audio held in one frame buffer: 1024 samples at
    16000 Hz. *)
Definition frame_seconds : Q := 64 # 1000.

(** The file [stop_recording] returns for a buffer. *)
Definition saved_file (env : AudioEnv) (data : list frame) : option str :=
  match data with
  | [] => None
  | _ =>
    match mkstemp env, wave_write env with
    | Done path, Done _ => Some path
    | _, _ => None
    end
  end.

End RecorderVocabulary.

Section AppVocabulary.

Import App.

(** The dictionary and the status code a view function returned. *)
Definition payload (v : endpoint_result) : pyval :=
  match v with Body d | BodyStatus d _ => d end.

Definition status_of (v : endpoint_result) : Z :=
  match v with Body _ => 200%Z | BodyStatus _ c => c end.

(** The body of the 500 response of [api_response]. *)
Definition error_response (w : World) (msg : str) : dict :=
  dict_of [(py "success", PBool false);
           (py "timestamp", PStr (now_isoformat w));
           (py "error", PStr msg)].

(** The entries [api_response] puts before those of the view. *)
Definition envelope (w : World) : dict :=
  dict_of [(py "success", PBool true);
           (py "timestamp", PStr (now_isoformat w))].

(** The exceptions [api_response] turns into a 500 response. *)
Definition answered (e : exn) : bool :=
  caught_by [ValueError; RuntimeError; TypeError] e.

(** The reference text [stop_recording_api] reads from the request. *)
Definition reference_of (request_json : option pyval) : outcome str :=
  (request_reference_text (S := unit) request_json tt).1.

(** The process state with another service. *)
Definition with_service (g : option STT.STTService.t) (s : AppState)
  : AppState :=
  {| app_stt_service := g; app_calls := app_calls s;
     app_unlinked := app_unlinked s |}.

End AppVocabulary.

(* ===================================================================== *)
(** * Properties of [services/stt.py] *)
(* ===================================================================== *)

Section ModuleLevelSTT.

(** C10. When the global [stt_service] is [None] (for instance because the
    API key is missing, in which case the constructor's error is dropped and
    the global stays [None]), the module-level [is_recording] and
    [get_recording_duration] return [False] and [0.0] without raising, while
    [start_recording], [stop_recording] and [transcribe_audio] raise a
    [RuntimeError]. *)
Theorem module_functions_without_service
  (w : World) (env : STT.AudioEnv) (path : str) (st : Calls) :
  (forall audio c,
     STT.api_key c = None -> STT.init_stt_service audio c = Ok None) /\
  STT.is_recording None = (Ok false, None) /\
  STT.get_recording_duration None = (Ok 0%Q, None) /\
  STT.start_recording env None = (Raise stt_unavailable, None) /\
  STT.stop_recording env None = (Raise stt_unavailable, None) /\
  STT.transcribe_audio w None path st = (Raise stt_unavailable, st).
Proof.
  split; [|repeat split; reflexivity].
  intros audio c Hkey. unfold STT.init_stt_service, STT.STTService.init.
  destruct (STT.STTService.str_eqb _ _); [|reflexivity].
  unfold STT.OpenAISTTClient.init. rewrite Hkey. reflexivity.
Qed.

Lemma module_functions_without_service_witness :
  STT.init_stt_service Fixtures.healthy_audio (Fixtures.stt_config None)
  = Ok None.
Proof.
  apply (module_functions_without_service Fixtures.offline
           Fixtures.healthy_audio [] no_calls).
  reflexivity.
Defined.

End ModuleLevelSTT.

Section TranscribePreconditions.




End TranscribePreconditions.

(* ===================================================================== *)
(** * Properties of the accuracy tier *)
(* ===================================================================== *)

Section AccuracyTier.

Lemma num_le_trans (a b c : pynum) :
  num_le a b = true -> num_le b c = true -> num_le a c = true.
Proof.
  destruct a as [p| | |], b as [q| | |], c as [r| | |]; simpl;
    try congruence.
  rewrite !Qle_bool_iff. apply Qle_trans.
Qed.

Lemma num_of_good (cfg : EvaluationConfig) :
  num_of (good (get_evaluation_thresholds cfg))
  = Some (good_num (min_similarity_threshold cfg)).
Proof.
  unfold get_evaluation_thresholds, good_num, py_max_int.
  cbn [good num_of].
  change (Fin (inject_Z 75)) with (Fin 75).
  destruct (num_lt (Fin 75) (min_similarity_threshold cfg)); reflexivity.
Qed.

(** For a threshold within [0, 100], being at least [max(75, low)] is being
    at least 75 and at least [low]. *)
Lemma good_num_is_max (low s : pynum) :
  in_percent_range low = true ->
  num_le (good_num low) s = num_le (Fin 75) s && num_le low s.
Proof.
  unfold in_percent_range, good_num. intros Hr.
  apply andb_prop in Hr as [H0 H100].
  destruct low as [m| | |]; simpl in H0, H100; try discriminate.
  simpl num_lt.
  destruct (Qle_bool m 75) eqn:Hm; simpl negb; cbv iota.
  - destruct (num_le (Fin 75) s) eqn:H75; simpl; [|reflexivity].
    symmetry. apply (num_le_trans (Fin m) (Fin 75) s); assumption.
  - destruct (num_le (Fin m) s) eqn:Hms.
    + rewrite andb_true_r. symmetry.
      apply (num_le_trans (Fin 75) (Fin m) s); [|assumption].
      simpl. apply Qle_bool_iff. apply Qlt_le_weak. apply Qnot_le_lt.
      intros Hle. apply Qle_bool_iff in Hle. congruence.
    + rewrite andb_false_r. reflexivity.
Qed.

Lemma accuracy_tier_num (cfg : EvaluationConfig) (v : pyval) (s : pynum) :
  num_of v = Some s ->
  accuracy_tier (get_evaluation_thresholds cfg) v
  = Ok (tier_num (high_accuracy_threshold cfg)
          (min_similarity_threshold cfg) s).
Proof.
  intros Hv. unfold accuracy_tier, py_ge, tier_num.
  rewrite Hv, num_of_good. cbn [excellent fair get_evaluation_thresholds num_of].
  destruct (num_le (high_accuracy_threshold cfg) s); [reflexivity|].
  destruct (num_le (good_num _) s); [reflexivity|].
  destruct (num_le (min_similarity_threshold cfg) s); reflexivity.
Qed.

Lemma tier_num_monotone (high low s1 s2 : pynum) :
  num_le s1 s2 = true ->
  level_rank (tier_num high low s1) <= level_rank (tier_num high low s2).
Proof.
  intros Hle. unfold tier_num.
  destruct (num_le high s1) eqn:H1.
  { rewrite (num_le_trans _ _ _ H1 Hle). reflexivity. }
  destruct (num_le (good_num low) s1) eqn:G1.
  { rewrite (num_le_trans _ _ _ G1 Hle).
    destruct (num_le high s2); simpl; lia. }
  destruct (num_le low s1) eqn:F1.
  { rewrite (num_le_trans _ _ _ F1 Hle).
    destruct (num_le high s2), (num_le (good_num low) s2); simpl; lia. }
  simpl. lia.
Qed.

Lemma metrics_accuracy_level (cfg : EvaluationConfig) (comparison : dict)
  (confidence : pynum) (v : pyval) (s : pynum) :
  comparison !! py "accuracy_score" = Some v ->
  num_of v = Some s ->
  exists metrics,
    calculate_evaluation_metrics cfg comparison confidence = Ok metrics /\
    metrics !! py "accuracy_level"
    = Some (PStr (level_label
                    (tier_num (high_accuracy_threshold cfg)
                       (min_similarity_threshold cfg) s))).
Proof.
  intros Hc Hv. unfold calculate_evaluation_metrics, dict_get.
  rewrite Hc, (accuracy_tier_num cfg v s Hv).
  eexists. split; [reflexivity|].
  generalize (tier_num (high_accuracy_threshold cfg)
                (min_similarity_threshold cfg) s).
  intros level. vm_compute. reflexivity.
Qed.

(** A configuration accepted by [validate_config] has both thresholds within
    [0, 100]. *)
Lemma validate_config_thresholds (api_key : option str)
  (cfg : EvaluationConfig) :
  validate_config api_key cfg = Ok true ->
  in_percent_range (min_similarity_threshold cfg) = true /\
  in_percent_range (high_accuracy_threshold cfg) = true.
Proof.
  unfold validate_config.
  destruct (in_percent_range (min_similarity_threshold cfg)),
    (in_percent_range (high_accuracy_threshold cfg));
    destruct api_key as [[|c k]|]; cbn [app]; intros H;
    first [discriminate H | split; reflexivity].
Qed.

Lemma level_label_inj (l1 l2 : AccuracyLevel) :
  level_label l1 = level_label l2 -> l1 = l2.
Proof.
  destruct l1, l2; intros H;
    first [reflexivity | exfalso; vm_compute in H; discriminate H].
Qed.

Lemma label_rank_level (l : AccuracyLevel) :
  label_rank (level_label l) = level_rank l.
Proof. destruct l; vm_compute; reflexivity. Qed.

(** The stored label is the label of the branch taken. *)
Lemma stored_accuracy_level_run (cfg : EvaluationConfig) (comparison : dict)
  (confidence : pynum) :
  stored_accuracy_level cfg comparison confidence
  = match accuracy_tier (get_evaluation_thresholds cfg)
            (dict_get comparison (py "accuracy_score") (PInt 0)) with
    | Ok level => Ok (Some (PStr (level_label level)))
    | Raise e => Raise e
    end.
Proof.
  unfold stored_accuracy_level, calculate_evaluation_metrics.
  cbv zeta.
  destruct (accuracy_tier _ _) as [level|e]; [|reflexivity].
  reflexivity.
Qed.

Lemma stored_accuracy_level_num (cfg : EvaluationConfig) (comparison : dict)
  (confidence : pynum) (s : pynum) :
  num_of (dict_get comparison (py "accuracy_score") (PInt 0)) = Some s ->
  stored_accuracy_level cfg comparison confidence
  = Ok (Some (PStr (level_label
                      (tier_num (high_accuracy_threshold cfg)
                         (min_similarity_threshold cfg) s)))).
Proof.
  intros Hs. rewrite stored_accuracy_level_run.
  rewrite (accuracy_tier_num cfg _ s Hs). reflexivity.
Qed.

(** The conditions under which the chain of comparisons takes each
    branch. *)
Lemma tier_num_cases (high low s : pynum) :
  in_percent_range low = true ->
  (tier_num high low s = Excellent <-> num_le high s = true) /\
  (tier_num high low s = Good <->
     num_le high s = false /\
     num_le (Fin 75) s = true /\ num_le low s = true) /\
  (tier_num high low s = Fair <->
     num_le high s = false /\
     num_le (Fin 75) s && num_le low s = false /\
     num_le low s = true) /\
  (tier_num high low s = NeedsImprovement <->
     num_le high s = false /\ num_le low s = false).
Proof.
  intros Hlow.
  split; [|split; [|split]].
  all: unfold tier_num; rewrite (good_num_is_max _ s Hlow);
    destruct (num_le high s) eqn:H1;
    destruct (num_le (Fin 75) s) eqn:H2;
    destruct (num_le low s) eqn:H3;
    cbn [andb]; split; try discriminate; try tauto;
    try (intros (? & ? & ?); discriminate);
    try (intros (? & ?); discriminate).
Qed.

(** C3. For every numeric accuracy score and every configuration accepted by
    [validate_config] (thresholds within [0, 100]), the tier is chosen by
    inclusive, ordered comparisons: excellent iff the score is at least the
    high-accuracy threshold; otherwise good iff it is at least max(75,
    minimum similarity); otherwise fair iff it is at least the minimum
    similarity; otherwise needs improvement.  The tier is what
    [_calculate_evaluation_metrics] stores under [accuracy_level], as one of
    four distinct labels: the stored label is the excellent one exactly under
    the first condition, and so on for the other three; a score missing from
    the comparison counts as 0.  With thresholds 90 and 60 the scores 90,
    89.9, 60 and 59.9 are stored as excellent, good, fair and needs
    improvement.  The tier, and the stored label with it, is monotonic in
    the score. *)
Theorem accuracy_tier_spec (cfg : EvaluationConfig) (api_key : option str) :
  validate_config api_key cfg = Ok true ->
  let high := high_accuracy_threshold cfg in
  let low := min_similarity_threshold cfg in
  let tier := accuracy_tier (get_evaluation_thresholds cfg) in
  let score_of comparison :=
    num_of (dict_get comparison (py "accuracy_score") (PInt 0)) in
  (forall (v : pyval) (score : pynum), num_of v = Some score ->
     exists level,
       tier v = Ok level /\
       (level = Excellent <-> num_le high score = true) /\
       (level = Good <->
          num_le high score = false /\
          num_le (Fin 75) score = true /\ num_le low score = true) /\
       (level = Fair <->
          num_le high score = false /\
          num_le (Fin 75) score && num_le low score = false /\
          num_le low score = true) /\
       (level = NeedsImprovement <->
          num_le high score = false /\ num_le low score = false) /\
       (forall comparison confidence,
          comparison !! py "accuracy_score" = Some v ->
          exists metrics,
            calculate_evaluation_metrics cfg comparison confidence
              = Ok metrics /\
            metrics !! py "accuracy_level" = Some (PStr (level_label level))))
  /\
  (forall v1 v2 s1 s2 l1 l2,
     num_of v1 = Some s1 -> num_of v2 = Some s2 -> num_le s1 s2 = true ->
     tier v1 = Ok l1 -> tier v2 = Ok l2 ->
     level_rank l1 <= level_rank l2)
  /\
  (accuracy_tier thresholds_90_60 (PInt 90) = Ok Excellent /\
   accuracy_tier thresholds_90_60 (PFloat (Fin (899 # 10))) = Ok Good /\
   accuracy_tier thresholds_90_60 (PInt 60) = Ok Fair /\
   accuracy_tier thresholds_90_60 (PFloat (Fin (599 # 10)))
     = Ok NeedsImprovement)
  /\
  (forall comparison confidence score,
     score_of comparison = Some score ->
     exists label,
       stored_accuracy_level cfg comparison confidence
       = Ok (Some (PStr label)) /\
       (label = py "優秀" <-> num_le high score = true) /\
       (label = py "良好" <->
          num_le high score = false /\
          num_le (Fin 75) score = true /\ num_le low score = true) /\
       (label = py "普通" <->
          num_le high score = false /\
          num_le (Fin 75) score && num_le low score = false /\
          num_le low score = true) /\
       (label = py "需要改進" <->
          num_le high score = false /\ num_le low score = false))
  /\
  (forall comparison1 comparison2 confidence1 confidence2 s1 s2 label1 label2,
     score_of comparison1 = Some s1 -> score_of comparison2 = Some s2 ->
     num_le s1 s2 = true ->
     stored_accuracy_level cfg comparison1 confidence1
     = Ok (Some (PStr label1)) ->
     stored_accuracy_level cfg comparison2 confidence2
     = Ok (Some (PStr label2)) ->
     label_rank label1 <= label_rank label2)
  /\
  (label_rank (py "需要改進") < label_rank (py "普通") /\
   label_rank (py "普通") < label_rank (py "良好") /\
   label_rank (py "良好") < label_rank (py "優秀"))
  /\
  (high = Fin 90 -> low = Fin 60 ->
   forall comparison confidence,
     let stored := stored_accuracy_level cfg comparison confidence in
     let score := comparison !! py "accuracy_score" in
     (score = Some (PInt 90) -> stored = Ok (Some (PStr (py "優秀")))) /\
     (score = Some (PFloat (Fin (899 # 10))) ->
      stored = Ok (Some (PStr (py "良好")))) /\
     (score = Some (PInt 60) -> stored = Ok (Some (PStr (py "普通")))) /\
     (score = Some (PFloat (Fin (599 # 10))) ->
      stored = Ok (Some (PStr (py "需要改進"))))).
Proof.
  intros Hvalid high low tier score_of. subst high low tier score_of.
  destruct (validate_config_thresholds api_key cfg Hvalid) as [Hlow _].
  split; [|split; [|split; [|split; [|split; [|split]]]]].
  - intros v score Hv.
    exists (tier_num (high_accuracy_threshold cfg)
              (min_similarity_threshold cfg) score).
    split; [apply accuracy_tier_num; assumption|].
    destruct (tier_num_cases (high_accuracy_threshold cfg)
                (min_similarity_threshold cfg) score Hlow)
      as (He & Hg & Hf & Hn).
    split; [exact He|]. split; [exact Hg|]. split; [exact Hf|].
    split; [exact Hn|].
    intros comparison confidence Hc.
    apply (metrics_accuracy_level cfg comparison confidence v score);
      assumption.
  - intros v1 v2 s1 s2 l1 l2 Hv1 Hv2 Hle H1 H2.
    rewrite (accuracy_tier_num cfg v1 s1 Hv1) in H1.
    rewrite (accuracy_tier_num cfg v2 s2 Hv2) in H2.
    inversion H1; inversion H2; subst.
    apply tier_num_monotone; assumption.
  - repeat split; reflexivity.
  - intros comparison confidence score Hscore.
    exists (level_label
              (tier_num (high_accuracy_threshold cfg)
                 (min_similarity_threshold cfg) score)).
    split; [apply stored_accuracy_level_num; exact Hscore|].
    destruct (tier_num_cases (high_accuracy_threshold cfg)
                (min_similarity_threshold cfg) score Hlow)
      as (He & Hg & Hf & Hn).
    assert (Hlabel : forall l,
      level_label (tier_num (high_accuracy_threshold cfg)
                     (min_similarity_threshold cfg) score) = level_label l
      <-> tier_num (high_accuracy_threshold cfg)
            (min_similarity_threshold cfg) score = l).
    { intros l. split; [apply level_label_inj | intros ->; reflexivity]. }
    split; [rewrite <- He; apply (Hlabel Excellent)|].
    split; [rewrite <- Hg; apply (Hlabel Good)|].
    split; [rewrite <- Hf; apply (Hlabel Fair)|].
    rewrite <- Hn; apply (Hlabel NeedsImprovement).
  - intros c1 c2 conf1 conf2 s1 s2 label1 label2 Hs1 Hs2 Hle H1 H2.
    rewrite (stored_accuracy_level_num cfg c1 conf1 s1 Hs1) in H1.
    rewrite (stored_accuracy_level_num cfg c2 conf2 s2 Hs2) in H2.
    injection H1 as <-. injection H2 as <-.
    rewrite !label_rank_level. apply tier_num_monotone. exact Hle.
  - vm_compute. repeat split; lia.
  - intros Hhigh Hlow' comparison confidence. cbv zeta.
    assert (Hstored : forall v s,
      comparison !! py "accuracy_score" = Some v -> num_of v = Some s ->
      stored_accuracy_level cfg comparison confidence
      = Ok (Some (PStr (level_label (tier_num (Fin 90) (Fin 60) s))))).
    { intros v s Hv Hs.
      rewrite (stored_accuracy_level_num cfg comparison confidence s).
      - rewrite Hhigh, Hlow'. reflexivity.
      - unfold dict_get. rewrite Hv. exact Hs. }
    split; [|split; [|split]]; intros Hv.
    + exact (Hstored _ _ Hv eq_refl).
    + exact (Hstored _ _ Hv eq_refl).
    + exact (Hstored _ _ Hv eq_refl).
    + exact (Hstored _ _ Hv eq_refl).
Qed.

Lemma accuracy_tier_spec_witness :
  (exists level,
     accuracy_tier (get_evaluation_thresholds default_config) (PInt 90)
       = Ok level /\ level = Excellent) /\
  level_rank Fair <= level_rank Excellent /\
  stored_accuracy_level default_config
    (dict_of [(py "accuracy_score", PFloat (Fin (899 # 10)))]) (Fin 1)
  = Ok (Some (PStr (py "良好"))).
Proof.
  destruct (accuracy_tier_spec default_config (Some (py "sk-test")) eq_refl)
    as (Hlevel & Hmono & _ & _ & _ & _ & Hexamples).
  split; [|split].
  - destruct (Hlevel (PInt 90) (Fin (inject_Z 90)) eq_refl)
      as (level & Ht & Hex & _).
    exists level. split; [exact Ht|]. apply Hex. reflexivity.
  - apply (Hmono (PInt 60) (PInt 90) (Fin (inject_Z 60)) (Fin (inject_Z 90))
             Fair Excellent); reflexivity.
  - destruct (Hexamples eq_refl eq_refl
                (dict_of [(py "accuracy_score", PFloat (Fin (899 # 10)))])
                (Fin 1)) as (_ & Hgood & _).
    apply Hgood. vm_compute. reflexivity.
Defined.

End AccuracyTier.

(* ===================================================================== *)
(** * Properties of the comparison-response parser *)
(* ===================================================================== *)

Section Parser.

(** Two keys written as literals are different. *)
Lemma str_ne (a b : str) : bool_decide (a = b) = false -> a <> b.
Proof. intros H E. apply bool_decide_eq_false in H. contradiction. Qed.

Ltac key_ne := apply str_ne; vm_compute; reflexivity.

Lemma lookup_setdefault (d : dict) (kv : str * pyval) (k : str) :
  setdefault d kv !! k
  = match d !! k with
    | Some v => Some v
    | None => if bool_decide (kv.1 = k) then Some kv.2 else None
    end.
Proof.
  unfold setdefault. destruct (d !! kv.1) eqn:Hk.
  - destruct (d !! k) eqn:Hd; [reflexivity|].
    case_bool_decide; [congruence | reflexivity].
  - case_bool_decide as Heq.
    + rewrite <- Heq, Hk. apply lookup_insert_eq.
    + rewrite lookup_insert_ne by assumption.
      destruct (d !! k); reflexivity.
Qed.

Lemma lookup_backfill (l : list (str * pyval)) (d : dict) (k : str) :
  foldl setdefault d l !! k
  = match d !! k with
    | Some v => Some v
    | None => default_of k l
    end.
Proof.
  revert d. induction l as [|[k' v'] l IH]; intros d; simpl.
  - destruct (d !! k); reflexivity.
  - rewrite IH, lookup_setdefault. simpl.
    destruct (d !! k); [reflexivity|].
    case_bool_decide; reflexivity.
Qed.

Lemma lookup_repaired_other (payload : dict) (k : str) :
  k <> py "error_analysis" ->
  repaired payload !! k
  = match payload !! k with
    | Some v => Some v
    | None => default_of k required_fields
    end.
Proof.
  intros Hk. unfold repaired.
  destruct (is_dict _).
  - apply lookup_backfill.
  - rewrite lookup_insert_ne by congruence. apply lookup_backfill.
Qed.

Lemma lookup_repaired_error_analysis (payload : dict) :
  repaired payload !! py "error_analysis"
  = match payload !! py "error_analysis" with
    | Some (PDict d) => Some (PDict d)
    | _ => Some (PDict default_error_analysis)
    end.
Proof.
  unfold repaired, dict_get.
  pose proof (lookup_backfill required_fields payload (py "error_analysis"))
    as Hf.
  change (default_of (py "error_analysis") required_fields)
    with (Some (PDict default_error_analysis)) in Hf.
  set (filled := foldl setdefault payload required_fields) in *.
  clearbody filled.
  destruct (payload !! py "error_analysis") as [v|]; rewrite Hf;
    [destruct v|]; cbn [is_dict]; rewrite ?lookup_insert_eq, ?Hf;
    reflexivity.
Qed.

Lemma dict_get_repaired_score (payload : dict) (k : str) :
  score_field k = true ->
  dict_get (repaired payload) k (PInt 0) = backend_score payload k.
Proof.
  unfold score_field, backend_score, dict_get. intros Hk.
  apply orb_prop in Hk as [Hk|Hk]; apply bool_decide_eq_true in Hk; subst k;
    (rewrite lookup_repaired_other by key_ne);
    destruct (payload !! _); reflexivity.
Qed.

(** The shape of every accepted response: it decodes to a mapping whose
    two scores convert to numbers, and the report is the repaired mapping
    with the two clamped scores. *)
Lemma parse_accepts (w : World) (response_text : str) (report : dict) :
  parse_comparison_response w response_text = Ok report <->
  exists payload a s,
    json_loads w (strip_code_fence response_text) = Some (PDict payload) /\
    to_float (float_of_str w) (backend_score payload (py "accuracy_score"))
      = Ok a /\
    to_float (float_of_str w)
      (backend_score payload (py "semantic_similarity")) = Ok s /\
    report = <[py "semantic_similarity" := clamp_score s]>
               (<[py "accuracy_score" := clamp_score a]> (repaired payload)).
Proof.
  unfold parse_comparison_response.
  destruct (json_loads w (strip_code_fence response_text)) as [loaded|];
    [|split; [cbv zeta; destruct (caught_by _ _); discriminate
             |intros (? & ? & ? & ? & _); discriminate]].
  assert (Hsem : forall payload a,
    dict_get (<[py "accuracy_score" := clamp_score a]> (repaired payload))
      (py "semantic_similarity") (PInt 0)
    = backend_score payload (py "semantic_similarity")).
  { intros payload a. rewrite <- dict_get_repaired_score by reflexivity.
    unfold dict_get. rewrite lookup_insert_ne by key_ne. reflexivity. }
  destruct loaded as [| | | | |l|payload];
    try (split; [cbn; discriminate
                | intros (? & ? & ? & ? & _); discriminate]).
  unfold validate_comparison. fold (repaired payload).
  rewrite dict_get_repaired_score by reflexivity.
  destruct (to_float (float_of_str w)
              (backend_score payload (py "accuracy_score"))) as [a|e] eqn:Ha.
  - rewrite Hsem.
    destruct (to_float (float_of_str w)
                (backend_score payload (py "semantic_similarity")))
      as [s|e] eqn:Hs.
    + split.
      * intros H. inversion H. exists payload, a, s. auto.
      * intros (p & a' & s' & Hp & Ha' & Hs' & ->).
        inversion Hp; subst p. rewrite Ha in Ha'. rewrite Hs in Hs'.
        inversion Ha'; inversion Hs'; subst. reflexivity.
    + split.
      * destruct (caught_by _ e); discriminate.
      * intros (p & a' & s' & Hp & Ha' & Hs' & _).
        inversion Hp; subst p. congruence.
  - split.
    + destruct (caught_by _ e); discriminate.
    + intros (p & a' & s' & Hp & Ha' & _).
      inversion Hp; subst p. congruence.
Qed.

Ltac q_facts :=
  repeat match goal with
  | H : negb _ = true |- _ => apply negb_true_iff in H
  | H : negb _ = false |- _ => apply negb_false_iff in H
  | H : Qle_bool _ _ = true |- _ => apply Qle_bool_iff in H
  | H : Qle_bool ?a ?b = false |- _ =>
    assert (~ (a <= b)%Q) by (rewrite <- Qle_bool_iff; congruence); clear H
  | |- Qle_bool _ _ = true => apply Qle_bool_iff
  end.

Lemma clamp_score_range (x : pynum) :
  in_score_range (clamp_score x) /\
  (num_lt x (Fin 0) = true -> clamp_score x = PInt 0) /\
  (num_lt (Fin 100) x = true -> clamp_score x = PInt 100) /\
  (num_lt (Fin 0) x = true -> num_lt x (Fin 100) = true ->
   clamp_score x = PFloat x).
Proof.
  unfold clamp_score, py_min_int, py_max_int, in_score_range.
  change (Fin (inject_Z 100)) with (Fin 100).
  change (Fin (inject_Z 0)) with (Fin 0).
  destruct x as [q| | |]; cbn [num_lt];
    try (cbn; repeat split; try discriminate;
         eexists; repeat split; reflexivity).
  destruct (Qle_bool 100 q) eqn:H100; cbn [negb num_of].
  - change (num_lt (Fin 0) (Fin (inject_Z 100))) with true. cbv iota.
    split; [eexists; repeat split; reflexivity|].
    split; [|split; [reflexivity | discriminate]].
    intros H. exfalso. q_facts. lra.
  - cbn [num_lt]. destruct (Qle_bool q 0) eqn:Hq0; cbn [negb].
    + split; [eexists; repeat split; reflexivity|].
      split; [reflexivity|]. split; [|discriminate].
      intros H. exfalso. q_facts. lra.
    + split.
      { exists (Fin q). cbn [num_of num_le].
        split; [reflexivity|]. split; q_facts; lra. }
      split; [|split; [|reflexivity]].
      * intros H. exfalso. q_facts. lra.
      * intros H. exfalso. q_facts. lra.
Qed.

Lemma lookup_report (payload : dict) (ca cs : pyval) (k : str) :
  k <> py "accuracy_score" -> k <> py "semantic_similarity" ->
  <[py "semantic_similarity" := cs]>
    (<[py "accuracy_score" := ca]> (repaired payload)) !! k
  = repaired payload !! k.
Proof.
  intros Ha Hs. rewrite !lookup_insert_ne by congruence. reflexivity.
Qed.

(** C2. For every response the parser accepts, the stored [accuracy_score]
    and [semantic_similarity] lie in [0, 100]: a backend value below 0 is
    stored as 0 and a value above 100 as 100 (a value strictly between is
    kept), whatever the backend returned. *)
Theorem parse_scores_clamped (w : World) (response_text : str)
  (report : dict) :
  parse_comparison_response w response_text = Ok report ->
  exists payload a s,
    json_loads w (strip_code_fence response_text) = Some (PDict payload) /\
    to_float (float_of_str w) (backend_score payload (py "accuracy_score"))
      = Ok a /\
    to_float (float_of_str w)
      (backend_score payload (py "semantic_similarity")) = Ok s /\
    (exists va, report !! py "accuracy_score" = Some va /\
       in_score_range va /\
       (num_lt a (Fin 0) = true -> va = PInt 0) /\
       (num_lt (Fin 100) a = true -> va = PInt 100) /\
       (num_lt (Fin 0) a = true -> num_lt a (Fin 100) = true ->
        va = PFloat a)) /\
    (exists vs, report !! py "semantic_similarity" = Some vs /\
       in_score_range vs /\
       (num_lt s (Fin 0) = true -> vs = PInt 0) /\
       (num_lt (Fin 100) s = true -> vs = PInt 100) /\
       (num_lt (Fin 0) s = true -> num_lt s (Fin 100) = true ->
        vs = PFloat s)).
Proof.
  intros H. apply parse_accepts in H as (payload & a & s & Hp & Ha & Hs & ->).
  exists payload, a, s. repeat (split; [assumption|]).
  split.
  - exists (clamp_score a). split; [|apply clamp_score_range].
    rewrite lookup_insert_ne by key_ne. apply lookup_insert_eq.
  - exists (clamp_score s). split; [|apply clamp_score_range].
    apply lookup_insert_eq.
Qed.

Lemma parse_scores_clamped_witness :
  exists report,
    parse_comparison_response
      (Fixtures.decoding (PDict Fixtures.out_of_range_payload)) (py "{}")
      = Ok report /\
    report !! py "accuracy_score" = Some (PInt 0) /\
    report !! py "semantic_similarity" = Some (PInt 100).
Proof.
  assert (Hparse : exists report,
    parse_comparison_response
      (Fixtures.decoding (PDict Fixtures.out_of_range_payload)) (py "{}")
    = Ok report).
  { eexists. apply parse_accepts.
    exists Fixtures.out_of_range_payload, (Fin (inject_Z (-10))),
      (Fin (inject_Z 150)).
    repeat split; reflexivity. }
  destruct Hparse as [report Hparse].
  exists report. split; [exact Hparse|].
  destruct (parse_scores_clamped _ _ _ Hparse)
    as (payload & a & s & Hp & Ha & Hs & (va & Hva & _ & Hlow & _)
        & (vs & Hvs & _ & _ & Hhigh & _)).
  injection Hp as <-.
  change (Ok (Fin (inject_Z (-10))) = Ok a) in Ha.
  change (Ok (Fin (inject_Z 150)) = Ok s) in Hs.
  injection Ha as <-. injection Hs as <-.
  rewrite Hva, Hvs, (Hlow eq_refl), (Hhigh eq_refl). split; reflexivity.
Defined.

(** C4.  For every payload the parser accepts, the report it returns holds
    every required field.  A field missing from the payload carries its
    default (for the two scores the stored 0 is the clamped default 0.0); in
    particular a payload without [key_differences] yields the empty list.
    An [error_analysis] that is not a mapping is replaced by the default
    mapping; every other field of the payload is kept.  The parser accepts
    every payload that decodes to a mapping whose two scores, where present,
    [float] converts. *)
Theorem parse_backfills_required_fields (w : World) (response_text : str) :
  (forall report,
     parse_comparison_response w response_text = Ok report ->
     exists payload,
       json_loads w (strip_code_fence response_text) = Some (PDict payload) /\
       (forall field default, In (field, default) required_fields ->
          is_Some (report !! field)) /\
       (forall field default, In (field, default) required_fields ->
          payload !! field = None ->
          report !! field
          = Some (if score_field field then PInt 0 else default)) /\
       (payload !! py "key_differences" = None ->
          report !! py "key_differences" = Some (PList [])) /\
       (forall v, payload !! py "error_analysis" = Some v ->
          report !! py "error_analysis"
          = Some (if is_dict v then v else PDict default_error_analysis)) /\
       (forall field v, payload !! field = Some v ->
          score_field field = false -> field <> py "error_analysis" ->
          report !! field = Some v)) /\
  (forall payload,
     json_loads w (strip_code_fence response_text) = Some (PDict payload) ->
     is_ok (to_float (float_of_str w)
              (backend_score payload (py "accuracy_score"))) = true ->
     is_ok (to_float (float_of_str w)
              (backend_score payload (py "semantic_similarity"))) = true ->
     exists report, parse_comparison_response w response_text = Ok report).
Proof.
  split.
  - intros report H.
    apply parse_accepts in H as (payload & a & s & Hp & Ha & Hs & ->).
    exists payload. split; [assumption|].
    assert (Hmissing : forall field default,
      In (field, default) required_fields -> payload !! field = None ->
      <[py "semantic_similarity" := clamp_score s]>
        (<[py "accuracy_score" := clamp_score a]> (repaired payload))
        !! field
      = Some (if score_field field then PInt 0 else default)).
    { intros field default Hin Hnone.
      unfold backend_score, dict_get in Ha, Hs.
      cbn [In required_fields] in Hin.
      repeat (destruct Hin as [Hin|Hin];
              [injection Hin as <- <-|]); [| | | | | | |contradiction].
      - rewrite lookup_report by key_ne.
        rewrite lookup_repaired_other by key_ne. rewrite Hnone. reflexivity.
      - rewrite Hnone in Ha. cbn in Ha. injection Ha as <-.
        rewrite lookup_insert_ne by key_ne. rewrite lookup_insert_eq.
        reflexivity.
      - rewrite Hnone in Hs. cbn in Hs. injection Hs as <-.
        rewrite lookup_insert_eq. reflexivity.
      - rewrite lookup_report by key_ne.
        rewrite lookup_repaired_error_analysis, Hnone. reflexivity.
      - rewrite lookup_report by key_ne.
        rewrite lookup_repaired_other by key_ne. rewrite Hnone. reflexivity.
      - rewrite lookup_report by key_ne.
        rewrite lookup_repaired_other by key_ne. rewrite Hnone. reflexivity.
      - rewrite lookup_report by key_ne.
        rewrite lookup_repaired_other by key_ne. rewrite Hnone. reflexivity. }
    assert (Hkept : forall field v, payload !! field = Some v ->
      score_field field = false -> field <> py "error_analysis" ->
      <[py "semantic_similarity" := clamp_score s]>
        (<[py "accuracy_score" := clamp_score a]> (repaired payload))
        !! field = Some v).
    { intros field v Hv Hscore Hea. unfold score_field in Hscore.
      apply orb_false_elim in Hscore as [H1 H2].
      apply bool_decide_eq_false in H1, H2.
      rewrite lookup_report by assumption.
      rewrite lookup_repaired_other by assumption. rewrite Hv. reflexivity. }
    assert (Hea : forall v, payload !! py "error_analysis" = Some v ->
      <[py "semantic_similarity" := clamp_score s]>
        (<[py "accuracy_score" := clamp_score a]> (repaired payload))
        !! py "error_analysis"
      = Some (if is_dict v then v else PDict default_error_analysis)).
    { intros v Hv. rewrite lookup_report by key_ne.
      rewrite lookup_repaired_error_analysis, Hv. destruct v; reflexivity. }
    split; [|split; [exact Hmissing|split; [|split; [exact Hea|exact Hkept]]]].
    + intros field default Hin.
      destruct (payload !! field) as [v|] eqn:Hv.
      * destruct (score_field field) eqn:Hscore.
        { unfold score_field in Hscore.
          apply orb_prop in Hscore as [Hk|Hk];
            apply bool_decide_eq_true in Hk; subst field.
          - rewrite lookup_insert_ne by key_ne. rewrite lookup_insert_eq.
            eexists; reflexivity.
          - rewrite lookup_insert_eq. eexists; reflexivity. }
        destruct (decide (field = py "error_analysis")) as [->|Hne].
        { rewrite (Hea v Hv). eexists; reflexivity. }
        rewrite (Hkept field v Hv Hscore Hne). eexists; reflexivity.
      * rewrite (Hmissing field default Hin Hv). eexists; reflexivity.
    + intros Hnone.
      apply (Hmissing (py "key_differences") (PList [])); [|assumption].
      cbn [In required_fields]. auto 10.
  - intros payload Hp Ha Hs.
    destruct (to_float (float_of_str w)
                (backend_score payload (py "accuracy_score")))
      as [a|] eqn:Ea; [|discriminate].
    destruct (to_float (float_of_str w)
                (backend_score payload (py "semantic_similarity")))
      as [s|] eqn:Es; [|discriminate].
    eexists. apply parse_accepts. exists payload, a, s. auto.
Qed.

Lemma parse_backfills_required_fields_witness :
  exists report,
    parse_comparison_response
      (Fixtures.decoding (PDict Fixtures.out_of_range_payload)) (py "{}")
      = Ok report /\
    report !! py "key_differences" = Some (PList []) /\
    is_Some (report !! py "reasoning").
Proof.
  destruct (parse_backfills_required_fields
              (Fixtures.decoding (PDict Fixtures.out_of_range_payload))
              (py "{}")) as [Hfields Haccepted].
  destruct (Haccepted Fixtures.out_of_range_payload eq_refl eq_refl eq_refl)
    as [report Hparse].
  exists report. split; [exact Hparse|].
  destruct (Hfields report Hparse)
    as (payload & Hp & Hall & _ & Hkd & _).
  inversion Hp; subst payload.
  split; [apply Hkd; vm_compute; reflexivity|].
  apply (Hall (py "reasoning") (PStr [])).
  cbn [In required_fields]. auto 10.
Defined.

(** C4 does not hold of every payload that can be decoded.  The text
    [{accuracy_score: null}] decodes to a mapping without [key_differences];
    [float(None)] raises [TypeError], which the parser reports as a response
    it cannot parse: no report is returned, and so none with an empty
    [key_differences]. *)
Lemma parse_rejects_null_score :
  json_loads (Fixtures.decoding (PDict Fixtures.null_score_payload))
    (strip_code_fence Fixtures.null_score_text)
  = Some (PDict Fixtures.null_score_payload) /\
  Fixtures.null_score_payload !! py "key_differences" = None /\
  parse_comparison_response
    (Fixtures.decoding (PDict Fixtures.null_score_payload))
    Fixtures.null_score_text
  = Raise (unparsable Fixtures.null_score_text).
Proof.
  split; [reflexivity|]. split; [vm_compute; reflexivity|].
  vm_compute. reflexivity.
Qed.

End Parser.

(* ===================================================================== *)
(** * Properties of the retrying backend call *)
(* ===================================================================== *)

Section Retry.

Lemma call_openai_api_step (w : World) (prompt : str) (retry_count : nat)
  (st : Calls) :
  call_openai_api w prompt retry_count st
  = match chat_completions_create w (llm_calls st) prompt with
    | Ok content => (Ok (strip content), count_llm st)
    | Raise e =>
      if caught_by [APIError] e then
        if decide (retry_count < 2) then
          call_openai_api w prompt (S retry_count) (count_llm st)
        else
          (Raise (Exn RuntimeError (py "OpenAI API 呼叫失敗")), count_llm st)
      else (Raise e, count_llm st)
    end.
Proof.
  rewrite call_openai_api_equation_1. unfold chat_request.
  destruct (chat_completions_create w (llm_calls st) prompt) as [content|e].
  - rewrite call_openai_api_clause_1_equation_1. reflexivity.
  - rewrite call_openai_api_clause_1_equation_2.
    destruct (caught_by [APIError] e).
    + rewrite call_openai_api_clause_1_clause_2_equation_1.
      destruct (decide (retry_count < 2)).
      * rewrite call_openai_api_clause_1_clause_2_clause_2_equation_1.
        reflexivity.
      * rewrite call_openai_api_clause_1_clause_2_clause_2_equation_2.
        reflexivity.
    + rewrite call_openai_api_clause_1_clause_2_equation_2. reflexivity.
Qed.

(** C7, as the code has it.  [_call_openai_api] makes [n] requests with
    [1 <= n <= 3]; every request before the last failed with an [APIError];
    the last one either succeeded, and its content is returned with leading
    and trailing whitespace stripped, or raised an exception that is not an
    [APIError], which is propagated at once, or was the third [APIError], and
    the wrapped [RuntimeError] is raised.  When the call succeeds and the
    parser rejects the response, [compare_text_accuracy] makes no further
    request. *)
Theorem call_openai_api_retry_spec (w : World) (prompt : str) (st : Calls) :
  (exists n,
     1 <= n <= 3 /\
     (call_openai_api w prompt 0 st).2 = after_requests n st /\
     (forall k, k < n - 1 -> api_error (attempt w prompt st k) = true) /\
     match attempt w prompt st (n - 1) with
     | Ok content =>
       (call_openai_api w prompt 0 st).1 = Ok (strip content)
     | Raise e =>
       if caught_by [APIError] e then
         n = 3 /\ (call_openai_api w prompt 0 st).1 = Raise retries_exhausted
       else (call_openai_api w prompt 0 st).1 = Raise e
     end) /\
  (forall transcribed reference response_text st' e,
     blank transcribed = false -> blank reference = false ->
     prompt = build_comparison_prompt w
                (normalize_text (str_lower w) (EVALUATION_CONFIG w) reference)
                (normalize_text (str_lower w) (EVALUATION_CONFIG w)
                   transcribed) ->
     call_openai_api w prompt 0 st = (Ok response_text, st') ->
     parse_comparison_response w response_text = Raise e ->
     exists e',
       service_compare_text_accuracy w transcribed reference st
       = (Raise e', st')).
Proof.
  split.
  - unfold attempt.
    rewrite call_openai_api_step.
    destruct (chat_completions_create w (llm_calls st) prompt)
      as [c0|e0] eqn:H0.
    { exists 1. cbn [Nat.sub after_requests fst snd]. rewrite H0. repeat split; [lia | lia | intros; lia]. }
    destruct (caught_by [APIError] e0) eqn:C0.
    2: { exists 1. cbn [Nat.sub after_requests fst snd]. rewrite H0, C0.
         repeat split; [lia | lia | intros; lia]. }
    destruct (decide (0 < 2)); [|lia].
    rewrite call_openai_api_step.
    destruct (chat_completions_create w (llm_calls (count_llm st)) prompt)
      as [c1|e1] eqn:H1.
    { exists 2. cbn [Nat.sub after_requests fst snd]. rewrite H1. repeat split; [lia | lia |].
      intros k Hk. assert (k = 0) as -> by lia. cbn [Nat.sub after_requests fst snd]. rewrite H0.
      exact C0. }
    destruct (caught_by [APIError] e1) eqn:C1.
    2: { exists 2. cbn [Nat.sub after_requests fst snd]. rewrite H1, C1. repeat split; [lia | lia |].
         intros k Hk. assert (k = 0) as -> by lia. cbn [Nat.sub after_requests fst snd]. rewrite H0.
         exact C0. }
    destruct (decide (1 < 2)); [|lia].
    rewrite call_openai_api_step.
    assert (Hearlier : forall k, k < 3 - 1 ->
      api_error (chat_completions_create w
                   (llm_calls (after_requests k st)) prompt) = true).
    { intros k Hk. assert (k = 0 \/ k = 1) as [->| ->] by lia; cbn [after_requests].
      - rewrite H0. exact C0.
      - rewrite H1. exact C1. }
    exists 3. cbn [Nat.sub after_requests fst snd].
    destruct (chat_completions_create w
                (llm_calls (count_llm (count_llm st))) prompt)
      as [c2|e2] eqn:H2.
    { repeat split; [lia | lia | exact Hearlier]. }
    destruct (caught_by [APIError] e2) eqn:C2.
    + destruct (decide (2 < 2)); [lia|].
      repeat split; [lia | lia | exact Hearlier].
    + repeat split; [lia | lia | exact Hearlier].
  - intros transcribed reference response_text st' e Ht Hr -> Hcall Hparse.
    unfold service_compare_text_accuracy. rewrite Ht, Hr.
    unfold try_except, try_clauses, bind. rewrite Hcall, Hparse.
    cbn [find_clause].
    destruct (caught_by [APIError; RuntimeError; ValueError] e);
      eexists; reflexivity.
Qed.

Lemma call_openai_api_retry_spec_witness :
  exists e',
    service_compare_text_accuracy (Fixtures.answering (py " {} "))
      (py "a") (py "a") no_calls
    = (Raise e', count_llm no_calls).
Proof.
  destruct (call_openai_api_retry_spec (Fixtures.answering (py " {} "))
    (build_comparison_prompt (Fixtures.answering (py " {} "))
       (normalize_text (str_lower (Fixtures.answering (py " {} ")))
          (EVALUATION_CONFIG (Fixtures.answering (py " {} "))) (py "a"))
       (normalize_text (str_lower (Fixtures.answering (py " {} ")))
          (EVALUATION_CONFIG (Fixtures.answering (py " {} "))) (py "a")))
    no_calls) as [_ H].
  apply (H (py "a") (py "a") (py "{}") (count_llm no_calls)
           (Exn RuntimeError (py "無法解析LLM的回應: " ++ py "{}")));
    reflexivity.
Defined.

(** C7 as stated fails: a response with surrounding whitespace is not
    returned unchanged. *)
Lemma call_openai_api_strips_response :
  attempt (Fixtures.answering (py " {} ")) (py "prompt") no_calls 0
    = Ok (py " {} ") /\
  call_openai_api (Fixtures.answering (py " {} ")) (py "prompt") 0 no_calls
    = (Ok (py "{}"), count_llm no_calls) /\
  (call_openai_api (Fixtures.answering (py " {} ")) (py "prompt") 0
     no_calls).1 <> Ok (py " {} ").
Proof.
  split; [reflexivity|].
  assert (H : call_openai_api (Fixtures.answering (py " {} ")) (py "prompt")
                0 no_calls = (Ok (py "{}"), count_llm no_calls)).
  { rewrite call_openai_api_step. reflexivity. }
  split; [exact H|]. rewrite H. simpl. intros E. inversion E.
Qed.

End Retry.

(* ===================================================================== *)
(** * Properties of the recorder *)
(* ===================================================================== *)

Section Recorder.

Import STT STT.AudioRecorder.

Ltac run_recorder :=
  unfold stop_recording, start_recording, cleanup_audio, save_audio_to_file,
    join_thread, record_audio_step, try_except, try_clauses, bind, ret,
    raise, modify, gets, run_io;
  cbn [is_recording audio_data audio stream record_thread set_is_recording
       set_audio_data set_audio set_stream set_record_thread negb andb
       find_clause fst snd].

(** [_cleanup_audio] never raises and touches only the two handles; it
    releases both when the release operations succeed. *)
Lemma cleanup_audio_spec (env : AudioEnv) (self : t) :
  exists self',
    cleanup_audio env self = (Ok tt, self') /\
    is_recording self' = is_recording self /\
    audio_data self' = audio_data self /\
    record_thread self' = record_thread self /\
    (releases env -> released self').
Proof.
  unfold releases, released.
  destruct self as [rec data [a|] [s|] th];
    destruct (stop_stream env) as [[]|m1] eqn:E1;
    destruct (close_stream env) as [[]|m2] eqn:E2;
    destruct (terminate env) as [[]|m3] eqn:E3;
    run_recorder; rewrite ?E1, ?E2, ?E3;
    cbn; eexists; (split; [reflexivity|]);
    (split; [reflexivity|split; [reflexivity|split; [reflexivity|]]]);
    intros (H1 & H2 & H3); first [discriminate | split; reflexivity].
Qed.

Lemma join_thread_spec (env : AudioEnv) (self : t) :
  exists self',
    join_thread env self = (Ok tt, self') /\
    is_recording self' = is_recording self /\
    stream self' = stream self /\ audio self' = audio self /\
    (inflight_frame env = None -> audio_data self' = audio_data self).
Proof.
  unfold join_thread.
  destruct (record_thread self), (thread_alive env),
    (inflight_frame env); eexists; repeat split; try reflexivity;
    discriminate.
Qed.

(** [_save_audio_to_file] leaves the recorder alone; its failures are a
    [RuntimeError] or an [OSError]. *)
Lemma save_audio_to_file_spec (env : AudioEnv) (self : t) :
  (exists path, save_audio_to_file env self = (Ok path, self)) \/
  (exists e, save_audio_to_file env self = (Raise e, self) /\
             caught_by [RuntimeError; OSError; InterruptedError] e = true).
Proof.
  unfold save_audio_to_file, try_except, try_clauses, bind, run_io, ret,
    raise.
  destruct (mkstemp env) as [path|m]; [|right; eexists; split; reflexivity].
  destruct (wave_write env) as [[]|m]; cbn.
  - left. eexists; reflexivity.
  - right. eexists; split; reflexivity.
Qed.

(** A [stop_recording] that finds a session in progress returns without
    raising; afterwards the recorder is not recording, and its handles are
    released when the release operations succeed. *)
Lemma stop_recording_spec (env : AudioEnv) (self : t) :
  is_recording self = true ->
  exists r self',
    stop_recording env self = (Ok r, self') /\
    is_recording self' = false /\
    (releases env -> released self') /\
    (audio_data self = [] -> inflight_frame env = None -> r = None).
Proof.
  intros Hrec. unfold stop_recording. rewrite Hrec. cbn [negb].
  unfold try_except, try_clauses, bind at 1 2 3, modify, gets.
  destruct (join_thread_spec env (set_is_recording false self))
    as (s2 & Hjoin & Hrec2 & _ & _ & Hdata2).
  rewrite Hjoin. cbn [is_recording set_is_recording] in Hrec2.
  cbn [audio_data set_is_recording] in Hdata2.
  destruct (cleanup_audio_spec env s2) as (s3 & Hclean & Hrec3 & _ & _ & Hrel).
  rewrite Hrec2 in Hrec3.
  destruct (audio_data s2) as [|f data] eqn:Hd.
  - unfold bind, ret. rewrite Hclean.
    exists None, s3.
    split; [reflexivity|]. split; [exact Hrec3|]. split; [exact Hrel|].
    reflexivity.
  - unfold bind at 1.
    destruct (save_audio_to_file_spec env s2)
      as [[path Hsave]|[e [Hsave Hcaught]]]; rewrite Hsave.
    + unfold bind, ret. rewrite Hclean.
      exists (Some path), s3.
      split; [reflexivity|]. split; [exact Hrec3|]. split; [exact Hrel|].
      intros Hnil Hnone. rewrite <- (Hdata2 Hnone) in Hnil. discriminate.
    + cbn [find_clause]. rewrite Hcaught. unfold bind, ret.
      rewrite Hclean. exists None, s3.
      split; [reflexivity|]. split; [exact Hrec3|]. split; [exact Hrel|].
      reflexivity.
Qed.

(** A [start_recording] on an idle recorder returns without raising: on
    success a fresh session is in progress; on failure the handles are
    released when the release operations succeed. *)
Lemma start_recording_spec (env : AudioEnv) (self : t) :
  is_recording self = false ->
  exists b self',
    start_recording env self = (Ok b, self') /\
    (b = true -> is_recording self' = true /\ audio_data self' = []) /\
    (b = false -> releases env -> released self').
Proof.
  intros Hrec. unfold start_recording. rewrite Hrec.
  unfold try_except, try_clauses, bind, run_io, ret, raise, modify.
  destruct (pyaudio_init env) as [[]|m0]; cbn [find_clause caught_by existsb
    subclass exn_cls exn_class_eqb orb].
  2: { match goal with |- context [cleanup_audio env ?x] =>
         destruct (cleanup_audio_spec env x) as (s3 & Hc & _ & _ & _ & Hrel)
       end.
       rewrite Hc. exists false, s3.
       split; [reflexivity|]. split; [discriminate | auto]. }
  destruct (device_count env =? 0)%nat.
  { cbn [find_clause caught_by existsb subclass exn_cls exn_class_eqb orb].
    match goal with |- context [cleanup_audio env ?x] =>
      destruct (cleanup_audio_spec env x) as (s3 & Hc & _ & _ & _ & Hrel)
    end.
    rewrite Hc. exists false, s3.
    split; [reflexivity|]. split; [discriminate | auto]. }
  destruct (open_stream env) as [[]|m1];
    cbn [find_clause caught_by existsb subclass exn_cls exn_class_eqb orb].
  2: { match goal with |- context [cleanup_audio env ?x] =>
         destruct (cleanup_audio_spec env x) as (s3 & Hc & _ & _ & _ & Hrel)
       end.
       rewrite Hc. exists false, s3.
       split; [reflexivity|]. split; [discriminate | auto]. }
  destruct (thread_start env) as [[]|m2];
    cbn [find_clause caught_by existsb subclass exn_cls exn_class_eqb orb].
  - eexists true, _. split; [reflexivity|].
    split; [intros _; split; reflexivity | discriminate].
  - match goal with |- context [cleanup_audio env ?x] =>
      destruct (cleanup_audio_spec env x) as (s3 & Hc & _ & _ & _ & Hrel)
    end.
    rewrite Hc. exists false, s3.
    split; [reflexivity|]. split; [discriminate | auto].
Qed.

Lemma reachable_idle_released (self : t) :
  reachable self -> idle_released self.
Proof.
  induction 1 as [|env self Hreach IH Hrel|env self Hreach IH Hrel
                  |read self Hreach IH].
  - intros _. split; reflexivity.
  - destruct (is_recording self) eqn:Hrec.
    + unfold start_recording. rewrite Hrec. exact IH.
    + destruct (start_recording_spec env self Hrec)
        as (b & s' & Hstart & Hok & Hfail).
      rewrite Hstart. cbn [snd]. intros Hidle. destruct b.
      * destruct (Hok eq_refl) as [Hr _]. congruence.
      * apply Hfail; [reflexivity | assumption].
  - destruct (is_recording self) eqn:Hrec.
    + destruct (stop_recording_spec env self Hrec)
        as (r & s' & Hstop & _ & Hreleased & _).
      rewrite Hstop. intros _. apply Hreleased. assumption.
    + unfold stop_recording. rewrite Hrec. exact IH.
  - unfold record_audio_step.
    destruct (is_recording self && bool_decide (is_Some (stream self)))
      eqn:Hloop; [|exact IH].
    apply andb_prop in Hloop as [Hrec _].
    destruct read; cbn [snd]; [|exact IH].
    intros Hidle. cbn in Hidle. congruence.
Qed.

Lemma recording_reachable : reachable Fixtures.recording.
Proof.
  change Fixtures.recording
    with (record_audio_step (Done [0; 0]%N)
            (start_recording Fixtures.healthy_audio init).2).2.
  apply reach_capture. apply reach_start; [apply reach_init|].
  repeat split.
Qed.

(** X26. The recording lifecycle when the audio layer releases its
    handles.  [start_recording] during a session returns [False] and leaves
    the recorder (buffer included) unchanged; [stop_recording] on an idle
    recorder returns the empty result and leaves the recorder unchanged;
    [stop_recording] with no buffered frame returns the empty result when
    no frame arrives while the capture thread is joined; every
    [stop_recording] returns without raising and leaves the recorder not
    recording; and the two handles are released afterwards provided the
    stop, close and terminate operations of the audio layer do not fail, in
    this call and (for an idle recorder) in the calls that led to its
    state. *)
Theorem recording_lifecycle (env : AudioEnv) (self : t) :
  (is_recording self = true -> start_recording env self = (Ok false, self)) /\
  (is_recording self = false -> stop_recording env self = (Ok None, self)) /\
  (is_recording self = true -> audio_data self = [] ->
   inflight_frame env = None -> (stop_recording env self).1 = Ok None) /\
  (exists r, (stop_recording env self).1 = Ok r) /\
  is_recording (stop_recording env self).2 = false /\
  (is_recording self = true \/ reachable self -> releases env ->
   released (stop_recording env self).2).
Proof.
  split; [intros Hrec; unfold start_recording; rewrite Hrec; reflexivity|].
  split; [intros Hrec; unfold stop_recording; rewrite Hrec; reflexivity|].
  destruct (is_recording self) eqn:Hrec.
  - destruct (stop_recording_spec env self Hrec)
      as (r & s' & Hstop & Hidle & Hreleased & Hempty).
    rewrite Hstop. cbn [fst snd].
    split; [intros _ Hnil Hnone; rewrite (Hempty Hnil Hnone); reflexivity|].
    split; [exists r; reflexivity|].
    split; [exact Hidle|]. intros _. exact Hreleased.
  - unfold stop_recording. rewrite Hrec. cbn [negb fst snd].
    split; [discriminate|]. split; [exists None; reflexivity|].
    split; [exact Hrec|].
    intros [Habs|Hreach] _; [discriminate|].
    apply (reachable_idle_released self Hreach Hrec).
Qed.

Lemma recording_lifecycle_witness :
  start_recording Fixtures.healthy_audio Fixtures.recording
    = (Ok false, Fixtures.recording) /\
  stop_recording Fixtures.healthy_audio init = (Ok None, init) /\
  released (stop_recording Fixtures.healthy_audio Fixtures.recording).2.
Proof.
  destruct (recording_lifecycle Fixtures.healthy_audio Fixtures.recording)
    as (Hstart & _ & _ & _ & _ & Hreleased).
  destruct (recording_lifecycle Fixtures.healthy_audio init)
    as (_ & Hstop & _).
  split; [apply Hstart; reflexivity|].
  split; [apply Hstop; reflexivity|].
  apply Hreleased; [right; exact recording_reachable | repeat split].
Defined.

(** When the stream cannot be stopped or closed, [_cleanup_audio] returns
    with the recorder as it found it. *)
Lemma cleanup_audio_failed_release (env : AudioEnv) (self : t) :
  stream self <> None ->
  stop_stream env <> Done tt \/ close_stream env <> Done tt ->
  cleanup_audio env self = (Ok tt, self).
Proof.
  intros Hstream Hfail.
  destruct self as [rec data a [s|] th]; [|contradiction Hstream; reflexivity].
  destruct (stop_stream env) as [[]|m1] eqn:E1;
    destruct (close_stream env) as [[]|m2] eqn:E2;
    run_recorder; rewrite ?E1, ?E2; cbn;
    first [reflexivity | destruct Hfail as [H|H]; contradiction H; reflexivity].
Qed.

(** C8. The handles are not released after every [stop_recording].  When a
    session that holds a stream is stopped and [stream.stop_stream()] or
    [stream.close()] raises, [_cleanup_audio] logs the error and returns at
    once: [stop_recording] returns normally, with the file if one was
    saved, and the recorder is no longer recording, but it still holds the
    stream and the audio device, whose [terminate] was skipped.  A later
    [stop_recording] finds the recorder idle and returns the empty result
    without releasing anything, whatever the audio layer does then. *)
Theorem stop_recording_leaks_handles (env : AudioEnv) (self : t) :
  is_recording self = true ->
  stream self <> None ->
  stop_stream env <> Done tt \/ close_stream env <> Done tt ->
  exists self',
    stop_recording env self
    = (Ok (saved_file env (joined_data env self)), self') /\
    is_recording self' = false /\
    stream self' = stream self /\
    audio self' = audio self /\
    ~ released self' /\
    (forall env', stop_recording env' self' = (Ok None, self')).
Proof.
  intros Hrec Hstream Hfail. unfold stop_recording at 1. rewrite Hrec.
  cbn [negb].
  unfold try_except, try_clauses, bind at 1 2 3, modify, gets.
  destruct (join_thread_spec env (set_is_recording false self))
    as (s2 & Hjoin & Hrec2 & Hstream2 & Haudio2 & _).
  assert (Hdata2 : audio_data s2 = joined_data env self).
  { revert Hjoin. unfold join_thread, joined_data.
    cbn [record_thread audio_data set_is_recording].
    destruct (record_thread self); [|intros [= <-]; reflexivity].
    destruct (thread_alive env); [|intros [= <-]; reflexivity].
    destruct (inflight_frame env); intros [= <-]; reflexivity. }
  rewrite Hjoin.
  cbn [is_recording stream audio set_is_recording] in Hrec2, Hstream2, Haudio2.
  assert (Hclean : cleanup_audio env s2 = (Ok tt, s2)).
  { apply cleanup_audio_failed_release; [congruence | exact Hfail]. }
  assert (Hend :
    is_recording s2 = false /\
    stream s2 = stream self /\
    audio s2 = audio self /\
    ~ released s2 /\
    (forall env', stop_recording env' s2 = (Ok None, s2))).
  { split; [exact Hrec2|]. split; [exact Hstream2|]. split; [exact Haudio2|].
    split; [intros [H _]; congruence|].
    intros env'. unfold stop_recording. rewrite Hrec2. reflexivity. }
  rewrite Hdata2. unfold saved_file.
  destruct (joined_data env self) as [|f data] eqn:Hd.
  - unfold bind, ret. rewrite Hclean. exists s2. split; [reflexivity|].
    exact Hend.
  - unfold save_audio_to_file, try_except, try_clauses, bind, run_io, ret,
      raise.
    destruct (mkstemp env) as [path|m];
      cbn [find_clause caught_by existsb subclass exn_cls exn_class_eqb orb].
    2: { rewrite Hclean. exists s2. split; [reflexivity | exact Hend]. }
    destruct (wave_write env) as [[]|m];
      cbn [find_clause caught_by existsb subclass exn_cls exn_class_eqb orb].
    + rewrite Hclean. exists s2. split; [reflexivity | exact Hend].
    + rewrite Hclean. exists s2. split; [reflexivity | exact Hend].
Qed.

Lemma stop_recording_leaks_handles_witness :
  exists self',
    stop_recording Fixtures.failing_stop_stream Fixtures.recording
    = (Ok (Some (py "/tmp/recording_0.wav")), self') /\
    is_recording self' = false /\
    stream self' = Some StreamInstance /\
    audio self' = Some PyAudioInstance /\
    stop_recording Fixtures.healthy_audio self' = (Ok None, self').
Proof.
  assert (Hstream : stream Fixtures.recording <> None)
    by (vm_compute; discriminate).
  assert (Hfail : stop_stream Fixtures.failing_stop_stream <> Done tt \/
                  close_stream Fixtures.failing_stop_stream <> Done tt)
    by (left; vm_compute; discriminate).
  destruct (stop_recording_leaks_handles Fixtures.failing_stop_stream
              Fixtures.recording eq_refl Hstream Hfail)
    as (self' & Hstop & Hidle & Hs & Ha & _ & Hlater).
  exists self'. split; [exact Hstop|]. split; [exact Hidle|].
  split; [exact Hs|]. split; [exact Ha|]. apply Hlater.
Defined.

(** The session of the fixture, stopped while [stream.stop_stream()] fails:
    the file is returned and both handles stay on the recorder. *)
Example stop_recording_keeps_handles :
  reachable Fixtures.recording /\
  stop_recording Fixtures.failing_stop_stream Fixtures.recording
  = (Ok (Some (py "/tmp/recording_0.wav")),
     set_is_recording false Fixtures.recording) /\
  ~ released
      (stop_recording Fixtures.failing_stop_stream Fixtures.recording).2.
Proof.
  split; [exact recording_reachable|].
  split; [reflexivity|].
  intros [Hstream _]. discriminate Hstream.
Qed.

End Recorder.

(* ===================================================================== *)
(** * Properties of the orchestrator *)
(* ===================================================================== *)

Section Orchestrator.

Import STT.

(** On a missing file the three layers of [transcribe_audio] let the
    [FileNotFoundError] of the client through: it is neither a
    [RuntimeError] nor a [ValueError]. *)
Lemma transcribe_audio_missing_file (w : World) (svc : STTService.t)
  (path : str) (st : Calls) :
  path <> [] -> file_size w path = None ->
  transcribe_audio w (Some svc) path st = (Raise (not_found_error path), st).
Proof.
  intros Hne Hfs. unfold transcribe_audio, STTService.transcribe_audio.
  destruct path as [|c path]; [congruence|].
  unfold try_except, try_clauses, OpenAISTTClient.transcribe_audio.
  rewrite Hfs. reflexivity.
Qed.

(** What [evaluate_single_file] does with an exception [e] raised by the
    transcription step. *)
Lemma evaluate_single_file_stt_failure (w : World) (g : Services)
  (path ref : str) (st st' : Calls) (e : exn) :
  transcribe_audio w (stt_service g) path st = (Raise e, st') ->
  evaluate_single_file w g path ref st
  = if caught_by [RuntimeError; ValueError] e then
      (Ok {| evaluation_id := uuid4 w;
             timestamp := now_isoformat w;
             audio_file := path;
             reference_text := ref;
             transcription := failed_transcription w path (exn_msg e);
             comparison := failed_comparison (exn_msg e);
             evaluation_metrics := failed_metrics;
             processing_time := elapsed w;
             success := false;
             error_message := Some (exn_msg e) |}, st')
    else (Raise e, st').
Proof.
  intros Htrans.
  unfold evaluate_single_file, try_except, try_clauses, evaluate_body.
  unfold bind at 1 2. unfold update at 1, modify at 1.
  unfold call at 1. cbn [fst snd]. rewrite Htrans.
  cbn [find_clause].
  destruct (caught_by [RuntimeError; ValueError] e); reflexivity.
Qed.

(** C1, at the input the code mishandles.  For a path that does not exist,
    with the transcription service available, [evaluate_single_file] does
    not return a result: the [FileNotFoundError] raised by the transcription
    client escapes the [except (RuntimeError, ValueError)] clause and reaches
    the caller. *)
Theorem evaluate_single_file_propagates_not_found (w : World) (g : Services)
  (svc : STTService.t) (path ref : str) (st : Calls) :
  stt_service g = Some svc -> path <> [] -> file_size w path = None ->
  evaluate_single_file w g path ref st = (Raise (not_found_error path), st).
Proof.
  intros Hsvc Hne Hfs.
  rewrite (evaluate_single_file_stt_failure w g path ref st st
             (not_found_error path)).
  - reflexivity.
  - rewrite Hsvc. apply transcribe_audio_missing_file; assumption.
Qed.

Lemma evaluate_single_file_propagates_not_found_witness :
  evaluate_single_file Fixtures.offline Fixtures.services
    (py "missing.wav") (py "hello") no_calls
  = (Raise (not_found_error (py "missing.wav")), no_calls).
Proof.
  apply (evaluate_single_file_propagates_not_found Fixtures.offline
           Fixtures.services (Fixtures.service AudioRecorder.init));
    [reflexivity | discriminate | reflexivity].
Defined.

(** The transcription step never calls the comparison backend. *)
Lemma transcribe_audio_llm_calls (w : World)
  (stt_service : option STTService.t) (path : str) (st : Calls) :
  llm_calls (transcribe_audio w stt_service path st).2 = llm_calls st.
Proof.
  unfold transcribe_audio, STTService.transcribe_audio.
  destruct stt_service as [svc|]; [|reflexivity].
  destruct path as [|c path]; [reflexivity|].
  unfold try_except, try_clauses at 1, OpenAISTTClient.transcribe_audio.
  destruct (file_size w (c :: path)) as [size|]; [|reflexivity].
  destruct (size >? OpenAISTTClient.max_size)%Z.
  { cbn [raise find_clause]. destruct (caught_by _ _); reflexivity. }
  destruct (size <? 1024)%Z.
  { cbn [raise find_clause]. destruct (caught_by _ _); reflexivity. }
  unfold try_clauses, bind, OpenAISTTClient.transcription_request.
  destruct (file_open w (c :: path)) as [msg|].
  { cbn [find_clause caught_by existsb subclass exn_cls exn_class_eqb orb].
    unfold OpenAISTTClient.handle_transcription_error.
    destruct (contains _ _); [reflexivity|].
    destruct (contains _ _); reflexivity. }
  destruct (transcriptions_create w (stt_calls st) (c :: path)) as [text|e].
  - destruct (strip text); cbn [raise ret find_clause]; [|reflexivity].
    cbn [caught_by existsb subclass exn_cls exn_class_eqb orb].
    unfold OpenAISTTClient.handle_transcription_error.
    destruct (contains _ _); [reflexivity|].
    destruct (contains _ _); reflexivity.
  - cbn [find_clause].
    destruct (caught_by [APIError] e); [reflexivity|].
    destruct (caught_by [OSError; ValueError] e).
    + unfold OpenAISTTClient.handle_transcription_error.
      destruct (contains _ _); [reflexivity|].
      destruct (contains _ _); reflexivity.
    + destruct (caught_by [RuntimeError; ValueError] e); reflexivity.
Qed.

(** C5, with the input the code mishandles.  When the transcription step
    raises [e], the comparison backend is not called.  If [e] is a
    [RuntimeError] or a [ValueError], the result has [success] false, the
    message of [e] as [error_message], a transcription record with a null
    transcript and the message as [error], and the placeholder comparison
    (both scores 0, two suggestions, the message embedded in [reasoning]).
    Any other exception is propagated and no result is returned; this is the
    case of the [FileNotFoundError] of a missing file. *)
Theorem evaluate_stt_failure_outcomes (w : World) (g : Services)
  (path ref : str) (st st' : Calls) (e : exn) :
  transcribe_audio w (stt_service g) path st = (Raise e, st') ->
  llm_calls st' = llm_calls st /\
  (caught_by [RuntimeError; ValueError] e = true ->
   exists r,
     evaluate_single_file w g path ref st = (Ok r, st') /\
     success r = false /\
     error_message r = Some (exn_msg e) /\
     transcription r !! py "transcript" = Some PNone /\
     transcription r !! py "error" = Some (PStr (exn_msg e)) /\
     comparison r = failed_comparison (exn_msg e) /\
     comparison r !! py "accuracy_score" = Some (PFloat (Fin 0)) /\
     comparison r !! py "semantic_similarity" = Some (PFloat (Fin 0)) /\
     comparison r !! py "suggestions"
     = Some (PList [PStr (py "檢查音頻檔案"); PStr (py "確認網路連線")]) /\
     comparison r !! py "reasoning"
     = Some (PStr (py "評估過程發生錯誤: " ++ exn_msg e))) /\
  (caught_by [RuntimeError; ValueError] e = false ->
   evaluate_single_file w g path ref st = (Raise e, st')) /\
  (forall svc, stt_service g = Some svc -> path <> [] ->
   file_size w path = None ->
   e = not_found_error path /\
   evaluate_single_file w g path ref st = (Raise (not_found_error path), st)).
Proof.
  intros Htrans.
  pose proof (transcribe_audio_llm_calls w (stt_service g) path st) as Hllm.
  rewrite Htrans in Hllm. cbn [snd] in Hllm.
  pose proof (evaluate_single_file_stt_failure w g path ref st st' e Htrans)
    as Heval.
  split; [exact Hllm|]. split; [|split].
  - intros Hcaught. rewrite Hcaught in Heval.
    eexists. split; [exact Heval|]. cbn [success error_message transcription
      comparison].
    generalize (exn_msg e). intros msg.
    repeat split; vm_compute; reflexivity.
  - intros Hcaught. rewrite Hcaught in Heval. exact Heval.
  - intros svc Hsvc Hne Hfs.
    pose proof (transcribe_audio_missing_file w svc path st Hne Hfs) as Hnf.
    rewrite Hsvc, Hnf in Htrans. injection Htrans as <- <-.
    split; [reflexivity|]. exact Heval.
Qed.

Lemma evaluate_stt_failure_outcomes_witness :
  evaluate_single_file Fixtures.offline Fixtures.services
    (py "missing.wav") (py "hello") no_calls
  = (Raise (not_found_error (py "missing.wav")), no_calls).
Proof.
  destruct (evaluate_stt_failure_outcomes Fixtures.offline Fixtures.services
              (py "missing.wav") (py "hello") no_calls no_calls
              (not_found_error (py "missing.wav")) eq_refl)
    as (_ & _ & Hraise & _).
  apply Hraise. reflexivity.
Defined.

End Orchestrator.

(* ===================================================================== *)
(** * Properties of text normalisation *)
(* ===================================================================== *)

Section Literals.

(** The code points written as numbers in [replace_fullwidth] and
    [is_punct] are those of the characters of the source. *)
Example fullwidth_code_points :
  py "，。？！：；「」『』" = fullwidth_sources.
Proof. reflexivity. Qed.

Example ascii_targets :
  map fullwidth_char (py "，。？！：；『』") = py ",.?!:;''".
Proof. reflexivity. Qed.

Example punctuation_class :
  forallb is_punct (py ".,!?;:()'-") = true /\ is_punct 34 = true /\
  remove_punct (py "(a-b), 'c'!") = py "ab c".
Proof. repeat split; reflexivity. Qed.

Example normalize_text_mixed :
  normalize_text Fixtures.ascii_lower default_config
    (py "  Hello，  World！ ") = py "hello world".
Proof. reflexivity. Qed.

Example strip_code_fence_json :
  strip_code_fence (py " ```json {} ``` ") = py "{}".
Proof. reflexivity. Qed.

End Literals.

Section Strings.

Lemma lstrip_idem (s : str) : lstrip (lstrip s) = lstrip s.
Proof.
  induction s as [|c t IH]; [reflexivity|]. simpl.
  destruct (isspace c) eqn:Hc; [exact IH|]. simpl. rewrite Hc. reflexivity.
Qed.

Lemma rstrip_cons (c : codepoint) (t : str) :
  rstrip (c :: t)
  = match rstrip t with
    | [] => if isspace c then [] else [c]
    | _ :: _ => c :: rstrip t
    end.
Proof. simpl. destruct (rstrip t); reflexivity. Qed.

Lemma rstrip_cons_nonspace (c : codepoint) (t : str) :
  isspace c = false -> rstrip (c :: t) = c :: rstrip t.
Proof.
  intros Hc. rewrite rstrip_cons, Hc. destruct (rstrip t); reflexivity.
Qed.

Lemma rstrip_idem (s : str) : rstrip (rstrip s) = rstrip s.
Proof.
  induction s as [|c t IH]; [reflexivity|].
  rewrite rstrip_cons. destruct (rstrip t) as [|c' t'] eqn:Ht.
  - destruct (isspace c) eqn:Hc; [reflexivity|].
    rewrite rstrip_cons_nonspace by assumption. reflexivity.
  - rewrite rstrip_cons, IH. reflexivity.
Qed.

Lemma lstrip_rstrip (s : str) : lstrip (rstrip s) = rstrip (lstrip s).
Proof.
  induction s as [|c t IH]; [reflexivity|].
  destruct (isspace c) eqn:Hc.
  - cbn [lstrip]. rewrite Hc, <- IH, rstrip_cons.
    destruct (rstrip t) as [|c' t'] eqn:Ht.
    + rewrite Hc. reflexivity.
    + cbn [lstrip]. rewrite Hc. reflexivity.
  - cbn [lstrip]. rewrite Hc.
    rewrite rstrip_cons_nonspace by assumption.
    cbn [lstrip]. rewrite Hc. reflexivity.
Qed.

Lemma strip_idem (s : str) : strip (strip s) = strip s.
Proof.
  unfold strip.
  rewrite (lstrip_rstrip (lstrip s)), lstrip_idem, rstrip_idem.
  reflexivity.
Qed.

Lemma Forall_lstrip (P : codepoint -> Prop) (s : str) :
  Forall P s -> Forall P (lstrip s).
Proof.
  induction 1 as [|c t Hc Ht IH]; [constructor|]. simpl.
  destruct (isspace c); [exact IH | constructor; assumption].
Qed.

Lemma Forall_rstrip (P : codepoint -> Prop) (s : str) :
  Forall P s -> Forall P (rstrip s).
Proof.
  induction 1 as [|c t Hc Ht IH]; [constructor|].
  rewrite rstrip_cons. destruct (rstrip t).
  - destruct (isspace c); constructor; [assumption | constructor].
  - constructor; assumption.
Qed.

Lemma Forall_strip (P : codepoint -> Prop) (s : str) :
  Forall P s -> Forall P (strip s).
Proof. intros H. apply Forall_rstrip, Forall_lstrip, H. Qed.

Lemma lstrip_map (f : codepoint -> codepoint) (s : str) :
  respects_space f -> lstrip (map f s) = map f (lstrip s).
Proof.
  intros Hf. induction s as [|c t IH]; [reflexivity|]. simpl.
  destruct (Hf c) as [_ ->]. destruct (isspace c); [exact IH | reflexivity].
Qed.

Lemma rstrip_map (f : codepoint -> codepoint) (s : str) :
  respects_space f -> rstrip (map f s) = map f (rstrip s).
Proof.
  intros Hf. induction s as [|c t IH]; [reflexivity|].
  cbn [map]. rewrite !rstrip_cons, IH. destruct (Hf c) as [_ ->].
  destruct (rstrip t); simpl; [destruct (isspace c)|]; reflexivity.
Qed.

Lemma strip_map (f : codepoint -> codepoint) (s : str) :
  respects_space f -> strip (map f s) = map f (strip s).
Proof.
  intros Hf. unfold strip. rewrite lstrip_map, rstrip_map by assumption.
  reflexivity.
Qed.

Lemma collapse_ws_cons (c : codepoint) (t : str) :
  collapse_ws (c :: t)
  = if isspace c then
      match t with
      | [] => [SPACE]
      | c' :: _ => if isspace c' then collapse_ws t else SPACE :: collapse_ws t
      end
    else c :: collapse_ws t.
Proof. reflexivity. Qed.

Lemma collapse_ws_map (f : codepoint -> codepoint) (s : str) :
  respects_space f -> collapse_ws (map f s) = map f (collapse_ws s).
Proof.
  intros Hf.
  assert (Hsp : f SPACE = SPACE) by (apply Hf; reflexivity).
  induction s as [|c t IH]; [reflexivity|].
  cbn [map]. rewrite !collapse_ws_cons. destruct (Hf c) as [_ ->].
  destruct (isspace c).
  - destruct t as [|c' t']; [cbn [map]; rewrite Hsp; reflexivity|].
    cbn [map] in *. destruct (Hf c') as [_ ->].
    destruct (isspace c'); [exact IH|].
    cbn [map]. rewrite Hsp, IH. reflexivity.
  - cbn [map]. rewrite IH. reflexivity.
Qed.

Lemma collapse_ws_idem (s : str) : collapse_ws (collapse_ws s) = collapse_ws s.
Proof.
  induction s as [|c t IH]; [reflexivity|].
  rewrite collapse_ws_cons. destruct (isspace c) eqn:Hc.
  - destruct t as [|c' t']; [reflexivity|].
    destruct (isspace c') eqn:Hc'; [exact IH|].
    assert (Hu : collapse_ws (c' :: t') = c' :: collapse_ws t')
      by (rewrite collapse_ws_cons, Hc'; reflexivity).
    rewrite Hu in IH |- *.
    rewrite (collapse_ws_cons SPACE).
    change (isspace SPACE) with true. cbv iota. rewrite Hc', IH.
    reflexivity.
  - rewrite collapse_ws_cons, Hc, IH. reflexivity.
Qed.

Lemma lstrip_collapse_ws (s : str) :
  lstrip (collapse_ws s) = collapse_ws (lstrip s).
Proof.
  induction s as [|c t IH]; [reflexivity|].
  rewrite collapse_ws_cons. cbn [lstrip].
  destruct (isspace c) eqn:Hc.
  - destruct t as [|c' t']; [reflexivity|].
    destruct (isspace c') eqn:Hc'; [exact IH|].
    cbn [lstrip]. change (isspace SPACE) with true. cbv iota. exact IH.
  - cbn [lstrip]. rewrite Hc, collapse_ws_cons, Hc. reflexivity.
Qed.

Lemma rstrip_collapse_ws (s : str) :
  rstrip (collapse_ws s) = collapse_ws (rstrip s).
Proof.
  induction s as [|c t IH]; [reflexivity|].
  rewrite collapse_ws_cons. destruct (isspace c) eqn:Hc.
  - destruct t as [|c' t'].
    + rewrite !rstrip_cons. cbn [rstrip]. rewrite Hc. reflexivity.
    + destruct (isspace c') eqn:Hc'.
      * rewrite IH, (rstrip_cons c). rewrite Hc.
        destruct (rstrip (c' :: t')) as [|x r] eqn:Hr; [reflexivity|].
        assert (x = c') as ->.
        { rewrite rstrip_cons in Hr. destruct (rstrip t').
          - rewrite Hc' in Hr. discriminate.
          - congruence. }
        rewrite (collapse_ws_cons c (c' :: r)), Hc, Hc'. reflexivity.
      * rewrite (rstrip_cons SPACE), IH.
        rewrite (rstrip_cons_nonspace c' t' Hc').
        rewrite (collapse_ws_cons c'). rewrite Hc'.
        rewrite (rstrip_cons c). rewrite (rstrip_cons_nonspace c' t' Hc').
        rewrite (collapse_ws_cons c), Hc, Hc'.
        rewrite (collapse_ws_cons c'), Hc'. reflexivity.
  - rewrite !rstrip_cons_nonspace by assumption.
    rewrite collapse_ws_cons, Hc, IH. reflexivity.
Qed.

Lemma strip_collapse_ws (s : str) :
  strip (collapse_ws s) = collapse_ws (strip s).
Proof.
  unfold strip. rewrite lstrip_collapse_ws, rstrip_collapse_ws. reflexivity.
Qed.

(** A character map fixes a string exactly when it fixes its characters. *)
Lemma map_fixed (f : codepoint -> codepoint) (s : str) :
  map f s = s <-> Forall (fun c => f c = c) s.
Proof.
  induction s as [|c t IH]; [split; constructor|]. cbn [map]. split.
  - intros H. injection H as Hc Ht. constructor; [assumption | tauto].
  - intros H. inversion H; subst. f_equal; tauto.
Qed.

(** A filter fixes a string exactly when it keeps every character. *)
Lemma filter_fixed (p : codepoint -> bool) (s : str) :
  List.filter p s = s <-> Forall (fun c => p c = true) s.
Proof.
  induction s as [|c t IH]; [split; constructor|]. cbn [List.filter]. split.
  - intros H. destruct (p c) eqn:Hp.
    + injection H as Ht. constructor; [assumption | tauto].
    + exfalso.
      pose proof (List.filter_length_le p t) as Hlen.
      rewrite H in Hlen. cbn [length] in Hlen. lia.
  - intros H. inversion H as [|? ? Hp Ht]; subst. rewrite Hp.
    f_equal; tauto.
Qed.

Lemma Forall_filter_keep (P : codepoint -> Prop) (p : codepoint -> bool)
  (s : str) : Forall P s -> Forall P (List.filter p s).
Proof.
  induction 1 as [|c t Hc Ht IH]; [constructor|]. cbn [List.filter].
  destruct (p c); [constructor|]; assumption.
Qed.

End Strings.

Section Normalization.

Lemma replace_fullwidth_map (s : str) :
  replace_fullwidth s = map fullwidth_char s.
Proof.
  unfold replace_fullwidth, replace1. rewrite !map_map. reflexivity.
Qed.

Lemma fullwidth_char_other (c : codepoint) :
  ~ In c fullwidth_sources -> fullwidth_char c = c.
Proof.
  intros H. unfold fullwidth_char, replace_char.
  repeat match goal with
  | |- context [(c =? ?k)%N] =>
    destruct (N.eqb_spec c k) as [E|_];
      [exfalso; apply H; rewrite E; cbn; tauto|]
  end.
  reflexivity.
Qed.

Ltac by_source c :=
  destruct (in_dec N.eq_dec c fullwidth_sources) as [Hin|Hout];
  [cbn [In fullwidth_sources] in Hin;
   repeat (destruct Hin as [<-|Hin]; [vm_compute|]);
   [..|contradiction]
  |rewrite (fullwidth_char_other c Hout)].

Lemma fullwidth_char_idem (c : codepoint) :
  fullwidth_char (fullwidth_char c) = fullwidth_char c.
Proof.
  by_source c; try reflexivity. apply fullwidth_char_other, Hout.
Qed.

Lemma fullwidth_char_space : respects_space fullwidth_char.
Proof.
  intros c. by_source c; (split; [|reflexivity]);
    first [discriminate | reflexivity].
Qed.

Lemma replace_fullwidth_idem (s : str) :
  replace_fullwidth (replace_fullwidth s) = replace_fullwidth s.
Proof.
  rewrite !replace_fullwidth_map, map_map.
  apply map_ext. intros c. apply fullwidth_char_idem.
Qed.

Lemma strip_replace_fullwidth (s : str) :
  strip (replace_fullwidth s) = replace_fullwidth (strip s).
Proof.
  rewrite !replace_fullwidth_map. apply strip_map, fullwidth_char_space.
Qed.

Lemma collapse_ws_replace_fullwidth (s : str) :
  collapse_ws (replace_fullwidth s) = replace_fullwidth (collapse_ws s).
Proof.
  rewrite !replace_fullwidth_map.
  apply collapse_ws_map, fullwidth_char_space.
Qed.

Lemma remove_punct_idem (s : str) : remove_punct (remove_punct s) = remove_punct s.
Proof.
  unfold remove_punct. apply filter_fixed.
  induction s as [|c t IH]; [constructor|]. cbn [List.filter].
  destruct (negb (is_punct c)) eqn:Hc; [constructor|]; assumption.
Qed.

(** Removing punctuation keeps a string free of full-width punctuation. *)
Lemma replace_fullwidth_remove_punct (s : str) :
  replace_fullwidth s = s ->
  replace_fullwidth (remove_punct s) = remove_punct s.
Proof.
  rewrite !replace_fullwidth_map, !map_fixed.
  apply Forall_filter_keep.
Qed.

Lemma replace_fullwidth_strip (s : str) :
  replace_fullwidth s = s -> replace_fullwidth (strip s) = strip s.
Proof.
  intros H. rewrite <- strip_replace_fullwidth, H. reflexivity.
Qed.

Lemma collapse_ws_strip (s : str) :
  collapse_ws s = s -> collapse_ws (strip s) = strip s.
Proof.
  intros H. rewrite <- strip_collapse_ws, H. reflexivity.
Qed.

Lemma remove_punct_strip (s : str) :
  remove_punct s = s -> remove_punct (strip s) = strip s.
Proof.
  unfold remove_punct. rewrite !filter_fixed. apply Forall_strip.
Qed.

Lemma normalize_text_normalized (lower : str -> str)
  (cfg : EvaluationConfig) (r : str) :
  normalized lower cfg r -> normalize_text lower cfg r = r.
Proof.
  intros (Hstrip & Htn & Hpi & Hcs). unfold normalize_text.
  destruct r as [|c t]; [reflexivity|]. cbv zeta. rewrite Hstrip.
  destruct (text_normalization cfg).
  - destruct (Htn eq_refl) as [-> ->].
    destruct (punctuation_ignore cfg).
    + rewrite (Hpi eq_refl).
      destruct (case_sensitive cfg); [|rewrite (Hcs eq_refl)]; exact Hstrip.
    + destruct (case_sensitive cfg); [|rewrite (Hcs eq_refl)]; exact Hstrip.
  - destruct (punctuation_ignore cfg).
    + rewrite (Hpi eq_refl).
      destruct (case_sensitive cfg); [|rewrite (Hcs eq_refl)]; exact Hstrip.
    + destruct (case_sensitive cfg); [|rewrite (Hcs eq_refl)]; exact Hstrip.
Qed.

(** The normal-form properties the output of [normalize_text] always has;
    collapsed whitespace is among them unless punctuation is removed after
    the collapse. *)
Lemma normalize_text_output (lower : str -> str) (cfg : EvaluationConfig)
  (s : str) :
  lower_laws lower ->
  let r := normalize_text lower cfg s in
  strip r = r /\
  (text_normalization cfg = true -> replace_fullwidth r = r) /\
  (text_normalization cfg = true -> punctuation_ignore cfg = false ->
   collapse_ws r = r) /\
  (punctuation_ignore cfg = true -> remove_punct r = r) /\
  (s <> [] -> case_sensitive cfg = false -> lower r = r).
Proof.
  intros L. unfold normalize_text.
  destruct s as [|c t]; [cbv zeta; repeat split; congruence|].
  cbv zeta. generalize (strip (c :: t)). intros x0.
  split; [apply strip_idem|].
  split; [|split; [|split]].
  - intros ->. apply replace_fullwidth_strip.
    destruct (punctuation_ignore cfg), (case_sensitive cfg).
    + apply replace_fullwidth_remove_punct, replace_fullwidth_idem.
    + apply (lower_replace_fullwidth _ L).
      apply replace_fullwidth_remove_punct, replace_fullwidth_idem.
    + apply replace_fullwidth_idem.
    + apply (lower_replace_fullwidth _ L), replace_fullwidth_idem.
  - intros -> ->. apply collapse_ws_strip.
    assert (H1 : collapse_ws (replace_fullwidth (collapse_ws x0))
                 = replace_fullwidth (collapse_ws x0))
      by (rewrite collapse_ws_replace_fullwidth, collapse_ws_idem;
          reflexivity).
    destruct (case_sensitive cfg); [exact H1|].
    apply (lower_collapse_ws _ L), H1.
  - intros ->. apply remove_punct_strip.
    destruct (case_sensitive cfg); [apply remove_punct_idem|].
    apply (lower_remove_punct _ L), remove_punct_idem.
  - intros _ ->.
    rewrite <- (lower_strip _ L), (lower_idem _ L). reflexivity.
Qed.

(** ** The ASCII instance of [lower] *)

Lemma isspace_bounds (c : codepoint) :
  isspace c = true -> (c <= 32 \/ 133 <= c)%N.
Proof.
  unfold isspace.
  rewrite !orb_true_iff, !andb_true_iff, !N.leb_le, !N.eqb_eq. lia.
Qed.

Lemma is_punct_bounds (c : codepoint) : is_punct c = true -> (c <= 63)%N.
Proof.
  unfold is_punct. rewrite !orb_true_iff, !N.eqb_eq. lia.
Qed.

Lemma ascii_lower_char_cases (c : codepoint) :
  Fixtures.ascii_lower_char c = c \/
  (Fixtures.ascii_lower_char c = (c + 32)%N /\ (65 <= c <= 90)%N).
Proof.
  unfold Fixtures.ascii_lower_char.
  destruct (N.leb_spec 65 c), (N.leb_spec c 90); cbn [andb]; auto.
Qed.

Lemma ascii_lower_char_idem (c : codepoint) :
  Fixtures.ascii_lower_char (Fixtures.ascii_lower_char c)
  = Fixtures.ascii_lower_char c.
Proof.
  destruct (ascii_lower_char_cases c) as [H|[H Hc]];
    [rewrite !H; reflexivity|].
  rewrite H. unfold Fixtures.ascii_lower_char.
  destruct (N.leb_spec 65 (c + 32)), (N.leb_spec (c + 32) 90); cbn [andb];
    try reflexivity; lia.
Qed.

Lemma ascii_lower_char_space : respects_space Fixtures.ascii_lower_char.
Proof.
  intros c.
  destruct (ascii_lower_char_cases c) as [->|[-> Hc]]; [auto|].
  assert (H1 : isspace c = false).
  { destruct (isspace c) eqn:E; [|reflexivity].
    apply isspace_bounds in E. lia. }
  assert (H2 : isspace (c + 32) = false).
  { destruct (isspace (c + 32)) eqn:E; [|reflexivity].
    apply isspace_bounds in E. lia. }
  rewrite H1, H2. split; [discriminate | reflexivity].
Qed.

Lemma ascii_lower_char_fullwidth (c : codepoint) :
  fullwidth_char c = c ->
  fullwidth_char (Fixtures.ascii_lower_char c) = Fixtures.ascii_lower_char c.
Proof.
  intros H. destruct (ascii_lower_char_cases c) as [->|[-> Hc]]; [exact H|].
  apply fullwidth_char_other. cbn [In fullwidth_sources]. lia.
Qed.

Lemma ascii_lower_char_punct (c : codepoint) :
  negb (is_punct c) = true ->
  negb (is_punct (Fixtures.ascii_lower_char c)) = true.
Proof.
  intros H. destruct (ascii_lower_char_cases c) as [->|[-> Hc]]; [exact H|].
  destruct (is_punct (c + 32)) eqn:E; [|reflexivity].
  apply is_punct_bounds in E. lia.
Qed.

Lemma ascii_lower_laws : lower_laws Fixtures.ascii_lower.
Proof.
  unfold Fixtures.ascii_lower. split.
  - intros s. rewrite map_map. apply map_ext, ascii_lower_char_idem.
  - intros s. symmetry. apply strip_map, ascii_lower_char_space.
  - intros s H. rewrite collapse_ws_map by apply ascii_lower_char_space.
    rewrite H. reflexivity.
  - intros s. rewrite !replace_fullwidth_map, !map_fixed.
    intros H. apply List.Forall_map.
    revert H. apply List.Forall_impl, ascii_lower_char_fullwidth.
  - intros s. unfold remove_punct. rewrite !filter_fixed.
    intros H. apply List.Forall_map.
    revert H. apply List.Forall_impl, ascii_lower_char_punct.
Qed.

(** C9, as the code has it.  A string already in normal form for the
    configuration (stripped, whitespace collapsed and full-width punctuation
    replaced when [text_normalization] is on, punctuation removed when
    [punctuation_ignore] is on, lower-cased unless [case_sensitive]) is left
    unchanged by [normalize_text]; and [normalize_text] is idempotent on [s]
    whenever the two toggles [text_normalization] and [punctuation_ignore]
    are not both on, or the normalised [s] has its whitespace collapsed.
    [lower] stands for [str.lower]; only the laws of [lower_laws] are used
    of it. *)
Theorem normalize_text_idempotent_when_collapsed (lower : str -> str)
  (cfg : EvaluationConfig) (s : str) :
  lower_laws lower ->
  (forall r, normalized lower cfg r -> normalize_text lower cfg r = r) /\
  (text_normalization cfg && punctuation_ignore cfg = false \/
   collapse_ws (normalize_text lower cfg s) = normalize_text lower cfg s ->
   normalize_text lower cfg (normalize_text lower cfg s)
   = normalize_text lower cfg s).
Proof.
  intros L. split; [intros r; apply normalize_text_normalized|].
  intros Hcond.
  destruct s as [|c t]; [reflexivity|].
  destruct (normalize_text_output lower cfg (c :: t) L)
    as (Hstrip & Hfw & Hws & Hp & Hlow).
  apply normalize_text_normalized.
  split; [exact Hstrip|]. split; [|split].
  - intros Htn. split; [|exact (Hfw Htn)].
    destruct Hcond as [Hoff|Hcollapsed]; [|exact Hcollapsed].
    rewrite Htn in Hoff. cbn [andb] in Hoff. exact (Hws Htn Hoff).
  - exact Hp.
  - apply Hlow. discriminate.
Qed.

Lemma normalize_text_idempotent_when_collapsed_witness :
  normalize_text Fixtures.ascii_lower default_config
    (normalize_text Fixtures.ascii_lower default_config (py "  Hello,  World! "))
  = normalize_text Fixtures.ascii_lower default_config (py "  Hello,  World! ").
Proof.
  apply (normalize_text_idempotent_when_collapsed Fixtures.ascii_lower
           default_config (py "  Hello,  World! ") ascii_lower_laws).
  right. reflexivity.
Defined.

(** C9 as stated fails under the default configuration: removing the comma
    of ["a , b"] leaves two adjacent spaces, which a second pass collapses. *)
Lemma normalize_text_not_idempotent :
  normalize_text Fixtures.ascii_lower default_config (py "a , b")
    = py "a  b" /\
  normalize_text Fixtures.ascii_lower default_config (py "a  b") = py "a b" /\
  normalize_text Fixtures.ascii_lower default_config
    (normalize_text Fixtures.ascii_lower default_config (py "a , b"))
  <> normalize_text Fixtures.ascii_lower default_config (py "a , b").
Proof.
  split; [reflexivity|]. split; [reflexivity|].
  intros H. vm_compute in H. discriminate H.
Qed.

End Normalization.

(* ===================================================================== *)
(** * Two complete runs *)
(* ===================================================================== *)

Section Scenarios.

(** The reference sentence is transcribed exactly and the comparison scores
    100 on both scales: the evaluation succeeds with the top tier, after one
    call to each backend. *)
Example evaluate_perfect_match :
  exists r,
    evaluate_single_file (Fixtures.transcribing Fixtures.perfect_match)
      Fixtures.services (py "take1.wav") (py "今天天氣真好") no_calls
    = (Ok r, {| stt_calls := 1; llm_calls := 1 |}) /\
    success r = true /\ error_message r = None /\
    transcription r !! py "transcript" = Some (PStr (py "今天天氣真好")) /\
    comparison r !! py "accuracy_score" = Some (PInt 100) /\
    comparison r !! py "key_differences" = Some (PList []) /\
    evaluation_metrics r !! py "accuracy_level" = Some (PStr (py "優秀")) /\
    evaluation_metrics r !! py "processing_status"
    = Some (PStr (py "completed")).
Proof. eexists. repeat split; vm_compute; reflexivity. Qed.

(** A response that decodes to a JSON array makes the parser raise
    [AttributeError], which no [except] clause on the way up catches. *)
Example evaluate_array_response :
  evaluate_single_file (Fixtures.transcribing (PList []))
    Fixtures.services (py "take1.wav") (py "今天天氣真好") no_calls
  = (Raise (Exn AttributeError
              (py "'list' object has no attribute 'setdefault'")),
     {| stt_calls := 1; llm_calls := 1 |}).
Proof. vm_compute. reflexivity. Qed.

End Scenarios.

(* ===================================================================== *)
(** * Start-up validation and the reachable tiers *)
(* ===================================================================== *)

Section Configuration.

Ltac q_facts :=
  repeat match goal with
  | H : negb _ = true |- _ => apply negb_true_iff in H
  | H : negb _ = false |- _ => apply negb_false_iff in H
  | H : Qle_bool _ _ = true |- _ => apply Qle_bool_iff in H
  | H : Qle_bool ?a ?b = false |- _ =>
    assert (~ (a <= b)%Q) by (rewrite <- Qle_bool_iff; congruence); clear H
  | |- Qle_bool _ _ = true => apply Qle_bool_iff
  | |- Qle_bool ?a ?b = false =>
    apply not_true_is_false; rewrite Qle_bool_iff
  | |- negb _ = true => apply negb_true_iff
  | |- negb _ = false => apply negb_false_iff
  end.

(** X1. [validate_environment] never raises: it returns [True] exactly when
    the API key is set and not empty and both thresholds lie within
    [0, 100], and [False] otherwise.  [validate_config] accepts under the
    same condition and otherwise raises a [ValueError] whose message is the
    prefix followed by a non-empty list of complaints.  A threshold that is
    NaN is rejected. *)
Theorem validate_environment_spec (api_key : option str)
  (cfg : EvaluationConfig) :
  let ok := configured api_key cfg in
  Run.validate_environment api_key cfg = Ok ok /\
  (validate_config api_key cfg = Ok true <-> ok = true) /\
  (ok = false ->
   exists detail,
     detail <> [] /\
     validate_config api_key cfg
     = Raise (Exn ValueError (py "配置錯誤: " ++ detail))) /\
  (min_similarity_threshold cfg = NaN \/ high_accuracy_threshold cfg = NaN ->
   ok = false).
Proof.
  cbv zeta.
  split; [|split; [|split]].
  4: { unfold configured.
       intros [-> | ->]; change (in_percent_range NaN) with false;
         rewrite ?andb_false_r; reflexivity. }
  all: unfold Run.validate_environment, validate_config, configured, key_set;
    destruct api_key as [[|c k]|];
    destruct (in_percent_range (min_similarity_threshold cfg));
    destruct (in_percent_range (high_accuracy_threshold cfg));
    cbn [app andb];
    first [ reflexivity
          | split; first [reflexivity | discriminate]
          | discriminate
          | intros _; eexists; split; [|reflexivity];
            vm_compute; discriminate ].
Qed.

Lemma accuracy_tier_ok (cfg : EvaluationConfig) (v : pyval)
  (level : AccuracyLevel) :
  accuracy_tier (get_evaluation_thresholds cfg) v = Ok level ->
  exists s,
    num_of v = Some s /\
    tier_num (high_accuracy_threshold cfg) (min_similarity_threshold cfg) s
    = level.
Proof.
  intros H. destruct (num_of v) as [s|] eqn:Hv.
  - exists s. split; [reflexivity|].
    rewrite (accuracy_tier_num cfg v s Hv) in H. congruence.
  - unfold accuracy_tier, py_ge in H. rewrite Hv in H. discriminate H.
Qed.

Lemma good_num_refl (low : pynum) :
  num_le (good_num low) (good_num low) = true.
Proof.
  unfold good_num. destruct low as [m| | |]; cbn [num_lt negb];
    try reflexivity.
  destruct (negb (Qle_bool m 75)); cbn [num_le]; q_facts; lra.
Qed.

(** X2. Which of the two middle tiers can be assigned at all.  Some score is
    rated good exactly when the high-accuracy threshold is not at or below
    [max(75, minimum similarity)]; some score is rated fair exactly when the
    minimum similarity is below 75 and the high-accuracy threshold is not at
    or below it.  So a high-accuracy threshold of 75 or less removes the good
    tier, and a minimum similarity of 75 or more removes the fair tier.  The
    same holds of the labels [_calculate_evaluation_metrics] stores: the
    good label and the fair label are stored for some comparison exactly
    under these conditions. *)
Theorem tier_reachability (cfg : EvaluationConfig) :
  let high := high_accuracy_threshold cfg in
  let low := min_similarity_threshold cfg in
  let tier := accuracy_tier (get_evaluation_thresholds cfg) in
  let stored label :=
    exists comparison confidence,
      stored_accuracy_level cfg comparison confidence
      = Ok (Some (PStr label)) in
  ((exists v, tier v = Ok Good) <-> num_le high (good_num low) = false) /\
  ((exists v, tier v = Ok Fair) <->
   num_lt low (Fin 75) = true /\ num_le high low = false) /\
  (stored (py "良好") <-> num_le high (good_num low) = false) /\
  (stored (py "普通") <->
   num_lt low (Fin 75) = true /\ num_le high low = false).
Proof.
  cbv zeta.
  assert (Hstored : forall level,
    (exists comparison confidence,
       stored_accuracy_level cfg comparison confidence
       = Ok (Some (PStr (level_label level))))
    <-> exists v, accuracy_tier (get_evaluation_thresholds cfg) v = Ok level).
  { intros level. split.
    - intros (comparison & confidence & H).
      rewrite stored_accuracy_level_run in H.
      exists (dict_get comparison (py "accuracy_score") (PInt 0)).
      destruct (accuracy_tier _ _) as [l|e]; [|discriminate H].
      injection H as H. apply level_label_inj in H. congruence.
    - intros [v Hv].
      exists (<[py "accuracy_score" := v]> ∅), (Fin 0).
      rewrite stored_accuracy_level_run. unfold dict_get.
      rewrite lookup_insert_eq, Hv. reflexivity. }
  cut (((exists v, accuracy_tier (get_evaluation_thresholds cfg) v = Ok Good)
        <-> num_le (high_accuracy_threshold cfg)
              (good_num (min_similarity_threshold cfg)) = false) /\
       ((exists v, accuracy_tier (get_evaluation_thresholds cfg) v = Ok Fair)
        <-> num_lt (min_similarity_threshold cfg) (Fin 75) = true /\
            num_le (high_accuracy_threshold cfg)
              (min_similarity_threshold cfg) = false)).
  { intros [Hgood Hfair].
    split; [exact Hgood|]. split; [exact Hfair|].
    split.
    - rewrite <- Hgood. apply (Hstored Good).
    - rewrite <- Hfair. apply (Hstored Fair). }
  split; split.
  - intros [v Hv]. apply accuracy_tier_ok in Hv as (s & _ & Ht).
    unfold tier_num in Ht.
    destruct (num_le (high_accuracy_threshold cfg) s) eqn:H1;
      [discriminate|].
    destruct (num_le (good_num (min_similarity_threshold cfg)) s) eqn:H2.
    + destruct (num_le (high_accuracy_threshold cfg)
                  (good_num (min_similarity_threshold cfg))) eqn:H3;
        [|reflexivity].
      rewrite (num_le_trans _ _ _ H3 H2) in H1. discriminate.
    + destruct (num_le (min_similarity_threshold cfg) s); discriminate.
  - intros H. exists (PFloat (good_num (min_similarity_threshold cfg))).
    rewrite (accuracy_tier_num cfg (PFloat _) _ eq_refl). unfold tier_num.
    rewrite H, good_num_refl. reflexivity.
  - intros [v Hv]. apply accuracy_tier_ok in Hv as (s & _ & Ht).
    unfold tier_num in Ht.
    destruct (num_le (high_accuracy_threshold cfg) s) eqn:H1;
      [discriminate|].
    destruct (num_le (good_num (min_similarity_threshold cfg)) s) eqn:H2;
      [discriminate|].
    destruct (num_le (min_similarity_threshold cfg) s) eqn:H3;
      [|discriminate].
    split.
    + clear H1 Ht. unfold good_num in H2.
      destruct (min_similarity_threshold cfg) as [m| | |], s as [q| | |];
        cbn [num_le num_lt negb] in *; try discriminate; try reflexivity.
      * destruct (Qle_bool m 75) eqn:Hm; cbn [negb num_le] in H2;
          [|congruence].
        q_facts. lra.
      * destruct (negb (Qle_bool m 75)); discriminate.
    + destruct (num_le (high_accuracy_threshold cfg)
                  (min_similarity_threshold cfg)) eqn:H4; [|reflexivity].
      rewrite (num_le_trans _ _ _ H4 H3) in H1. discriminate.
  - intros [Hlow Hhigh].
    exists (PFloat (min_similarity_threshold cfg)).
    rewrite (accuracy_tier_num cfg (PFloat _) _ eq_refl).
    unfold tier_num, good_num.
    rewrite Hhigh.
    destruct (min_similarity_threshold cfg) as [m| | |];
      cbn [num_le num_lt negb] in *; try discriminate; try reflexivity.
    assert (H75 : Qle_bool m 75 = true) by (q_facts; lra).
    rewrite H75. cbn [negb num_le].
    assert (Hm : Qle_bool 75 m = false) by (q_facts; lra).
    assert (Hmm : Qle_bool m m = true) by (q_facts; lra).
    rewrite Hm, Hmm. reflexivity.
Qed.

(** With the thresholds 70 and 60, which [validate_config] accepts, a score
    of 80 is excellent and no score is good. *)
Example low_bar_has_no_good_tier :
  validate_config (Some (py "sk-test")) Fixtures.low_bar = Ok true /\
  accuracy_tier (get_evaluation_thresholds Fixtures.low_bar) (PInt 80)
  = Ok Excellent /\
  num_le (high_accuracy_threshold Fixtures.low_bar)
    (good_num (min_similarity_threshold Fixtures.low_bar)) = true.
Proof. repeat split. Qed.

End Configuration.

(* ===================================================================== *)
(** * Further properties of the comparison service *)
(* ===================================================================== *)

Section Comparison.

Ltac key_ne := apply str_ne; vm_compute; reflexivity.

Lemma to_float_classes (w : World) (v : pyval) (e : exn) :
  to_float (float_of_str w) v = Raise e ->
  match v with
  | PStr _ => exn_cls e = ValueError
  | PInt _ => exn_cls e = OverflowError
  | PNone | PList _ | PDict _ => exn_cls e = TypeError
  | PBool _ | PFloat _ => False
  end.
Proof.
  destruct v as [| b | z | f | s | l | d]; cbn [to_float]; intros H;
    try discriminate H; try (injection H as <-; reflexivity).
  - destruct (Z.abs z <? float_max_int)%Z; [discriminate H|].
    injection H as <-. reflexivity.
  - destruct (float_of_str w s); [discriminate H|].
    injection H as <-. reflexivity.
Qed.

(** What the parser does with a mapping, in terms of the first score that
    [float] refuses. *)
Lemma parse_mapping (w : World) (response_text : str) (payload : dict) :
  json_loads w (strip_code_fence response_text) = Some (PDict payload) ->
  parse_comparison_response w response_text
  = match first_float_failure w payload with
    | None =>
      match to_float (float_of_str w)
              (backend_score payload (py "accuracy_score")),
            to_float (float_of_str w)
              (backend_score payload (py "semantic_similarity")) with
      | Ok a, Ok s =>
        Ok (<[py "semantic_similarity" := clamp_score s]>
              (<[py "accuracy_score" := clamp_score a]> (repaired payload)))
      | _, _ => Raise (unparsable response_text)
      end
    | Some e =>
      if caught_by [JSONDecodeError; TypeError] e
      then Raise (unparsable response_text) else Raise e
    end.
Proof.
  intros Hload. unfold parse_comparison_response. rewrite Hload.
  unfold validate_comparison. fold (repaired payload).
  rewrite dict_get_repaired_score by reflexivity.
  unfold first_float_failure, float_failure.
  destruct (to_float (float_of_str w)
              (backend_score payload (py "accuracy_score"))) as [a|e];
    [|reflexivity].
  assert (Hsem :
    dict_get (<[py "accuracy_score" := clamp_score a]> (repaired payload))
      (py "semantic_similarity") (PInt 0)
    = backend_score payload (py "semantic_similarity")).
  { rewrite <- dict_get_repaired_score by reflexivity.
    unfold dict_get. rewrite lookup_insert_ne by key_ne. reflexivity. }
  rewrite Hsem.
  destruct (to_float (float_of_str w)
              (backend_score payload (py "semantic_similarity"))) as [s|e];
    reflexivity.
Qed.

Lemma not_caught_classes (e : exn) :
  caught_by [JSONDecodeError; TypeError] e = false ->
  exn_cls e <> TypeError /\ exn_cls e <> JSONDecodeError.
Proof.
  destruct e as [cls msg]. destruct cls; cbn; intros H;
    first [discriminate H | split; discriminate].
Qed.

(** X3. Every failure of [_parse_comparison_response].  When [json.loads]
    raises, a [JSONDecodeError] is replaced by the [RuntimeError] that
    embeds the whole response text, and any other exception (the plain
    [ValueError] of an integer with too many digits, the [RecursionError]
    of a text nested too deeply) is let through as it is.  A response that
    decodes to something other than a mapping raises the [AttributeError]
    of [setdefault], which the [except (JSONDecodeError, TypeError)] clause
    does not catch.  For a mapping the failure comes from the first score
    [float] refuses: null, a list or a mapping gives the same
    [RuntimeError]; a string that is not a number lets a [ValueError]
    through, and an integer beyond the range of a double an
    [OverflowError].  The parser never raises a [TypeError] nor a
    [JSONDecodeError]. *)
Theorem parse_comparison_response_failures (w : World) (response_text : str)
  (e : exn) :
  parse_comparison_response w response_text = Raise e ->
  (exn_cls e <> TypeError /\ exn_cls e <> JSONDecodeError) /\
  match json_loads w (strip_code_fence response_text) with
  | None =>
    e = if caught_by [JSONDecodeError; TypeError]
             (json_loads_error w (strip_code_fence response_text))
        then unparsable response_text
        else json_loads_error w (strip_code_fence response_text)
  | Some (PDict payload) =>
    exists k cause,
      score_field k = true /\
      first_float_failure w payload = Some cause /\
      float_failure w (backend_score payload k) = Some cause /\
      match backend_score payload k with
      | PStr _ => e = cause /\ exn_cls e = ValueError
      | PInt _ => e = cause /\ exn_cls e = OverflowError
      | PNone | PList _ | PDict _ => e = unparsable response_text
      | PBool _ | PFloat _ => False
      end
  | Some v => e = no_setdefault v
  end.
Proof.
  intros H.
  destruct (json_loads w (strip_code_fence response_text)) as [loaded|]
    eqn:Hload.
  2: { unfold parse_comparison_response in H. rewrite Hload in H.
       cbv zeta in H.
       destruct (caught_by [JSONDecodeError; TypeError]
                   (json_loads_error w (strip_code_fence response_text)))
         eqn:Hc; injection H as <-.
       - split; [split; discriminate | reflexivity].
       - split; [apply not_caught_classes, Hc | reflexivity]. }
  destruct loaded as [| b | z | f | s | l | payload];
    try (unfold parse_comparison_response in H; rewrite Hload in H;
         injection H as <-; split; [split; discriminate | reflexivity]).
  rewrite (parse_mapping w response_text payload Hload) in H.
  assert (Hcase : forall k cause,
    score_field k = true ->
    first_float_failure w payload = Some cause ->
    float_failure w (backend_score payload k) = Some cause ->
    (exn_cls e <> TypeError /\ exn_cls e <> JSONDecodeError) /\
    exists k cause,
      score_field k = true /\
      first_float_failure w payload = Some cause /\
      float_failure w (backend_score payload k) = Some cause /\
      match backend_score payload k with
      | PStr _ => e = cause /\ exn_cls e = ValueError
      | PInt _ => e = cause /\ exn_cls e = OverflowError
      | PNone | PList _ | PDict _ => e = unparsable response_text
      | PBool _ | PFloat _ => False
      end).
  { intros k cause Hk Hfirst Hfail. rewrite Hfirst in H.
    assert (Hcls := Hfail). unfold float_failure in Hcls.
    destruct (to_float (float_of_str w) (backend_score payload k))
      as [x|e'] eqn:Hf; [discriminate Hcls|].
    injection Hcls as ->. apply to_float_classes in Hf.
    assert (Hgoal :
      (exn_cls e <> TypeError /\ exn_cls e <> JSONDecodeError) /\
      match backend_score payload k with
      | PStr _ => e = cause /\ exn_cls e = ValueError
      | PInt _ => e = cause /\ exn_cls e = OverflowError
      | PNone | PList _ | PDict _ => e = unparsable response_text
      | PBool _ | PFloat _ => False
      end).
    { destruct (backend_score payload k) as [| b | z | f | s | l | d];
        try contradiction;
        destruct cause as [cls msg]; cbn [exn_cls] in Hf; subst cls;
        cbn in H; injection H as <-;
        (split; [split; discriminate|]); repeat split; reflexivity. }
    destruct Hgoal as [Hne Hm]. split; [exact Hne|].
    exists k, cause. auto. }
  unfold first_float_failure in *.
  destruct (float_failure w (backend_score payload (py "accuracy_score")))
    as [cause|] eqn:Ha.
  { apply (Hcase (py "accuracy_score") cause); reflexivity || assumption. }
  destruct (float_failure w (backend_score payload (py "semantic_similarity")))
    as [cause|] eqn:Hs.
  { apply (Hcase (py "semantic_similarity") cause); reflexivity || assumption. }
  unfold float_failure in Ha, Hs.
  destruct (to_float _ _); [|discriminate Ha].
  destruct (to_float _ _); [discriminate H | discriminate Hs].
Qed.

Lemma parse_comparison_response_failures_witness :
  parse_comparison_response (Fixtures.decoding (PList [])) (py "[]")
  = Raise (no_setdefault (PList [])) /\
  exn_cls (no_setdefault (PList [])) <> TypeError.
Proof.
  split; [reflexivity|].
  destruct (parse_comparison_response_failures
              (Fixtures.decoding (PList [])) (py "[]")
              (no_setdefault (PList [])) eq_refl) as [[H _] _].
  exact H.
Defined.

Ltac q_facts :=
  repeat match goal with
  | H : negb _ = true |- _ => apply negb_true_iff in H
  | H : negb _ = false |- _ => apply negb_false_iff in H
  | H : Qle_bool _ _ = true |- _ => apply Qle_bool_iff in H
  | H : Qle_bool ?a ?b = false |- _ =>
    assert (~ (a <= b)%Q) by (rewrite <- Qle_bool_iff; congruence); clear H
  end.

Lemma clamp_score_cases (x : pynum) :
  clamp_score x = PInt 0 \/ clamp_score x = PInt 100 \/
  (clamp_score x = PFloat x /\
   num_lt (Fin 0) x = true /\ num_lt x (Fin 100) = true).
Proof.
  destruct (clamp_score_range x) as (_ & Hlow & Hhigh & Hmid).
  destruct x as [q| | |];
    try (right; left; reflexivity); try (left; reflexivity).
  destruct (num_lt (Fin q) (Fin 0)) eqn:H0; [left; apply Hlow; reflexivity|].
  destruct (num_lt (Fin 100) (Fin q)) eqn:H100;
    [right; left; apply Hhigh; reflexivity|].
  destruct (num_lt (Fin 0) (Fin q)) eqn:H0'.
  - destruct (num_lt (Fin q) (Fin 100)) eqn:H100'.
    + right; right. split; [apply Hmid; reflexivity | split; reflexivity].
    + right; left. clear Hlow Hhigh Hmid.
      unfold clamp_score, py_min_int.
      change (Fin (inject_Z 100)) with (Fin 100). rewrite H100'.
      reflexivity.
  - left. clear Hlow Hhigh Hmid.
    unfold clamp_score, py_min_int, py_max_int.
    change (Fin (inject_Z 100)) with (Fin 100).
    change (Fin (inject_Z 0)) with (Fin 0).
    destruct (num_lt (Fin q) (Fin 100)) eqn:H100'; cbn [num_of].
    + rewrite H0'. reflexivity.
    + exfalso. cbn [num_lt] in *. q_facts. lra.
Qed.

(** A clamped score converts back to a number that clamps to itself. *)
Lemma clamp_score_stable (w : World) (x : pynum) :
  exists n,
    to_float (float_of_str w) (clamp_score x) = Ok n /\
    clamp_score n = clamp_score x.
Proof.
  destruct (clamp_score_cases x) as [-> | [-> | (-> & H0 & H100)]].
  - exists (Fin (inject_Z 0)). split; reflexivity.
  - exists (Fin (inject_Z 100)). split; reflexivity.
  - exists x. split; [reflexivity|].
    apply clamp_score_range; assumption.
Qed.

Lemma backfill_complete (l : list (str * pyval)) (d : dict) :
  Forall (fun kv => is_Some (d !! kv.1)) l -> foldl setdefault d l = d.
Proof.
  induction 1 as [|kv l [v Hkv] _ IH]; [reflexivity|].
  cbn [foldl]. unfold setdefault at 2. rewrite Hkv. exact IH.
Qed.

(** The fields of an accepted report. *)
Lemma report_fields (payload : dict) (ca cs : pyval) :
  let report :=
    <[py "semantic_similarity" := cs]>
      (<[py "accuracy_score" := ca]> (repaired payload)) in
  Forall (fun kv => is_Some (report !! kv.1)) required_fields /\
  report !! py "accuracy_score" = Some ca /\
  report !! py "semantic_similarity" = Some cs /\
  exists d, report !! py "error_analysis" = Some (PDict d).
Proof.
  cbv zeta.
  assert (Hother : forall k,
    k <> py "accuracy_score" -> k <> py "semantic_similarity" ->
    k <> py "error_analysis" ->
    default_of k required_fields <> None ->
    is_Some (<[py "semantic_similarity" := cs]>
               (<[py "accuracy_score" := ca]> (repaired payload)) !! k)).
  { intros k Ha Hs He Hd.
    rewrite lookup_report, lookup_repaired_other by assumption.
    destruct (payload !! k); [eexists; reflexivity|].
    destruct (default_of k required_fields); [eexists; reflexivity|].
    congruence. }
  assert (Hacc :
    <[py "semantic_similarity" := cs]>
      (<[py "accuracy_score" := ca]> (repaired payload))
      !! py "accuracy_score" = Some ca).
  { rewrite lookup_insert_ne by key_ne. apply lookup_insert_eq. }
  assert (Hsem :
    <[py "semantic_similarity" := cs]>
      (<[py "accuracy_score" := ca]> (repaired payload))
      !! py "semantic_similarity" = Some cs) by apply lookup_insert_eq.
  assert (Hea : exists d,
    <[py "semantic_similarity" := cs]>
      (<[py "accuracy_score" := ca]> (repaired payload))
      !! py "error_analysis" = Some (PDict d)).
  { rewrite lookup_report by key_ne.
    rewrite lookup_repaired_error_analysis.
    destruct (payload !! py "error_analysis") as [[]|];
      eexists; reflexivity. }
  split; [|split; [exact Hacc|split; [exact Hsem | exact Hea]]].
  unfold required_fields.
  repeat apply List.Forall_cons; try apply List.Forall_nil; cbn [fst];
    first [ rewrite Hacc; eexists; reflexivity
          | rewrite Hsem; eexists; reflexivity
          | destruct Hea as [d ->]; eexists; reflexivity
          | apply Hother; [key_ne | key_ne | key_ne | discriminate] ].
Qed.

(** X4. The report the parser returns is a fixed point of its repairs:
    validating it again backfills nothing, leaves [error_analysis] and
    clamps both scores to the values they already have. *)
Theorem validate_comparison_fixed_point (w : World) (response_text : str)
  (report : dict) :
  parse_comparison_response w response_text = Ok report ->
  validate_comparison w (PDict report) = Ok report.
Proof.
  intros H. apply parse_accepts in H as (payload & a & s & _ & _ & _ & ->).
  destruct (report_fields payload (clamp_score a) (clamp_score s))
    as (Hall & Hacc & Hsem & [d Hea]).
  set (report := <[py "semantic_similarity" := clamp_score s]>
                   (<[py "accuracy_score" := clamp_score a]>
                      (repaired payload))) in *.
  clearbody report.
  unfold validate_comparison. rewrite (backfill_complete _ _ Hall).
  cbv zeta.
  assert (Hd : is_dict (dict_get report (py "error_analysis") PNone) = true)
    by (unfold dict_get; rewrite Hea; reflexivity).
  rewrite Hd. unfold dict_get. rewrite Hacc.
  destruct (clamp_score_stable w a) as (n & -> & ->).
  rewrite (insert_id report _ _ Hacc). rewrite Hsem.
  destruct (clamp_score_stable w s) as (m & -> & ->).
  rewrite (insert_id report _ _ Hsem). reflexivity.
Qed.

Lemma parse_out_of_range :
  parse_comparison_response
    (Fixtures.decoding (PDict Fixtures.out_of_range_payload)) (py "{}")
  = Ok (<[py "semantic_similarity" := PInt 100]>
          (<[py "accuracy_score" := PInt 0]>
             (repaired Fixtures.out_of_range_payload))).
Proof.
  apply parse_accepts.
  exists Fixtures.out_of_range_payload, (Fin (inject_Z (-10))),
    (Fin (inject_Z 150)).
  repeat split; reflexivity.
Qed.

Lemma validate_comparison_fixed_point_witness :
  validate_comparison
    (Fixtures.decoding (PDict Fixtures.out_of_range_payload))
    (PDict (<[py "semantic_similarity" := PInt 100]>
              (<[py "accuracy_score" := PInt 0]>
                 (repaired Fixtures.out_of_range_payload))))
  = Ok (<[py "semantic_similarity" := PInt 100]>
          (<[py "accuracy_score" := PInt 0]>
             (repaired Fixtures.out_of_range_payload))).
Proof.
  apply (validate_comparison_fixed_point
           (Fixtures.decoding (PDict Fixtures.out_of_range_payload))
           (py "{}")).
  exact parse_out_of_range.
Defined.

(** The metrics computed from a comparison whose accuracy score is a
    number. *)
Lemma metrics_of_numeric_score (cfg : EvaluationConfig) (comparison : dict)
  (confidence : pynum) (va vs : pyval) (n : pynum) :
  comparison !! py "accuracy_score" = Some va ->
  comparison !! py "semantic_similarity" = Some vs ->
  num_of va = Some n ->
  exists metrics,
    calculate_evaluation_metrics cfg comparison confidence = Ok metrics /\
    metrics !! py "accuracy_score" = Some va /\
    metrics !! py "semantic_similarity" = Some vs /\
    metrics !! py "accuracy_level"
    = Some (PStr (level_label
                    (tier_num (high_accuracy_threshold cfg)
                       (min_similarity_threshold cfg) n))) /\
    metrics !! py "confidence" = Some (PFloat confidence) /\
    metrics !! py "processing_status" = Some (PStr (py "completed")).
Proof.
  intros Ha Hs Hn. unfold calculate_evaluation_metrics, dict_get.
  rewrite Ha, Hs, (accuracy_tier_num cfg va n Hn).
  eexists. split; [reflexivity|].
  generalize (tier_num (high_accuracy_threshold cfg)
                (min_similarity_threshold cfg) n).
  intros level. repeat split; vm_compute; reflexivity.
Qed.

(** The scores of an accepted report, marked as [evaluate_single_file]
    stores it. *)
Lemma marked_report_scores (w : World) (response_text : str)
  (report : dict) :
  parse_comparison_response w response_text = Ok report ->
  exists va vs n,
    marked_successful report !! py "accuracy_score" = Some va /\
    marked_successful report !! py "semantic_similarity" = Some vs /\
    report !! py "accuracy_score" = Some va /\
    report !! py "semantic_similarity" = Some vs /\
    in_score_range va /\ in_score_range vs /\ num_of va = Some n.
Proof.
  intros H. apply parse_accepts in H as (payload & a & s & _ & _ & _ & ->).
  destruct (report_fields payload (clamp_score a) (clamp_score s))
    as (_ & Hacc & Hsem & _).
  destruct (clamp_score_range a) as [Hra _].
  destruct (clamp_score_range s) as [Hrs _].
  assert (Hn := Hra). destruct Hn as (n & Hn & _).
  set (report := <[py "semantic_similarity" := clamp_score s]>
                   (<[py "accuracy_score" := clamp_score a]>
                      (repaired payload))) in *.
  clearbody report.
  exists (clamp_score a), (clamp_score s), n.
  unfold marked_successful.
  rewrite (lookup_insert_ne report (py "success") (py "accuracy_score"))
    by key_ne.
  rewrite (lookup_insert_ne report (py "success") (py "semantic_similarity"))
    by key_ne.
  auto 10.
Qed.

(** X5. [_calculate_evaluation_metrics] never fails on a report the parser
    accepted: it copies the two clamped scores, the confidence and the
    status [completed], and the level is the label of one of the four
    tiers.  The [TypeError] of comparing a score that is not a number cannot
    occur after the parser. *)
Theorem metrics_of_parsed_report (w : World) (cfg : EvaluationConfig)
  (response_text : str) (report : dict) (confidence : pynum) :
  parse_comparison_response w response_text = Ok report ->
  exists metrics level,
    calculate_evaluation_metrics cfg (marked_successful report) confidence
    = Ok metrics /\
    metrics !! py "accuracy_score" = report !! py "accuracy_score" /\
    metrics !! py "semantic_similarity"
    = report !! py "semantic_similarity" /\
    (exists v, metrics !! py "accuracy_score" = Some v /\ in_score_range v) /\
    metrics !! py "accuracy_level" = Some (PStr (level_label level)) /\
    metrics !! py "confidence" = Some (PFloat confidence) /\
    metrics !! py "processing_status" = Some (PStr (py "completed")).
Proof.
  intros H.
  destruct (marked_report_scores w response_text report H)
    as (va & vs & n & Hma & Hms & Ha & Hs & Hra & _ & Hn).
  destruct (metrics_of_numeric_score cfg (marked_successful report)
              confidence va vs n Hma Hms Hn)
    as (metrics & Hm & H1 & H2 & H3 & H4 & H5).
  exists metrics, (tier_num (high_accuracy_threshold cfg)
                     (min_similarity_threshold cfg) n).
  rewrite Ha, Hs.
  split; [exact Hm|]. split; [exact H1|]. split; [exact H2|].
  split; [exists va; auto|]. auto.
Qed.

Lemma metrics_of_parsed_report_witness :
  exists metrics level,
    calculate_evaluation_metrics default_config
      (marked_successful
         (<[py "semantic_similarity" := PInt 100]>
            (<[py "accuracy_score" := PInt 0]>
               (repaired Fixtures.out_of_range_payload))))
      (Fin 1)
    = Ok metrics /\
    metrics !! py "accuracy_level" = Some (PStr (level_label level)) /\
    metrics !! py "processing_status" = Some (PStr (py "completed")).
Proof.
  destruct (metrics_of_parsed_report
              (Fixtures.decoding (PDict Fixtures.out_of_range_payload))
              default_config (py "{}") _ (Fin 1) parse_out_of_range)
    as (metrics & level & Hm & _ & _ & _ & Hl & _ & Hs).
  exists metrics, level. auto.
Defined.

(** [_call_openai_api] from any retry count: it makes between one and
    [3 - retry_count] requests (one when the count is already 2 or more),
    never touches the transcription backend, returns stripped content and
    never lets an [APIError] out. *)
Lemma call_openai_api_outcome (w : World) (prompt : str) (retry_count : nat)
  (st : Calls) :
  stt_calls (call_openai_api w prompt retry_count st).2 = stt_calls st /\
  llm_calls st < llm_calls (call_openai_api w prompt retry_count st).2
    <= llm_calls st + (3 - Nat.min retry_count 2) /\
  match (call_openai_api w prompt retry_count st).1 with
  | Ok content => strip content = content
  | Raise e => caught_by [APIError] e = false
  end.
Proof.
  assert (Hlast : forall k st, 2 <= k ->
    stt_calls (call_openai_api w prompt k st).2 = stt_calls st /\
    llm_calls (call_openai_api w prompt k st).2 = S (llm_calls st) /\
    match (call_openai_api w prompt k st).1 with
    | Ok content => strip content = content
    | Raise e => caught_by [APIError] e = false
    end).
  { intros k st0 Hk. rewrite call_openai_api_step.
    destruct (chat_completions_create w (llm_calls st0) prompt) as [c|e].
    - cbn [fst snd count_llm stt_calls llm_calls].
      repeat split. apply strip_idem.
    - destruct (caught_by [APIError] e) eqn:He.
      + destruct (decide (k < 2)); [lia|].
        cbn [fst snd count_llm stt_calls llm_calls]. repeat split.
      + cbn [fst snd count_llm stt_calls llm_calls]. repeat split.
        exact He. }
  assert (Hstep : forall k st bound,
    (forall st',
       stt_calls (call_openai_api w prompt (S k) st').2 = stt_calls st' /\
       llm_calls st' < llm_calls (call_openai_api w prompt (S k) st').2
         <= llm_calls st' + bound /\
       match (call_openai_api w prompt (S k) st').1 with
       | Ok content => strip content = content
       | Raise e => caught_by [APIError] e = false
       end) ->
    k < 2 ->
    stt_calls (call_openai_api w prompt k st).2 = stt_calls st /\
    llm_calls st < llm_calls (call_openai_api w prompt k st).2
      <= llm_calls st + S bound /\
    match (call_openai_api w prompt k st).1 with
    | Ok content => strip content = content
    | Raise e => caught_by [APIError] e = false
    end).
  { intros k st0 bound IH Hk. rewrite call_openai_api_step.
    destruct (chat_completions_create w (llm_calls st0) prompt) as [c|e].
    - cbn [fst snd count_llm stt_calls llm_calls].
      split; [reflexivity|]. split; [lia | apply strip_idem].
    - destruct (caught_by [APIError] e) eqn:He.
      + destruct (decide (k < 2)); [|lia].
        destruct (IH (count_llm st0)) as (H1 & H2 & H3).
        cbn [count_llm stt_calls llm_calls] in H1, H2.
        split; [exact H1|]. split; [lia | exact H3].
      + cbn [fst snd count_llm stt_calls llm_calls].
        split; [reflexivity|]. split; [lia | exact He]. }
  assert (Htwo : forall st',
    stt_calls (call_openai_api w prompt 2 st').2 = stt_calls st' /\
    llm_calls st' < llm_calls (call_openai_api w prompt 2 st').2
      <= llm_calls st' + 1 /\
    match (call_openai_api w prompt 2 st').1 with
    | Ok content => strip content = content
    | Raise e => caught_by [APIError] e = false
    end).
  { intros st'. destruct (Hlast 2 st' (le_n 2)) as (H1 & H2 & H3).
    split; [exact H1|]. split; [lia | exact H3]. }
  destruct retry_count as [|[|k]].
  - apply (Hstep 0 st 2); [|lia]. intros st'.
    apply (Hstep 1 st' 1); [exact Htwo | lia].
  - apply (Hstep 1 st 1); [exact Htwo | lia].
  - destruct (Hlast (S (S k)) st) as (H1 & H2 & H3); [lia|].
    split; [exact H1|]. split; [|exact H3].
    replace (Nat.min (S (S k)) 2) with 2 by lia. lia.
Qed.

(** X6. The outcomes of [compare_text_accuracy].  Without the global service
    it raises the unavailable [RuntimeError].  A blank transcript, then a
    blank reference, raises its own [ValueError], outside the [try] and so
    unwrapped; none of these three makes a request.  Otherwise between one
    and three requests are made to the chat backend, and the call either
    returns a report the parser accepted, or raises the [RuntimeError] that
    wraps the cause, or lets through an exception that is none of
    [APIError], [RuntimeError] and [ValueError] (the [AttributeError] of a
    response that is not a mapping, for one).  The transcription backend is
    never called. *)
Theorem compare_text_accuracy_outcomes (w : World)
  (llm_service : option LLMService) (transcribed reference : str)
  (st : Calls) :
  let run := compare_text_accuracy w llm_service transcribed reference st in
  stt_calls run.2 = stt_calls st /\
  llm_calls st <= llm_calls run.2 <= llm_calls st + 3 /\
  (llm_service = None ->
   run = (Raise (Exn RuntimeError (py "文字比對分析服務不可用")), st)) /\
  (llm_service <> None -> blank transcribed = true ->
   run = (Raise (Exn ValueError (py "轉錄文字不能為空")), st)) /\
  (llm_service <> None -> blank transcribed = false ->
   blank reference = true ->
   run = (Raise (Exn ValueError (py "標準文本不能為空")), st)) /\
  (llm_service <> None -> blank transcribed = false ->
   blank reference = false ->
   llm_calls st < llm_calls run.2 /\
   match run.1 with
   | Ok report =>
     exists response_text,
       parse_comparison_response w response_text = Ok report
   | Raise e =>
     (exists cause,
        e = Exn RuntimeError (py "AI 分析過程發生錯誤: " ++ exn_msg cause)) \/
     caught_by [APIError; RuntimeError; ValueError] e = false
   end).
Proof.
  cbv zeta. unfold compare_text_accuracy.
  destruct llm_service as [svc|].
  2: { cbn [raise fst snd].
       repeat split; try lia; intros; congruence. }
  unfold service_compare_text_accuracy.
  destruct (blank transcribed) eqn:Ht.
  { cbn [raise fst snd]. repeat split; try lia; intros; congruence. }
  destruct (blank reference) eqn:Hr.
  { cbn [raise fst snd]. repeat split; try lia; intros; congruence. }
  set (prompt := build_comparison_prompt w _ _). clearbody prompt.
  unfold try_except, try_clauses, bind.
  destruct (call_openai_api_outcome w prompt 0 st) as (Hstt & Hllm & Hout).
  cbn [Nat.min Nat.sub] in Hllm.
  destruct (call_openai_api w prompt 0 st) as [[content|e] st'];
    cbn [fst snd] in Hstt, Hllm, Hout.
  - destruct (parse_comparison_response w content) as [report|e] eqn:Hp.
    + cbn [fst snd]. split; [exact Hstt|]. split; [lia|].
      split; [discriminate|]. split; [discriminate|].
      split; [discriminate|]. intros _ _ _.
      split; [lia | exists content; exact Hp].
    + cbn [find_clause].
      destruct (caught_by [APIError; RuntimeError; ValueError] e) eqn:He;
        cbn [raise fst snd]; (split; [exact Hstt|]); (split; [lia|]);
        (split; [discriminate|]); (split; [discriminate|]);
        (split; [discriminate|]); intros _ _ _; (split; [lia|]).
      * left. exists e. reflexivity.
      * right. exact He.
  - cbn [find_clause].
    destruct (caught_by [APIError; RuntimeError; ValueError] e) eqn:He;
      cbn [raise fst snd]; (split; [exact Hstt|]); (split; [lia|]);
      (split; [discriminate|]); (split; [discriminate|]);
      (split; [discriminate|]); intros _ _ _; (split; [lia|]).
    + left. exists e. reflexivity.
    + right. exact He.
Qed.

End Comparison.

(* ===================================================================== *)
(** * Further properties of the text handling *)
(* ===================================================================== *)

Section Text.

Lemma collapse_ws_nonempty (c : codepoint) (t : str) :
  collapse_ws (c :: t) <> [].
Proof.
  revert c. induction t as [|c' t IH]; intros c; rewrite collapse_ws_cons.
  - destruct (isspace c); discriminate.
  - destruct (isspace c); [|discriminate].
    destruct (isspace c'); [apply IH | discriminate].
Qed.

(** X7. With [text_normalization] on, [normalize_text] does not distinguish
    full-width punctuation from its ASCII counterpart, nor one run of
    whitespace from another: replacing the ten full-width marks, or
    collapsing every run of whitespace to one space, before normalising
    changes nothing.  This holds for every [lower]. *)
Theorem normalize_text_insensitive (lower : str -> str)
  (cfg : EvaluationConfig) (s : str) :
  text_normalization cfg = true ->
  normalize_text lower cfg (replace_fullwidth s) = normalize_text lower cfg s /\
  normalize_text lower cfg (collapse_ws s) = normalize_text lower cfg s.
Proof.
  intros Htn. destruct s as [|c t]; [split; reflexivity|]. split.
  - rewrite (replace_fullwidth_map (c :: t)). cbn [map].
    unfold normalize_text. rewrite Htn. cbv zeta.
    change (fullwidth_char c :: map fullwidth_char t)
      with (map fullwidth_char (c :: t)).
    rewrite <- replace_fullwidth_map, strip_replace_fullwidth,
      collapse_ws_replace_fullwidth, replace_fullwidth_idem.
    reflexivity.
  - pose proof (collapse_ws_nonempty c t) as Hne.
    unfold normalize_text. rewrite Htn.
    destruct (collapse_ws (c :: t)) as [|c' t'] eqn:Hc; [congruence|].
    cbv zeta. rewrite <- Hc, strip_collapse_ws, collapse_ws_idem.
    reflexivity.
Qed.

Lemma normalize_text_insensitive_witness :
  normalize_text Fixtures.ascii_lower default_config
    (replace_fullwidth (py "你好，  世界。"))
  = normalize_text Fixtures.ascii_lower default_config (py "你好，  世界。") /\
  normalize_text Fixtures.ascii_lower default_config
    (collapse_ws (py "你好，  世界。"))
  = normalize_text Fixtures.ascii_lower default_config (py "你好，  世界。").
Proof.
  apply (normalize_text_insensitive Fixtures.ascii_lower default_config
           (py "你好，  世界。")).
  reflexivity.
Defined.

Lemma rstrip_snoc (s : str) (z : codepoint) :
  isspace z = false -> rstrip (s ++ [z]) = s ++ [z].
Proof.
  intros Hz. induction s as [|c s IH]; cbn [app].
  - cbn [rstrip]. rewrite Hz. reflexivity.
  - rewrite rstrip_cons, IH. destruct (s ++ [z]) eqn:E; [|reflexivity].
    destruct s; discriminate E.
Qed.

Lemma startswith_app (p x : str) : startswith (p ++ x) p = true.
Proof.
  induction p as [|a p IH]; [destruct x; reflexivity|].
  cbn [app startswith]. rewrite N.eqb_refl, IH. reflexivity.
Qed.

Lemma endswith_app (x p : str) : endswith (x ++ p) p = true.
Proof. unfold endswith. rewrite rev_app_distr. apply startswith_app. Qed.

Lemma slice_to_minus_app (x p : str) :
  slice_to_minus (length p) (x ++ p) = x.
Proof.
  unfold slice_to_minus. rewrite length_app.
  replace (length x + length p - length p) with (length x) by lia.
  apply take_app_length.
Qed.

(** X8. The code fence is transparent.  A response wrapped in a fence that
    opens with three backquotes and [json], or with three backquotes alone,
    and closes with three backquotes is handed to [json.loads] as the
    stripped body, the same text as for the bare body; a response without a
    fence is handed over stripped. *)
Theorem strip_code_fence_transparent (body : str) :
  startswith (body ++ py "```") (py "```") = false ->
  strip_code_fence (py "```json" ++ body ++ py "```") = strip body /\
  (startswith body (py "json") = false ->
   strip_code_fence (py "```" ++ body ++ py "```") = strip body) /\
  (startswith (strip body) (py "```") = false ->
   endswith (strip body) (py "```") = false ->
   strip_code_fence body = strip body).
Proof.
  intros Hopen.
  assert (Hstrip : forall x : str,
    strip (96 :: x ++ py "```")%N = (96 :: x ++ py "```")%N).
  { intros x. unfold strip. cbn [lstrip].
    change (isspace 96) with false. cbv iota.
    change (py "```") with ([96; 96]%N ++ [96%N]).
    rewrite app_assoc, app_comm_cons. apply rstrip_snoc. reflexivity. }
  assert (Hclose : forall x : str,
    startswith (x ++ py "```") (py "```") = false ->
    strip
      (if endswith (x ++ py "```") (py "```")
       then slice_to_minus 3 (x ++ py "```") else x ++ py "```")
    = strip x).
  { intros x Hx. rewrite endswith_app.
    change 3 with (length (py "```")). rewrite slice_to_minus_app.
    reflexivity. }
  split; [|split].
  - unfold strip_code_fence.
    change (py "```json" ++ body ++ py "```")
      with (96 :: (py "``json" ++ body) ++ py "```")%N.
    rewrite Hstrip.
    change (96 :: (py "``json" ++ body) ++ py "```")%N
      with (py "```json" ++ (body ++ py "```")).
    rewrite startswith_app.
    change (slice_from 7 (py "```json" ++ (body ++ py "```")))
      with (body ++ py "```").
    rewrite Hopen. apply Hclose, Hopen.
  - intros Hjson. unfold strip_code_fence.
    change (py "```" ++ body ++ py "```")
      with (96 :: (py "``" ++ body) ++ py "```")%N.
    rewrite Hstrip.
    change (96 :: (py "``" ++ body) ++ py "```")%N
      with (py "```" ++ (body ++ py "```")).
    assert (Hnot : startswith (py "```" ++ (body ++ py "```")) (py "```json")
                   = false).
    { change (py "```json") with (py "```" ++ py "json").
      change (startswith (py "```" ++ (body ++ py "```"))
                (py "```" ++ py "json"))
        with (startswith (body ++ py "```") (py "json")).
      clear - Hjson.
      change (py "json") with [106; 115; 111; 110]%N in *.
      change (py "```") with [96; 96; 96]%N.
      destruct body as [|a [|b [|c [|d body]]]];
        cbn [app startswith] in *; try reflexivity; try exact Hjson;
        repeat match goal with
               | |- context [(?k =? ?v)%N] =>
                 is_var v; destruct (N.eqb_spec k v); [subst v|];
                 cbn [andb]; try reflexivity
               end.
      destruct body; discriminate Hjson. }
    rewrite Hnot, startswith_app.
    change (slice_from 3 (py "```" ++ (body ++ py "```")))
      with (body ++ py "```").
    apply Hclose, Hopen.
  - intros Hs He. unfold strip_code_fence.
    assert (Hj : startswith (strip body) (py "```json") = false).
    { change (py "```json") with (py "```" ++ py "json").
      clear - Hs. revert Hs. generalize (strip body). intros x Hs.
      change (py "```" ++ py "json") with [96; 96; 96; 106; 115; 111; 110]%N.
      change (py "```") with [96; 96; 96]%N in Hs.
      destruct x as [|a [|b [|c x]]]; cbn [startswith andb] in *;
        try reflexivity;
        repeat match goal with
               | |- context [(96 =? ?v)%N] =>
                 is_var v; destruct (96 =? v)%N; cbn [andb] in *;
                 try reflexivity
               end.
      destruct x; discriminate Hs. }
    rewrite Hj, Hs, He. apply strip_idem.
Qed.

Lemma strip_code_fence_transparent_witness :
  strip_code_fence (py "```json" ++ (10 :: py "{}" ++ [10])%N ++ py "```")
  = strip (10 :: py "{}" ++ [10])%N.
Proof.
  destruct (strip_code_fence_transparent (10 :: py "{}" ++ [10])%N eq_refl)
    as [H _].
  exact H.
Defined.

End Text.

(* ===================================================================== *)
(** * Further properties of the transcription service *)
(* ===================================================================== *)

Section Transcription.

Import STT.

Lemma accepted_size_bounds (size : Z) :
  accepted_size size = true <-> (1024 <= size <= 25 * 1024 * 1024)%Z.
Proof. unfold accepted_size. rewrite andb_true_iff, !Z.leb_le. tauto. Qed.

Lemma handle_transcription_error_raises {A} (w : World) (error : exn)
  (st : Calls) :
  @OpenAISTTClient.handle_transcription_error A w error st
  = (Raise (handled w error), st).
Proof.
  unfold OpenAISTTClient.handle_transcription_error, handled.
  destruct (contains _ _); [reflexivity|].
  destruct (contains _ _); reflexivity.
Qed.

Lemma handled_caught (w : World) (error : exn) :
  caught_by [RuntimeError; ValueError] (handled w error) = true.
Proof.
  unfold handled. destruct (contains _ _); [reflexivity|].
  destruct (contains _ _); reflexivity.
Qed.

(** The client on a file that passed its four checks. *)
Lemma client_transcribe_audio_accepted (w : World) (path : str) (size : Z)
  (st : Calls) :
  path <> [] -> file_size w path = Some size -> accepted_size size = true ->
  OpenAISTTClient.transcribe_audio w path st
  = ((request_phase w path st).1,
     if (request_phase w path st).2 then count_stt st else st).
Proof.
  intros Hne Hfs Hsize. apply accepted_size_bounds in Hsize.
  unfold OpenAISTTClient.transcribe_audio, request_phase.
  destruct path as [|c p]; [congruence|]. rewrite Hfs.
  unfold OpenAISTTClient.max_size.
  destruct (Z.gtb_spec size (25 * 1024 * 1024)); [lia|].
  destruct (Z.ltb_spec size 1024); [lia|].
  unfold try_clauses, bind, OpenAISTTClient.transcription_request.
  destruct (file_open w (c :: p)) as [msg|].
  { cbn [find_clause caught_by existsb subclass exn_cls exn_class_eqb orb].
    apply handle_transcription_error_raises. }
  destruct (transcriptions_create w (stt_calls st) (c :: p)) as [text|e].
  - destruct (strip text) as [|c' t'] eqn:Ht; [|reflexivity].
    cbn [raise find_clause caught_by existsb subclass exn_cls exn_class_eqb
         orb].
    apply handle_transcription_error_raises.
  - cbn [find_clause]. destruct (caught_by [APIError] e); [reflexivity|].
    destruct (caught_by [OSError; ValueError] e); [|reflexivity].
    apply handle_transcription_error_raises.
Qed.

(** [STTService.transcribe_audio] wraps what the client raises. *)
Lemma service_transcribe_audio_wraps (w : World) (svc : STTService.t)
  (path : str) (st : Calls) :
  path <> [] ->
  transcribe_audio w (Some svc) path st
  = (wrapped (OpenAISTTClient.transcribe_audio w path st).1,
     (OpenAISTTClient.transcribe_audio w path st).2).
Proof.
  intros Hne. unfold transcribe_audio, STTService.transcribe_audio.
  destruct path as [|c p]; [congruence|].
  unfold try_except, try_clauses.
  destruct (OpenAISTTClient.transcribe_audio w (c :: p) st) as [[r|e] st'];
    [reflexivity|].
  cbn [find_clause fst snd wrapped raise].
  destruct (caught_by [RuntimeError; ValueError] e); reflexivity.
Qed.

(** The client's outcome on a path that is not empty. *)
Lemma client_transcribe_audio_cases (w : World) (path : str) (st : Calls) :
  path <> [] ->
  OpenAISTTClient.transcribe_audio w path st
  = match file_size w path with
    | None => (Raise (not_found_error path), st)
    | Some size =>
      if accepted_size size then
        ((request_phase w path st).1,
         if (request_phase w path st).2 then count_stt st else st)
      else if (size >? 25 * 1024 * 1024)%Z then
        (Raise (too_large_error w size), st)
      else (Raise too_small_error, st)
    end.
Proof.
  intros Hne. destruct (file_size w path) as [size|] eqn:Hfs.
  - destruct (accepted_size size) eqn:Hsize.
    + apply (client_transcribe_audio_accepted w path size); assumption.
    + unfold OpenAISTTClient.transcribe_audio.
      destruct path as [|c p]; [congruence|]. rewrite Hfs.
      unfold OpenAISTTClient.max_size.
      destruct (size >? 25 * 1024 * 1024)%Z eqn:Hbig; [reflexivity|].
      destruct (Z.ltb_spec size 1024); [reflexivity|].
      exfalso. rewrite Z.gtb_ltb in Hbig. apply Z.ltb_ge in Hbig.
      assert (accepted_size size = true)
        by (apply accepted_size_bounds; lia).
      congruence.
  - unfold OpenAISTTClient.transcribe_audio.
    destruct path as [|c p]; [congruence|]. rewrite Hfs. reflexivity.
Qed.

Lemma request_phase_ok (w : World) (path : str) (st : Calls) (t : str)
  (c : pynum) :
  (request_phase w path st).1 = Ok (t, c) <->
  file_open w path = None /\
  (exists text,
     transcriptions_create w (stt_calls st) path = Ok text /\
     t = strip text) /\
  t <> [] /\ c = Fin 1.
Proof.
  unfold request_phase.
  destruct (file_open w path) as [msg|].
  { split; [discriminate | intros [H _]; discriminate H]. }
  destruct (transcriptions_create w (stt_calls st) path) as [text|e].
  - destruct (strip text) as [|c' t'] eqn:Ht; cbn [fst].
    + split; [discriminate|].
      intros (_ & (text' & Heq & ->) & Hne & _).
      injection Heq as <-. congruence.
    + split.
      * intros H. injection H as <- <-.
        split; [reflexivity|]. split; [exists text; auto|].
        split; [discriminate | reflexivity].
      * intros (_ & (text' & Heq & ->) & _ & ->).
        injection Heq as <-. rewrite Ht. reflexivity.
  - split.
    + destruct (caught_by [APIError] e); [discriminate|].
      destruct (caught_by [OSError; ValueError] e); discriminate.
    + intros (_ & (text' & Heq & _) & _). discriminate Heq.
Qed.

Lemma request_phase_made (w : World) (path : str) (st : Calls) :
  (request_phase w path st).2 = true <-> file_open w path = None.
Proof.
  unfold request_phase. destruct (file_open w path).
  - split; discriminate.
  - split; [reflexivity|]. intros _.
    destruct (transcriptions_create w (stt_calls st) path) as [text|e].
    + destruct (strip text); reflexivity.
    + destruct (caught_by [APIError] e); [reflexivity|].
      destruct (caught_by [OSError; ValueError] e); reflexivity.
Qed.

(** When the module-level [transcribe_audio] returns. *)
Lemma transcribe_audio_ok_iff (w : World)
  (stt_service : option STTService.t) (path : str) (st st' : Calls)
  (t : str) (c : pynum) :
  transcribe_audio w stt_service path st = (Ok (t, c), st') <->
  stt_service <> None /\ path <> [] /\
  (exists size, file_size w path = Some size /\ accepted_size size = true) /\
  file_open w path = None /\
  (exists text,
     transcriptions_create w (stt_calls st) path = Ok text /\
     t = strip text) /\
  t <> [] /\ c = Fin 1 /\ st' = count_stt st.
Proof.
  destruct stt_service as [svc|].
  2: { split; [discriminate | intros [H _]; congruence]. }
  destruct path as [|p0 p].
  { split; [discriminate | intros (_ & H & _); congruence]. }
  rewrite service_transcribe_audio_wraps by discriminate.
  rewrite client_transcribe_audio_cases by discriminate.
  destruct (file_size w (p0 :: p)) as [size|].
  2: { split; [discriminate|].
       intros (_ & _ & (size & H & _) & _). discriminate H. }
  destruct (accepted_size size) eqn:Hsize.
  2: { split.
       - destruct (size >? 25 * 1024 * 1024)%Z; discriminate.
       - intros (_ & _ & (size' & H & H') & _). congruence. }
  cbn [fst snd].
  pose proof (request_phase_ok w (p0 :: p) st t c) as Hok.
  pose proof (request_phase_made w (p0 :: p) st) as Hmade.
  destruct (request_phase w (p0 :: p) st) as [[r|e] made]; cbn [fst snd] in *.
  - cbn [wrapped]. split.
    + intros H. injection H as -> <-.
      destruct Hok as [Hok _].
      destruct (Hok eq_refl) as (Hopen & Htext & Hne & Hc).
      destruct Hmade as [_ Hmade]. rewrite (Hmade Hopen).
      split; [discriminate|]. split; [discriminate|].
      split; [exists size; auto|]. auto 10.
    + intros (_ & _ & _ & Hopen & Htext & Hne & Hc & ->).
      destruct Hok as [_ Hok]. rewrite (Hok (conj Hopen (conj Htext (conj Hne Hc)))).
      destruct Hmade as [_ Hmade]. rewrite (Hmade Hopen). reflexivity.
  - split.
    + cbn [wrapped]. destruct (caught_by _ e); discriminate.
    + intros (_ & _ & _ & Hopen & Htext & Hne & Hc & _).
      destruct Hok as [_ Hok].
      discriminate (Hok (conj Hopen (conj Htext (conj Hne Hc)))).
Qed.

(** X9. The outcomes of the module-level [transcribe_audio] with the
    service available.  It returns exactly when the path is not empty, the
    file exists with a size from 1024 bytes to 25 MB (both included), it can
    be opened, and the backend answers a text that is not blank; the result
    is then that text stripped, with confidence 1.0.  On a path that is not
    empty every failure is either the [RuntimeError] that wraps the cause,
    or an exception that is neither a [RuntimeError] nor a [ValueError] and
    is let through.  At most one request is made to the transcription
    backend, none when the file is rejected or cannot be opened, and the
    chat backend is never called. *)
Theorem transcribe_audio_outcomes (w : World) (svc : STTService.t)
  (path : str) (st : Calls) :
  let run := transcribe_audio w (Some svc) path st in
  (forall t c,
     run.1 = Ok (t, c) <->
     path <> [] /\
     (exists size,
        file_size w path = Some size /\
        (1024 <= size <= 25 * 1024 * 1024)%Z) /\
     file_open w path = None /\
     (exists text,
        transcriptions_create w (stt_calls st) path = Ok text /\
        t = strip text) /\
     t <> [] /\ c = Fin 1) /\
  (forall e,
     run.1 = Raise e -> path <> [] ->
     (exists cause, e = stt_failure cause) \/
     caught_by [RuntimeError; ValueError] e = false) /\
  (run.2 = count_stt st <->
   path <> [] /\
   (exists size, file_size w path = Some size /\ accepted_size size = true) /\
   file_open w path = None) /\
  (run.2 = st \/ run.2 = count_stt st) /\
  llm_calls run.2 = llm_calls st.
Proof.
  cbv zeta.
  assert (Hcount : forall st0 : Calls, count_stt st0 <> st0).
  { intros [a b] H. injection H as H. lia. }
  split; [|split; [|split; [|split]]].
  - intros t c.
    destruct (transcribe_audio w (Some svc) path st) as [o st'] eqn:Hrun.
    cbn [fst]. split.
    + intros ->.
      apply transcribe_audio_ok_iff in Hrun
        as (_ & Hne & (size & Hfs & Hsize) & Hopen & Htext & Ht & Hc & _).
      apply accepted_size_bounds in Hsize.
      split; [exact Hne|]. split; [exists size; auto|]. auto.
    + intros (Hne & (size & Hfs & Hsize) & Hopen & Htext & Ht & Hc).
      apply accepted_size_bounds in Hsize.
      assert (Hiff : transcribe_audio w (Some svc) path st
                     = (Ok (t, c), count_stt st)).
      { apply transcribe_audio_ok_iff.
        split; [discriminate|]. split; [exact Hne|].
        split; [exists size; auto|]. auto 10. }
      rewrite Hiff in Hrun. injection Hrun as <- _. reflexivity.
  - intros e Hrun Hne.
    rewrite service_transcribe_audio_wraps in Hrun by assumption.
    cbn [fst] in Hrun.
    destruct (OpenAISTTClient.transcribe_audio w path st).1 as [r|e0];
      [discriminate Hrun|].
    cbn [wrapped] in Hrun.
    destruct (caught_by [RuntimeError; ValueError] e0) eqn:He0;
      injection Hrun as <-.
    + left. exists (exn_msg e0). reflexivity.
    + right. exact He0.
  - destruct path as [|p0 p].
    { cbn [snd transcribe_audio STTService.transcribe_audio raise].
      split; [intros H; symmetry in H; destruct (Hcount _ H)|].
      intros [H _]. congruence. }
    rewrite service_transcribe_audio_wraps by discriminate.
    rewrite client_transcribe_audio_cases by discriminate.
    cbn [snd].
    destruct (file_size w (p0 :: p)) as [size|].
    2: { cbn [snd]. split; [intros H; symmetry in H; destruct (Hcount _ H)|].
         intros (_ & (size & H & _) & _). discriminate H. }
    destruct (accepted_size size) eqn:Hsize.
    2: { split.
         - destruct (size >? 25 * 1024 * 1024)%Z; cbn [snd];
             intros H; symmetry in H; destruct (Hcount _ H).
         - intros (_ & (size' & H & H') & _). congruence. }
    cbn [snd]. pose proof (request_phase_made w (p0 :: p) st) as Hmade.
    destruct (request_phase w (p0 :: p) st).2.
    + split; [|reflexivity]. intros _.
      split; [discriminate|]. split; [exists size; auto|].
      apply Hmade. reflexivity.
    + split; [intros H; symmetry in H; destruct (Hcount _ H)|].
      intros (_ & _ & Hopen). apply Hmade in Hopen. discriminate Hopen.
  - destruct path as [|p0 p]; [left; reflexivity|].
    rewrite service_transcribe_audio_wraps by discriminate.
    rewrite client_transcribe_audio_cases by discriminate.
    cbn [snd].
    destruct (file_size w (p0 :: p)) as [size|]; [|left; reflexivity].
    destruct (accepted_size size).
    + cbn [snd]. destruct (request_phase w (p0 :: p) st).2; auto.
    + destruct (size >? 25 * 1024 * 1024)%Z; left; reflexivity.
  - apply transcribe_audio_llm_calls.
Qed.

(** X10. How [transcribe_audio] reports each failure on an existing file.
    A file below 1024 bytes or above 25 MB is refused without a request, and
    the client's [ValueError] reaches the caller as the wrapping
    [RuntimeError].  A file that cannot be opened makes no request either.
    An [APIError] of the backend is not retried: after that single request
    the failure names the OpenAI service.  A transcript that is blank, and
    an [IOError] or [ValueError] of the backend, go through
    [_handle_transcription_error]; a [RuntimeError] of the backend is
    wrapped as it is, and any other exception is let through. *)
Theorem transcribe_audio_failures (w : World) (svc : STTService.t)
  (path : str) (size : Z) (st : Calls) :
  path <> [] -> file_size w path = Some size ->
  let run := transcribe_audio w (Some svc) path st in
  ((size < 1024)%Z ->
   run = (Raise (stt_failure (exn_msg too_small_error)), st)) /\
  ((size > 25 * 1024 * 1024)%Z ->
   run = (Raise (stt_failure (exn_msg (too_large_error w size))), st)) /\
  (accepted_size size = true ->
   (forall msg, file_open w path = Some msg ->
      run = (Raise (stt_failure (exn_msg (handled w (Exn OSError msg)))),
             st)) /\
   (file_open w path = None ->
    (forall e,
       transcriptions_create w (stt_calls st) path = Raise e ->
       caught_by [APIError] e = true ->
       run = (Raise (stt_failure (py "OpenAI 服務錯誤: " ++ exn_msg e)),
              count_stt st)) /\
    (forall text,
       transcriptions_create w (stt_calls st) path = Ok text ->
       strip text = [] ->
       run = (Raise (stt_failure (exn_msg (handled w no_speech))),
              count_stt st)) /\
    (forall e,
       transcriptions_create w (stt_calls st) path = Raise e ->
       caught_by [APIError] e = false ->
       caught_by [OSError; ValueError] e = true ->
       run = (Raise (stt_failure (exn_msg (handled w e))), count_stt st)) /\
    (forall e,
       transcriptions_create w (stt_calls st) path = Raise e ->
       caught_by [APIError] e = false ->
       caught_by [OSError; ValueError] e = false ->
       run = (wrapped (Raise e), count_stt st)))).
Proof.
  intros Hne Hfs. cbv zeta.
  rewrite service_transcribe_audio_wraps by assumption.
  rewrite client_transcribe_audio_cases by assumption.
  rewrite Hfs.
  split; [|split].
  - intros Hsmall.
    assert (Hacc : accepted_size size = false).
    { destruct (accepted_size size) eqn:E; [|reflexivity].
      apply accepted_size_bounds in E. lia. }
    rewrite Hacc.
    destruct (Z.gtb_spec size (25 * 1024 * 1024)); [lia|]. reflexivity.
  - intros Hbig.
    assert (Hacc : accepted_size size = false).
    { destruct (accepted_size size) eqn:E; [|reflexivity].
      apply accepted_size_bounds in E. lia. }
    rewrite Hacc.
    destruct (Z.gtb_spec size (25 * 1024 * 1024)); [|lia]. reflexivity.
  - intros ->. unfold request_phase. split.
    + intros msg ->. cbn [fst snd wrapped].
      rewrite handled_caught. reflexivity.
    + intros ->. split; [|split; [|split]].
      * intros e -> ->. reflexivity.
      * intros text -> ->. cbn [fst snd wrapped].
        rewrite handled_caught. reflexivity.
      * intros e -> -> ->. cbn [fst snd wrapped].
        rewrite handled_caught. reflexivity.
      * intros e -> -> ->. reflexivity.
Qed.

Lemma transcribe_audio_failures_witness :
  transcribe_audio (Fixtures.with_file 2048)
    (Some (Fixtures.service AudioRecorder.init)) (py "take1.wav") no_calls
  = (Raise (stt_failure (py "OpenAI 服務錯誤: " ++ py "Connection error.")),
     count_stt no_calls).
Proof.
  destruct (transcribe_audio_failures (Fixtures.with_file 2048)
              (Fixtures.service AudioRecorder.init) (py "take1.wav") 2048
              no_calls ltac:(discriminate) eq_refl)
    as (_ & _ & H).
  destruct (H eq_refl) as [_ Hopen].
  destruct (Hopen eq_refl) as [Hapi _].
  apply (Hapi (Exn APIError (py "Connection error."))); reflexivity.
Defined.

End Transcription.

(* ===================================================================== *)
(** * Further properties of the orchestrator *)
(* ===================================================================== *)

Section Evaluation.

Import STT.

Ltac key_ne := apply str_ne; vm_compute; reflexivity.

Lemma is_empty_insert (d : dict) (k : str) (v : pyval) :
  is_empty (<[k := v]> d) = false.
Proof.
  unfold is_empty. apply bool_decide_eq_false. apply insert_non_empty.
Qed.

Lemma is_empty_dict_of_cons (k : str) (v : pyval) (l : list (str * pyval)) :
  is_empty (dict_of ((k, v) :: l)) = false.
Proof. apply (is_empty_insert (dict_of l) k v). Qed.

(** [evaluate_single_file] once the transcription step has returned. *)
Lemma evaluate_after_transcription (w : World) (g : Services)
  (path ref : str) (st st1 : Calls) (t : str) (c : pynum) :
  transcribe_audio w (stt_service g) path st = (Ok (t, c), st1) ->
  evaluate_single_file w g path ref st
  = match compare_text_accuracy w (llm_service g) t ref st1 with
    | (Raise e, st2) =>
      if caught_by [RuntimeError; ValueError] e then
        (Ok (failure_result w path ref (transcribed_record w path t c)
               (failed_comparison (exn_msg e)) (exn_msg e)), st2)
      else (Raise e, st2)
    | (Ok report, st2) =>
      match calculate_evaluation_metrics (EVALUATION_CONFIG w)
              (marked_successful report) c with
      | Ok metrics =>
        (Ok (success_result w path ref (transcribed_record w path t c)
               (marked_successful report) metrics), st2)
      | Raise e =>
        if caught_by [RuntimeError; ValueError] e then
          (Ok (failure_result w path ref (transcribed_record w path t c)
                 (marked_successful report) (exn_msg e)), st2)
        else (Raise e, st2)
      end
    end.
Proof.
  intros Htrans.
  unfold evaluate_single_file, try_except, try_clauses, evaluate_body.
  unfold bind at 1 2. unfold update at 1, modify at 1.
  unfold call at 1. cbn [fst snd]. rewrite Htrans.
  unfold bind at 1. unfold update at 1, modify at 1. cbn [fst snd].
  unfold bind at 1. unfold call at 1. cbn [fst snd].
  destruct (compare_text_accuracy w (llm_service g) t ref st1)
    as [[report|e] st2].
  - unfold bind at 1. unfold update at 1, modify at 1. cbn [fst snd].
    unfold bind at 1. unfold pure_call at 1.
    fold (marked_successful report).
    destruct (calculate_evaluation_metrics (EVALUATION_CONFIG w)
                (marked_successful report) c) as [metrics|e].
    + reflexivity.
    + cbn [find_clause].
      destruct (caught_by [RuntimeError; ValueError] e); [|reflexivity].
      unfold evaluate_handler, bind, update, modify. cbn [fst snd].
      cbn [transcription comparison set_transcription set_comparison
           set_inputs set_error_message set_success set_evaluation_metrics
           new_result].
      rewrite is_empty_dict_of_cons.
      cbn [transcription comparison set_transcription set_comparison
           set_inputs set_error_message set_success set_evaluation_metrics
           new_result].
      unfold marked_successful at 1. rewrite is_empty_insert. reflexivity.
  - cbn [find_clause].
    destruct (caught_by [RuntimeError; ValueError] e); [|reflexivity].
    unfold evaluate_handler, bind, update, modify. cbn [fst snd].
    cbn [transcription comparison set_transcription set_comparison
         set_inputs set_error_message set_success set_evaluation_metrics
         new_result].
    rewrite is_empty_dict_of_cons.
    cbn [transcription comparison set_transcription set_comparison
         set_inputs set_error_message set_success set_evaluation_metrics
         new_result].
    reflexivity.
Qed.

(** The transcription step makes at most one request. *)
Lemma transcribe_audio_state (w : World)
  (stt_service : option STTService.t) (path : str) (st : Calls) :
  (transcribe_audio w stt_service path st).2 = st \/
  (transcribe_audio w stt_service path st).2 = count_stt st.
Proof.
  destruct stt_service as [svc|]; [|left; reflexivity].
  destruct path as [|p0 p]; [left; reflexivity|].
  rewrite service_transcribe_audio_wraps by discriminate.
  rewrite client_transcribe_audio_cases by discriminate.
  cbn [snd].
  destruct (file_size w (p0 :: p)) as [size|]; [|left; reflexivity].
  destruct (accepted_size size).
  - cbn [snd]. destruct (request_phase w (p0 :: p) st).2; auto.
  - destruct (size >? 25 * 1024 * 1024)%Z; left; reflexivity.
Qed.

(** What holds of every run of the module-level [compare_text_accuracy],
    and of the runs that return. *)
Lemma compare_text_accuracy_facts (w : World)
  (llm_service : option LLMService) (t ref : str) (st : Calls) :
  stt_calls (compare_text_accuracy w llm_service t ref st).2 = stt_calls st /\
  llm_calls st <= llm_calls (compare_text_accuracy w llm_service t ref st).2
    <= llm_calls st + 3 /\
  (forall report,
     (compare_text_accuracy w llm_service t ref st).1 = Ok report ->
     llm_service <> None /\ blank t = false /\ blank ref = false /\
     llm_calls st < llm_calls (compare_text_accuracy w llm_service t ref st).2 /\
     exists response_text,
       parse_comparison_response w response_text = Ok report).
Proof.
  unfold compare_text_accuracy.
  destruct llm_service as [svc|].
  2: { cbn [raise fst snd]. repeat split; try lia; discriminate. }
  unfold service_compare_text_accuracy.
  destruct (blank t) eqn:Ht.
  { cbn [raise fst snd]. repeat split; try lia; discriminate. }
  destruct (blank ref) eqn:Hr.
  { cbn [raise fst snd]. repeat split; try lia; discriminate. }
  set (prompt := build_comparison_prompt w _ _). clearbody prompt.
  unfold try_except, try_clauses, bind.
  destruct (call_openai_api_outcome w prompt 0 st) as (Hstt & Hllm & _).
  cbn [Nat.min Nat.sub] in Hllm.
  destruct (call_openai_api w prompt 0 st) as [[content|e] st'];
    cbn [fst snd] in Hstt, Hllm.
  - destruct (parse_comparison_response w content) as [report|e] eqn:Hp.
    + cbn [fst snd]. split; [exact Hstt|]. split; [lia|].
      intros report' H. injection H as <-.
      split; [discriminate|]. split; [reflexivity|]. split; [reflexivity|].
      split; [lia | exists content; exact Hp].
    + cbn [find_clause].
      destruct (caught_by [APIError; RuntimeError; ValueError] e);
        cbn [raise fst snd]; (split; [exact Hstt|]); (split; [lia|]);
        discriminate.
  - cbn [find_clause].
    destruct (caught_by [APIError; RuntimeError; ValueError] e);
      cbn [raise fst snd]; (split; [exact Hstt|]); (split; [lia|]);
      discriminate.
Qed.

(** The runs of [evaluate_single_file]: the transcription step fails, or
    the comparison step fails, or no step fails.  The metrics step cannot
    fail after the comparison step has returned. *)
Lemma evaluate_single_file_cases (w : World) (g : Services)
  (path ref : str) (st : Calls) :
  (exists e st1,
     transcribe_audio w (stt_service g) path st = (Raise e, st1) /\
     (st1 = st \/ st1 = count_stt st) /\
     evaluate_single_file w g path ref st
     = if caught_by [RuntimeError; ValueError] e then
         (Ok (failure_result w path ref
                (failed_transcription w path (exn_msg e))
                (failed_comparison (exn_msg e)) (exn_msg e)), st1)
       else (Raise e, st1)) \/
  (exists t e st2,
     transcribe_audio w (stt_service g) path st
     = (Ok (t, Fin 1), count_stt st) /\
     t <> [] /\ strip t = t /\
     compare_text_accuracy w (llm_service g) t ref (count_stt st)
     = (Raise e, st2) /\
     stt_calls st2 = S (stt_calls st) /\
     llm_calls st <= llm_calls st2 <= llm_calls st + 3 /\
     evaluate_single_file w g path ref st
     = if caught_by [RuntimeError; ValueError] e then
         (Ok (failure_result w path ref
                (transcribed_record w path t (Fin 1))
                (failed_comparison (exn_msg e)) (exn_msg e)), st2)
       else (Raise e, st2)) \/
  (exists t report metrics response_text st2,
     transcribe_audio w (stt_service g) path st
     = (Ok (t, Fin 1), count_stt st) /\
     t <> [] /\ strip t = t /\ blank ref = false /\
     compare_text_accuracy w (llm_service g) t ref (count_stt st)
     = (Ok report, st2) /\
     parse_comparison_response w response_text = Ok report /\
     calculate_evaluation_metrics (EVALUATION_CONFIG w)
       (marked_successful report) (Fin 1) = Ok metrics /\
     stt_calls st2 = S (stt_calls st) /\
     llm_calls st < llm_calls st2 <= llm_calls st + 3 /\
     evaluate_single_file w g path ref st
     = (Ok (success_result w path ref
              (transcribed_record w path t (Fin 1))
              (marked_successful report) metrics), st2)).
Proof.
  destruct (transcribe_audio w (stt_service g) path st)
    as [[[t c]|e] st1] eqn:Htrans.
  2: { left. exists e, st1. split; [reflexivity|].
       pose proof (transcribe_audio_state w (stt_service g) path st) as Hst.
       rewrite Htrans in Hst. split; [exact Hst|].
       apply (evaluate_single_file_stt_failure w g path ref st st1 e Htrans). }
  right.
  pose proof (evaluate_after_transcription w g path ref st st1 t c Htrans)
    as Heval.
  apply transcribe_audio_ok_iff in Htrans
    as (_ & _ & _ & _ & (text & _ & Ht) & Hne & -> & ->).
  assert (Hstrip : strip t = t) by (rewrite Ht; apply strip_idem).
  destruct (compare_text_accuracy_facts w (llm_service g) t ref (count_stt st))
    as (Hstt & Hllm & Hok).
  destruct (compare_text_accuracy w (llm_service g) t ref (count_stt st))
    as [[report|e] st2] eqn:Hcmp;
    cbn [fst snd count_stt stt_calls llm_calls] in *.
  - right.
    destruct (Hok report eq_refl) as (_ & _ & Hr & Hlt & response & Hparse).
    destruct (marked_report_scores w response report Hparse)
      as (va & vs & n & Hma & Hms & _ & _ & _ & _ & Hn).
    destruct (metrics_of_numeric_score (EVALUATION_CONFIG w)
                (marked_successful report) (Fin 1) va vs n Hma Hms Hn)
      as (metrics & Hm & _).
    rewrite Hm in Heval.
    exists t, report, metrics, response, st2.
    split; [reflexivity|]. split; [exact Hne|]. split; [exact Hstrip|].
    split; [exact Hr|]. split; [exact Hcmp|]. split; [exact Hparse|].
    split; [exact Hm|]. split; [exact Hstt|]. split; [lia | exact Heval].
  - left. exists t, e, st2.
    split; [reflexivity|]. split; [exact Hne|]. split; [exact Hstrip|].
    split; [exact Hcmp|]. split; [exact Hstt|]. split; [lia | exact Heval].
Qed.

(** X11. What holds of every run of [evaluate_single_file].  An exception
    that escapes is neither a [RuntimeError] nor a [ValueError].  A result
    echoes the two inputs, carries the identifier, the timestamp and the
    elapsed time, reports success exactly when it has no error message, and
    stores the overall outcome as the [success] of its comparison; a failed
    result has the placeholder metrics and the placeholder comparison built
    from its error message, and its transcription record always names the
    file.  At most one transcription request and three chat requests are
    made, and no chat request unless the transcription request was made. *)
Theorem evaluate_single_file_invariants (w : World) (g : Services)
  (path ref : str) (st : Calls) :
  let run := evaluate_single_file w g path ref st in
  stt_calls st <= stt_calls run.2 <= stt_calls st + 1 /\
  llm_calls st <= llm_calls run.2 <= llm_calls st + 3 /\
  (stt_calls run.2 = stt_calls st -> llm_calls run.2 = llm_calls st) /\
  match run.1 with
  | Raise e => caught_by [RuntimeError; ValueError] e = false
  | Ok r =>
    evaluation_id r = uuid4 w /\ timestamp r = now_isoformat w /\
    audio_file r = path /\ reference_text r = ref /\
    processing_time r = elapsed w /\
    (success r = true <-> error_message r = None) /\
    comparison r !! py "success" = Some (PBool (success r)) /\
    transcription r !! py "file_path" = Some (PStr path) /\
    (success r = false ->
     evaluation_metrics r = failed_metrics /\
     exists msg,
       error_message r = Some msg /\
       comparison r = failed_comparison msg)
  end.
Proof.
  cbv zeta.
  destruct (evaluate_single_file_cases w g path ref st)
    as [(e & st1 & Htrans & Hst & ->)
       |[(t & e & st2 & _ & _ & _ & _ & Hstt & Hllm & ->)
        |(t & report & metrics & response & st2 & _ & _ & _ & _ & _ & _ & _
          & Hstt & Hllm & ->)]].
  - pose proof (transcribe_audio_llm_calls w (stt_service g) path st) as Hl.
    rewrite Htrans in Hl. cbn [snd] in Hl.
    assert (Hcalls : stt_calls st <= stt_calls st1 <= stt_calls st + 1).
    { destruct Hst as [-> | ->]; cbn [count_stt stt_calls]; lia. }
    destruct (caught_by [RuntimeError; ValueError] e) eqn:He; cbn [fst snd].
    + split; [exact Hcalls|]. split; [lia|]. split; [intros _; exact Hl|].
      cbn [failure_result evaluation_id timestamp audio_file reference_text
           processing_time success error_message comparison transcription
           evaluation_metrics].
      repeat (split; [reflexivity|]).
      split; [split; discriminate|].
      generalize (exn_msg e). intros msg.
      split; [vm_compute; reflexivity|].
      split; [vm_compute; reflexivity|].
      intros _. split; [reflexivity|]. exists msg. auto.
    + split; [exact Hcalls|]. split; [lia|]. split; [intros _; exact Hl|].
      exact He.
  - destruct (caught_by [RuntimeError; ValueError] e) eqn:He; cbn [fst snd].
    + split; [lia|]. split; [lia|]. split; [lia|].
      cbn [failure_result evaluation_id timestamp audio_file reference_text
           processing_time success error_message comparison transcription
           evaluation_metrics].
      repeat (split; [reflexivity|]).
      split; [split; discriminate|].
      generalize (exn_msg e). intros msg.
      split; [vm_compute; reflexivity|].
      split; [vm_compute; reflexivity|].
      intros _. split; [reflexivity|]. exists msg. auto.
    + split; [lia|]. split; [lia|]. split; [lia|]. exact He.
  - cbn [fst snd]. split; [lia|]. split; [lia|]. split; [lia|].
    cbn [success_result evaluation_id timestamp audio_file reference_text
         processing_time success error_message comparison transcription
         evaluation_metrics].
    repeat (split; [reflexivity|]).
    split; [split; reflexivity|].
    split; [apply lookup_insert_eq|].
    split; [vm_compute; reflexivity | discriminate].
Qed.

(** X12. What a successful result guarantees.  The file exists with an
    accepted size, the transcription backend answered once and the stored
    transcript is its answer stripped, not empty, with confidence 1.0; the
    reference text is not blank; the stored comparison is a report the
    parser accepted, marked successful, so both scores lie within [0, 100];
    the metrics carry the same accuracy score and the status [completed];
    exactly one transcription request and between one and three chat
    requests were made. *)
Theorem evaluate_single_file_success (w : World) (g : Services)
  (path ref : str) (st st' : Calls) (r : EvaluationResult) :
  evaluate_single_file w g path ref st = (Ok r, st') ->
  success r = true ->
  error_message r = None /\
  path <> [] /\
  (exists size, file_size w path = Some size /\ accepted_size size = true) /\
  (exists text,
     transcriptions_create w (stt_calls st) path = Ok text /\
     strip text <> [] /\
     transcription r = transcribed_record w path (strip text) (Fin 1)) /\
  blank ref = false /\
  (exists response_text report,
     parse_comparison_response w response_text = Ok report /\
     comparison r = marked_successful report) /\
  (exists va vs,
     comparison r !! py "accuracy_score" = Some va /\ in_score_range va /\
     comparison r !! py "semantic_similarity" = Some vs /\
     in_score_range vs /\
     evaluation_metrics r !! py "accuracy_score" = Some va /\
     evaluation_metrics r !! py "semantic_similarity" = Some vs) /\
  evaluation_metrics r !! py "processing_status"
  = Some (PStr (py "completed")) /\
  stt_calls st' = S (stt_calls st) /\
  llm_calls st < llm_calls st' <= llm_calls st + 3.
Proof.
  intros Hrun Hsuccess.
  destruct (evaluate_single_file_cases w g path ref st)
    as [(e & st1 & _ & _ & Heval)
       |[(t & e & st2 & _ & _ & _ & _ & _ & _ & Heval)
        |(t & report & metrics & response & st2 & Htrans & Hne & Hstrip
          & Href & _ & Hparse & Hmetrics & Hstt & Hllm & Heval)]];
    rewrite Heval in Hrun.
  1, 2: destruct (caught_by [RuntimeError; ValueError] e);
    [injection Hrun as <- _; discriminate Hsuccess | discriminate Hrun].
  injection Hrun as <- <-.
  apply transcribe_audio_ok_iff in Htrans
    as (_ & Hpath & Hsize & _ & (text & Htext & ->) & _ & _ & _).
  destruct (marked_report_scores w response report Hparse)
    as (va & vs & n & Hma & Hms & _ & _ & Hra & Hrs & Hn).
  destruct (metrics_of_numeric_score (EVALUATION_CONFIG w)
              (marked_successful report) (Fin 1) va vs n Hma Hms Hn)
    as (metrics' & Hm & Hm1 & Hm2 & _ & _ & Hm5).
  rewrite Hmetrics in Hm. injection Hm as <-.
  cbn [success_result error_message transcription comparison
       evaluation_metrics].
  split; [reflexivity|]. split; [exact Hpath|]. split; [exact Hsize|].
  split; [exists text; auto|]. split; [exact Href|].
  split; [exists response, report; auto|].
  split; [exists va, vs; auto 10|].
  split; [exact Hm5|]. split; [exact Hstt | exact Hllm].
Qed.

Lemma evaluate_single_file_success_witness :
  exists r st',
    evaluate_single_file (Fixtures.transcribing Fixtures.perfect_match)
      Fixtures.services (py "take1.wav") (py "今天天氣真好") no_calls
    = (Ok r, st') /\
    error_message r = None /\
    stt_calls st' = 1 /\
    evaluation_metrics r !! py "processing_status"
    = Some (PStr (py "completed")).
Proof.
  destruct (evaluate_single_file (Fixtures.transcribing Fixtures.perfect_match)
              Fixtures.services (py "take1.wav") (py "今天天氣真好") no_calls)
    as [[r|e] st'] eqn:Hrun; [|vm_compute in Hrun; discriminate Hrun].
  assert (Hs : success r = true).
  { vm_compute in Hrun. injection Hrun as <- _. reflexivity. }
  destruct (evaluate_single_file_success _ _ _ _ _ _ _ Hrun Hs)
    as (He & _ & _ & _ & _ & _ & _ & Hstatus & Hstt & _).
  exists r, st'. auto.
Defined.

(** X13. A failure of the comparison step keeps the transcription.  When
    the transcription step returned and [compare_text_accuracy] raises a
    [RuntimeError] or a [ValueError], the result is a failure with the
    message of that exception, the placeholder comparison and the
    placeholder metrics, but its transcription record is the successful one:
    the transcript, [success] true and no error.  Any other exception is
    propagated.  In particular the reference text is checked only after the
    transcription: a blank reference costs one transcription request and no
    chat request before it is reported. *)
Theorem evaluate_single_file_comparison_failure (w : World) (g : Services)
  (path ref : str) (st st1 st2 : Calls) (t : str) (c : pynum) (e : exn) :
  transcribe_audio w (stt_service g) path st = (Ok (t, c), st1) ->
  compare_text_accuracy w (llm_service g) t ref st1 = (Raise e, st2) ->
  (caught_by [RuntimeError; ValueError] e = true ->
   exists r,
     evaluate_single_file w g path ref st = (Ok r, st2) /\
     success r = false /\
     error_message r = Some (exn_msg e) /\
     transcription r !! py "transcript" = Some (PStr t) /\
     transcription r !! py "success" = Some (PBool true) /\
     transcription r !! py "error" = Some PNone /\
     comparison r = failed_comparison (exn_msg e) /\
     evaluation_metrics r = failed_metrics) /\
  (caught_by [RuntimeError; ValueError] e = false ->
   evaluate_single_file w g path ref st = (Raise e, st2)) /\
  (llm_service g <> None -> blank ref = true ->
   e = blank_reference /\ st2 = count_stt st /\
   exists r,
     evaluate_single_file w g path ref st = (Ok r, count_stt st) /\
     error_message r = Some (exn_msg blank_reference)).
Proof.
  intros Htrans Hcmp.
  pose proof (evaluate_after_transcription w g path ref st st1 t c Htrans)
    as Heval.
  rewrite Hcmp in Heval.
  split; [|split].
  - intros He. rewrite He in Heval. eexists. split; [exact Heval|].
    cbn [failure_result success error_message transcription comparison
         evaluation_metrics].
    generalize (exn_msg e). intros msg.
    repeat split; vm_compute; reflexivity.
  - intros He. rewrite He in Heval. exact Heval.
  - intros Hllm Href.
    apply transcribe_audio_ok_iff in Htrans
      as (_ & _ & _ & _ & (text & _ & Ht) & Hne & _ & ->).
    assert (Hblank : blank t = false).
    { unfold blank. destruct t as [|t0 t']; [congruence|].
      rewrite Ht, strip_idem, <- Ht. reflexivity. }
    unfold compare_text_accuracy, service_compare_text_accuracy in Hcmp.
    destruct (llm_service g) as [svc|]; [|congruence].
    rewrite Hblank, Href in Hcmp. injection Hcmp as <- <-.
    split; [reflexivity|]. split; [reflexivity|].
    eexists. split; [exact Heval | reflexivity].
Qed.

Lemma evaluate_single_file_comparison_failure_witness :
  exists r,
    evaluate_single_file (Fixtures.transcribing Fixtures.perfect_match)
      Fixtures.services (py "take1.wav") (py "  ") no_calls
    = (Ok r, count_stt no_calls) /\
    error_message r = Some (exn_msg blank_reference).
Proof.
  destruct (evaluate_single_file_comparison_failure
              (Fixtures.transcribing Fixtures.perfect_match)
              Fixtures.services (py "take1.wav") (py "  ") no_calls
              (count_stt no_calls) (count_stt no_calls) (py "今天天氣真好")
              (Fin 1) blank_reference eq_refl eq_refl)
    as (_ & _ & H).
  destruct (H ltac:(discriminate) eq_refl) as (_ & _ & Hr).
  exact Hr.
Defined.

(** X14. Missing services.  The global [stt_service] is [None] exactly when
    the API key is unset or empty or the mode is not [openai].  With a key
    and the [openai] mode the service is built only if the recorder can be
    constructed: the [IOError] of its [pyaudio.PyAudio()] or [terminate]
    is not among the exceptions the module catches and leaves the module
    with that exception; otherwise the service holds a fresh recorder.  The
    global [llm_service] is [None] exactly when the key is unset or empty,
    and its initialisation does not raise.  [evaluate_single_file] reports
    a missing service as a failed result and makes no request for it:
    without the transcription service no request at all is made; without
    the comparison service a transcription that succeeded is kept and no
    chat request is made. *)
Theorem evaluate_single_file_without_services (w : World) (audio : AudioEnv)
  (c : STTConfig) (lc : LLMConfig) (path ref : str) (st : Calls) :
  (init_stt_service audio c = Ok None <->
   key_set (api_key c) = false \/ STT_MODE c <> py "openai") /\
  (forall e,
     init_stt_service audio c = Raise e <->
     key_set (api_key c) = true /\ STT_MODE c = py "openai" /\
     AudioRecorder.construct audio = Raise e) /\
  (forall svc,
     init_stt_service audio c = Ok (Some svc) <->
     key_set (api_key c) = true /\ STT_MODE c = py "openai" /\
     AudioRecorder.construct audio = Ok AudioRecorder.init /\
     STTService.init audio c = Ok svc /\
     STTService.recorder svc = AudioRecorder.init /\
     STTService.mode svc = py "openai") /\
  (exists s, init_llm_service lc = Ok s) /\
  (init_llm_service lc = Ok None <-> key_set (llm_api_key lc) = false) /\
  (forall g,
     stt_service g = None ->
     evaluate_single_file w g path ref st
     = (Ok (failure_result w path ref
              (failed_transcription w path (exn_msg stt_unavailable))
              (failed_comparison (exn_msg stt_unavailable))
              (exn_msg stt_unavailable)), st)) /\
  (forall g t conf st1,
     llm_service g = None ->
     transcribe_audio w (stt_service g) path st = (Ok (t, conf), st1) ->
     evaluate_single_file w g path ref st
     = (Ok (failure_result w path ref
              (transcribed_record w path t conf)
              (failed_comparison (exn_msg llm_unavailable))
              (exn_msg llm_unavailable)), st1)).
Proof.
  assert (Hconstruct :
    (exists msg, AudioRecorder.construct audio = Raise (Exn OSError msg)) \/
    AudioRecorder.construct audio = Ok AudioRecorder.init).
  { unfold AudioRecorder.construct.
    destruct (pyaudio_init audio) as [[]|m0]; [|left; eexists; reflexivity].
    destruct (terminate audio) as [[]|m1]; [right|left; eexists]; reflexivity. }
  split; [|split; [|split; [|split; [|split; [|split]]]]].
  - unfold init_stt_service, STTService.init, OpenAISTTClient.init,
      STTService.str_eqb, key_set.
    case_bool_decide as Hmode.
    + destruct (api_key c) as [[|k0 k]|]; cbn.
      * split; [auto | reflexivity].
      * split; [|intros [H|H]; [discriminate | contradiction]].
        destruct Hconstruct as [[msg ->] | ->]; discriminate.
      * split; [auto | reflexivity].
    + split; [auto | reflexivity].
  - intros e.
    unfold init_stt_service, STTService.init, OpenAISTTClient.init,
      STTService.str_eqb, key_set.
    case_bool_decide as Hmode.
    + destruct (api_key c) as [[|k0 k]|]; cbn.
      * split; [discriminate | intros (H & _); discriminate].
      * destruct Hconstruct as [[msg ->] | ->]; cbn.
        -- split; [intros [= <-]; auto | intros (_ & _ & [= <-]); reflexivity].
        -- split; [discriminate | intros (_ & _ & H); discriminate].
      * split; [discriminate | intros (H & _); discriminate].
    + cbn. split; [discriminate | intros (_ & H & _); contradiction].
  - intros svc.
    unfold init_stt_service, STTService.init, OpenAISTTClient.init,
      STTService.str_eqb, key_set.
    case_bool_decide as Hmode.
    + destruct (api_key c) as [[|k0 k]|]; cbn.
      * split; [discriminate | intros (H & _); discriminate].
      * destruct Hconstruct as [[msg ->] | ->]; cbn.
        -- split; [discriminate | intros (_ & _ & H & _); discriminate].
        -- split.
           ++ intros [= <-]. cbn. auto 10.
           ++ intros (_ & _ & _ & [= <-] & _). reflexivity.
      * split; [discriminate | intros (H & _); discriminate].
    + cbn. split; [discriminate | intros (_ & H & _); contradiction].
  - unfold init_llm_service, LLMService_init.
    destruct (llm_api_key lc) as [[|k0 k]|]; eexists; reflexivity.
  - unfold init_llm_service, LLMService_init, key_set.
    destruct (llm_api_key lc) as [[|k0 k]|]; cbn;
      split; first [reflexivity | discriminate].
  - intros g Hg.
    rewrite (evaluate_single_file_stt_failure w g path ref st st
               stt_unavailable); [reflexivity|].
    rewrite Hg. reflexivity.
  - intros g t conf st1 Hg Htrans.
    rewrite (evaluate_after_transcription w g path ref st st1 t conf Htrans).
    rewrite Hg. reflexivity.
Qed.

(** X15. [to_dict] loses nothing: two results with the same dictionary are
    the same result.  The dictionary holds the ten attributes under their
    names, with a missing error message as null. *)
Theorem to_dict_injective (r1 r2 : EvaluationResult) :
  to_dict r1 = to_dict r2 -> r1 = r2.
Proof.
  intros H.
  assert (Hk : forall k, to_dict r1 !! k = to_dict r2 !! k)
    by (intros k; rewrite H; reflexivity).
  pose proof (Hk (py "evaluation_id")) as H1.
  pose proof (Hk (py "timestamp")) as H2.
  pose proof (Hk (py "audio_file")) as H3.
  pose proof (Hk (py "reference_text")) as H4.
  pose proof (Hk (py "transcription")) as H5.
  pose proof (Hk (py "comparison")) as H6.
  pose proof (Hk (py "evaluation_metrics")) as H7.
  pose proof (Hk (py "processing_time")) as H8.
  pose proof (Hk (py "success")) as H9.
  pose proof (Hk (py "error_message")) as H10.
  clear H Hk.
  destruct r1 as [a1 b1 c1 d1 e1 f1 g1 h1 i1 j1].
  destruct r2 as [a2 b2 c2 d2 e2 f2 g2 h2 i2 j2].
  unfold to_dict in *.
  cbn [evaluation_id timestamp audio_file reference_text transcription
       comparison evaluation_metrics processing_time success error_message]
    in *.
  vm_compute in H1, H2, H3, H4, H5, H6, H7, H8, H9.
  injection H1 as ->. injection H2 as ->. injection H3 as ->.
  injection H4 as ->. injection H5 as ->. injection H6 as ->.
  injection H7 as ->. injection H8 as ->. injection H9 as ->.
  assert (j1 = j2) as ->.
  { destruct j1 as [m1|], j2 as [m2|]; vm_compute in H10;
      first [ reflexivity | discriminate H10
            | injection H10 as ->; reflexivity ]. }
  reflexivity.
Qed.

Lemma to_dict_injective_witness :
  new_result Fixtures.offline = new_result Fixtures.offline.
Proof.
  apply (to_dict_injective (new_result Fixtures.offline)
           (new_result Fixtures.offline)).
  reflexivity.
Defined.

End Evaluation.

(* ===================================================================== *)
(** * The division of two integers *)
(* ===================================================================== *)


Section TrueDivision.

Open Scope Z_scope.

Lemma div_half_even_spec (a b : Z) :
  0 < b -> 2 * Z.abs (div_half_even a b * b - a) <= b.
Proof.
  intros Hb. unfold div_half_even.
  pose proof (Z.div_mod a b ltac:(lia)) as Hdiv.
  pose proof (Z.mod_pos_bound a b Hb) as Hmod.
  set (q := a / b) in *. set (r := a mod b) in *.
  destruct (Z.ltb_spec (2 * r) b); [nia|].
  destruct (Z.ltb_spec b (2 * r)); [nia|].
  destruct (Z.even q); nia.
Qed.

Lemma double_scale_bracket (a b : Z) :
  0 < a -> 0 < b ->
  b * 2 ^ Z.max (- double_scale a b) 0 * 2 ^ 52
  <= a * 2 ^ Z.max (double_scale a b) 0.
Proof.
  intros Ha Hb. unfold double_scale.
  destruct (Z.ltb_spec
              (a * 2 ^ Z.max (52 - (Z.log2 a - Z.log2 b)) 0)
              (b * 2 ^ Z.max (- (52 - (Z.log2 a - Z.log2 b))) 0 * 2 ^ 52))
    as [_|Hge]; [|exact Hge].
  destruct (Z.log2_spec a Ha) as [Hla _].
  destruct (Z.log2_spec b Hb) as [_ Hlb].
  pose proof (Z.log2_nonneg a) as Hna.
  pose proof (Z.log2_nonneg b) as Hnb.
  set (la := Z.log2 a) in *. set (lb := Z.log2 b) in *.
  destruct (Z.le_gt_cases 0 (52 - (la - lb) + 1)) as [Hs|Hs].
  - rewrite (Z.max_l (52 - (la - lb) + 1) 0) by lia.
    rewrite (Z.max_r (- (52 - (la - lb) + 1)) 0) by lia.
    change (2 ^ 0) with 1. rewrite Z.mul_1_r.
    apply Z.le_trans with (2 ^ Z.succ lb * 2 ^ 52).
    + apply Z.mul_le_mono_nonneg_r; lia.
    + rewrite <- Z.pow_add_r by lia.
      apply Z.le_trans with (2 ^ la * 2 ^ (52 - (la - lb) + 1)).
      * rewrite <- Z.pow_add_r by lia.
        apply Z.pow_le_mono_r; lia.
      * apply Z.mul_le_mono_nonneg_r; [apply Z.pow_nonneg; lia | exact Hla].
  - rewrite (Z.max_r (52 - (la - lb) + 1) 0) by lia.
    rewrite (Z.max_l (- (52 - (la - lb) + 1)) 0) by lia.
    change (2 ^ 0) with 1. rewrite Z.mul_1_r.
    apply Z.le_trans with (2 ^ la); [|exact Hla].
    apply Z.le_trans
      with (2 ^ Z.succ lb * 2 ^ (- (52 - (la - lb) + 1)) * 2 ^ 52).
    + apply Z.mul_le_mono_nonneg_r; [lia|].
      apply Z.mul_le_mono_nonneg_r; [apply Z.pow_nonneg; lia | lia].
    + rewrite <- !Z.pow_add_r by lia. apply Z.pow_le_mono_r; lia.
Qed.

Close Scope Z_scope.

(** The double returned by a division is within a relative error of
    [2^-53] of the quotient. *)
Lemma true_div_error (a b : Z) :
  (0 < a)%Z -> (0 < b)%Z ->
  ((inject_Z a / inject_Z b) * (1 - (1 # 2 ^ 53)) <= true_div a b)%Q /\
  (true_div a b <= (inject_Z a / inject_Z b) * (1 + (1 # 2 ^ 53)))%Q.
Proof.
  intros Ha Hb. unfold true_div.
  destruct (Z.leb_spec a 0) as [Hle|_]; [lia|].
  pose proof (double_scale_bracket a b Ha Hb) as Hbracket.
  set (s := double_scale a b) in *.
  assert (HP : (0 < 2 ^ Z.max s 0)%Z) by (apply Z.pow_pos_nonneg; lia).
  assert (HN : (0 < 2 ^ Z.max (- s) 0)%Z) by (apply Z.pow_pos_nonneg; lia).
  set (P := (2 ^ Z.max s 0)%Z) in *. set (N := (2 ^ Z.max (- s) 0)%Z) in *.
  pose proof (div_half_even_spec (a * P) (b * N) ltac:(nia)) as Hround.
  set (m := div_half_even (a * P) (b * N)) in *.
  destruct P as [|p|p]; try lia. destruct b as [|pb|pb]; try lia.
  clearbody m N. clear s.
  assert (Hlin : forall A M B : Z,
    (2 * Z.abs (M - A) <= B)%Z -> (B * 2 ^ 52 <= A)%Z ->
    (A * (2 ^ 53 - 1) <= M * 2 ^ 53 <= A * (2 ^ 53 + 1))%Z).
  { intros A M B H1 H2.
    change (2 ^ 52)%Z with 4503599627370496%Z in H2.
    change (2 ^ 53)%Z with 9007199254740992%Z. lia. }
  destruct (Hlin (a * Z.pos p)%Z (m * (Z.pos pb * N))%Z (Z.pos pb * N)%Z
              Hround Hbracket) as [Hlow Hhigh].
  unfold Qdiv, Qminus.
  unfold Qle, Qmult, Qinv, Qplus, Qopp, inject_Z; cbn [Qnum Qden].
  rewrite !Pos2Z.inj_mul.
  change (Z.pos (2 ^ 53)) with (2 ^ 53)%Z.
  split.
  - replace (a * 1 * (1 * 2 ^ 53 + - (1) * 1) * (1 * Z.pos p))%Z
      with (a * Z.pos p * (2 ^ 53 - 1))%Z by ring.
    replace (m * N * 1 * (1 * Z.pos pb * (1 * 2 ^ 53)))%Z
      with (m * (Z.pos pb * N) * 2 ^ 53)%Z by ring.
    exact Hlow.
  - replace (a * 1 * (1 * 2 ^ 53 + 1 * 1) * (1 * Z.pos p))%Z
      with (a * Z.pos p * (2 ^ 53 + 1))%Z by ring.
    replace (m * N * 1 * (1 * Z.pos pb * (1 * 2 ^ 53)))%Z
      with (m * (Z.pos pb * N) * 2 ^ 53)%Z by ring.
    exact Hhigh.
Qed.

End TrueDivision.

(* ===================================================================== *)
(** * Further properties of the recorder *)
(* ===================================================================== *)

Section RecorderMore.

Import STT STT.AudioRecorder.

Ltac run_recorder :=
  unfold stop_recording, start_recording, cleanup_audio, save_audio_to_file,
    join_thread, record_audio_step, try_except, try_clauses, bind, ret,
    raise, modify, gets, run_io;
  cbn [is_recording audio_data audio stream record_thread set_is_recording
       set_audio_data set_audio set_stream set_record_thread negb andb
       find_clause fst snd].

Ltac caught :=
  cbn [find_clause caught_by existsb subclass exn_cls exn_class_eqb orb].

(** X16. [start_recording] on an idle recorder never raises and returns
    [True] exactly when PyAudio initialises, a device exists, the stream
    opens and the capture thread starts; the recorder is then in a fresh
    session, whatever it held before, the previous buffer included.  When
    one of the first three steps fails the recorder stays idle and keeps its
    buffer.  When only the thread fails to start the call returns [False]
    but the recorder is left flagged as recording, with an empty buffer. *)
Theorem start_recording_outcomes (env : AudioEnv) (self : t) :
  is_recording self = false ->
  (exists b, (start_recording env self).1 = Ok b) /\
  ((start_recording env self).1 = Ok true <-> launches env) /\
  (launches env -> start_recording env self = (Ok true, fresh_session)) /\
  (pyaudio_init env <> Done tt \/ device_count env = 0 \/
   open_stream env <> Done tt ->
   is_recording (start_recording env self).2 = false /\
   audio_data (start_recording env self).2 = audio_data self) /\
  (pyaudio_init env = Done tt -> device_count env <> 0 ->
   open_stream env = Done tt -> thread_start env <> Done tt ->
   (start_recording env self).1 = Ok false /\
   is_recording (start_recording env self).2 = true /\
   audio_data (start_recording env self).2 = []).
Proof.
  intros Hrec. unfold launches, fresh_session.
  unfold start_recording. rewrite Hrec.
  unfold try_except, try_clauses, bind, run_io, ret, raise, modify.
  destruct (pyaudio_init env) as [[]|m0]; caught.
  2: { match goal with |- context [cleanup_audio env ?x] =>
         destruct (cleanup_audio_spec env x) as (s3 & Hc & Hr & Hd & _)
       end.
       rewrite Hc. cbn [fst snd]. cbn [is_recording audio_data set_audio]
         in Hr, Hd.
       split; [eexists; reflexivity|].
       split; [split; [discriminate | intros (H & _); discriminate H]|].
       split; [intros (H & _); discriminate H|].
       split; [intros _; split; congruence|].
       intros H; discriminate H. }
  destruct (Nat.eqb_spec (device_count env) 0) as [Hdev|Hdev].
  { caught.
    match goal with |- context [cleanup_audio env ?x] =>
      destruct (cleanup_audio_spec env x) as (s3 & Hc & Hr & Hd & _)
    end.
    rewrite Hc. cbn [fst snd]. cbn [is_recording audio_data set_audio]
      in Hr, Hd.
    split; [eexists; reflexivity|].
    split; [split; [discriminate | intros (_ & H & _); contradiction]|].
    split; [intros (_ & H & _); contradiction|].
    split; [intros _; split; congruence|].
    intros _ H; contradiction. }
  destruct (open_stream env) as [[]|m1]; caught.
  2: { match goal with |- context [cleanup_audio env ?x] =>
         destruct (cleanup_audio_spec env x) as (s3 & Hc & Hr & Hd & _)
       end.
       rewrite Hc. cbn [fst snd]. cbn [is_recording audio_data set_audio]
         in Hr, Hd.
       split; [eexists; reflexivity|].
       split; [split; [discriminate | intros (_ & _ & H & _); discriminate H]|].
       split; [intros (_ & _ & H & _); discriminate H|].
       split; [intros _; split; congruence|].
       intros _ _ H; discriminate H. }
  destruct (thread_start env) as [[]|m2]; caught.
  - cbn [fst snd is_recording audio_data set_audio set_stream set_audio_data
         set_is_recording set_record_thread audio stream record_thread].
    split; [eexists; reflexivity|].
    split; [split; [intros _; auto | reflexivity]|].
    split; [reflexivity|].
    split; [intros [H|[H|H]]; congruence|].
    intros _ _ _ H; congruence.
  - match goal with |- context [cleanup_audio env ?x] =>
      destruct (cleanup_audio_spec env x) as (s3 & Hc & Hr & Hd & _)
    end.
    rewrite Hc. cbn [fst snd].
    cbn [is_recording audio_data set_audio set_stream set_audio_data
         set_is_recording set_record_thread] in Hr, Hd.
    split; [eexists; reflexivity|].
    split; [split; [discriminate | intros (_ & _ & _ & H); discriminate H]|].
    split; [intros (_ & _ & _ & H); discriminate H|].
    split; [intros [H|[H|H]]; congruence|].
    intros _ _ _ _. auto.
Qed.

Lemma start_recording_outcomes_witness :
  start_recording Fixtures.healthy_audio init = (Ok true, fresh_session) /\
  (start_recording Fixtures.failing_thread_start init).1 = Ok false /\
  is_recording (start_recording Fixtures.failing_thread_start init).2 = true.
Proof.
  destruct (start_recording_outcomes Fixtures.healthy_audio init eq_refl)
    as (_ & _ & Hok & _).
  destruct (start_recording_outcomes Fixtures.failing_thread_start init
              eq_refl) as (_ & _ & _ & _ & Hfail).
  split.
  - apply Hok. repeat split. discriminate.
  - destruct (Hfail eq_refl ltac:(discriminate) eq_refl ltac:(discriminate))
      as (H1 & H2 & _).
    split; assumption.
Defined.

Lemma join_thread_run (env : AudioEnv) (self : t) :
  join_thread env self = (Ok tt, set_audio_data (joined_data env self) self).
Proof.
  unfold join_thread, joined_data.
  destruct self as [rec data a s [th|]]; cbn [record_thread audio_data];
    [|reflexivity].
  destruct (thread_alive env); [|reflexivity].
  destruct (inflight_frame env); reflexivity.
Qed.

(** A [stop_recording] that finds a session in progress. *)
Lemma stop_recording_run (env : AudioEnv) (self : t) :
  is_recording self = true ->
  exists self',
    stop_recording env self
    = (Ok (saved_file env (joined_data env self)), self') /\
    is_recording self' = false /\
    audio_data self' = joined_data env self /\
    record_thread self' = record_thread self /\
    (releases env -> released self').
Proof.
  intros Hrec. unfold stop_recording. rewrite Hrec. cbn [negb].
  unfold try_except, try_clauses, bind at 1 2 3, modify, gets.
  rewrite join_thread_run.
  change (joined_data env (set_is_recording false self))
    with (joined_data env self).
  set (s2 := set_audio_data (joined_data env self)
               (set_is_recording false self)).
  destruct (cleanup_audio_spec env s2)
    as (s3 & Hclean & Hrec3 & Hdata3 & Hth3 & Hrel).
  cbn [s2 is_recording audio_data record_thread set_audio_data
       set_is_recording] in Hrec3, Hdata3, Hth3.
  change (audio_data s2) with (joined_data env self).
  unfold saved_file.
  destruct (joined_data env self) as [|f data] eqn:Hd.
  - unfold bind, ret. rewrite Hclean. exists s3. auto.
  - unfold save_audio_to_file, try_except, try_clauses, bind, run_io, ret,
      raise.
    destruct (mkstemp env) as [path|m]; caught.
    2: { rewrite Hclean. exists s3. auto. }
    destruct (wave_write env) as [[]|m]; caught.
    + rewrite Hclean. exists s3. auto.
    + rewrite Hclean. exists s3. auto.
Qed.

(** X17. The result of [stop_recording] during a session.  It returns a path
    exactly when the buffer, including a frame that arrives while the
    capture thread is joined, is not empty and both the temporary file and
    the WAV data can be written; the path is the one [mkstemp] returned.
    In every other case it returns the empty result.  The buffer is kept
    on the recorder after the stop, and so is the thread object. *)
Theorem stop_recording_result (env : AudioEnv) (self : t) :
  is_recording self = true ->
  (forall path,
     (stop_recording env self).1 = Ok (Some path) <->
     joined_data env self <> [] /\ mkstemp env = Done path /\
     wave_write env = Done tt) /\
  ((stop_recording env self).1 = Ok None <->
   joined_data env self = [] \/ (forall path, mkstemp env <> Done path) \/
   wave_write env <> Done tt) /\
  audio_data (stop_recording env self).2 = joined_data env self /\
  record_thread (stop_recording env self).2 = record_thread self /\
  (thread_alive env = false \/ inflight_frame env = None ->
   joined_data env self = audio_data self).
Proof.
  intros Hrec.
  destruct (stop_recording_run env self Hrec)
    as (self' & -> & _ & Hdata & Hth & _).
  cbn [fst snd]. unfold saved_file.
  split; [|split; [|split; [exact Hdata|split; [exact Hth|]]]].
  - intros path.
    destruct (joined_data env self) as [|f data].
    { split; [discriminate | intros [H _]; congruence]. }
    destruct (mkstemp env) as [p|m].
    2: { split; [discriminate | intros (_ & H & _); discriminate H]. }
    destruct (wave_write env) as [[]|m].
    + split.
      * intros H. injection H as ->. repeat split. discriminate.
      * intros (_ & H & _). injection H as ->. reflexivity.
    + split; [discriminate | intros (_ & _ & H); discriminate H].
  - destruct (joined_data env self) as [|f data].
    { split; [auto | reflexivity]. }
    destruct (mkstemp env) as [p|m].
    2: { split; [|reflexivity]. intros _. right; left. discriminate. }
    destruct (wave_write env) as [[]|m].
    + split; [discriminate|].
      intros [H|[H|H]]; [discriminate H | destruct (H p eq_refl) | congruence].
    + split; [|reflexivity]. intros _. right; right. discriminate.
  - unfold joined_data. intros [-> | ->].
    + destruct (record_thread self); reflexivity.
    + destruct (record_thread self), (thread_alive env); reflexivity.
Qed.

Lemma stop_recording_result_witness :
  (stop_recording Fixtures.healthy_audio Fixtures.recording).1
  = Ok (Some (py "/tmp/recording_0.wav")) /\
  audio_data (stop_recording Fixtures.healthy_audio Fixtures.recording).2
  = [[0; 0]%N].
Proof.
  destruct (stop_recording_result Fixtures.healthy_audio Fixtures.recording
              eq_refl) as (Hpath & _ & Hdata & _).
  split.
  - apply Hpath. repeat split. discriminate.
  - exact Hdata.
Defined.

(** X18. A failed launch of the capture thread leaves the recorder stuck:
    the flag set before [Thread.start()] is not reset by the [except]
    clause, so every later [start_recording] is refused as if a session
    were running, [get_recording_duration] reports 0, and only
    [stop_recording] clears the flag, returning the empty result when the
    thread is not alive. *)
Theorem failed_launch_blocks_restart (env : AudioEnv) (self : t) :
  is_recording self = false ->
  pyaudio_init env = Done tt -> device_count env <> 0 ->
  open_stream env = Done tt -> thread_start env <> Done tt ->
  let stuck := (start_recording env self).2 in
  (start_recording env self).1 = Ok false /\
  (forall env', start_recording env' stuck = (Ok false, stuck)) /\
  get_recording_duration stuck = 0%Q /\
  (forall env',
     thread_alive env' = false ->
     (stop_recording env' stuck).1 = Ok None /\
     is_recording (stop_recording env' stuck).2 = false) /\
  (releases env -> released stuck).
Proof.
  intros Hrec Hinit Hdev Hopen Hthread. cbv zeta.
  assert (Hrun : exists stuck,
    start_recording env self = (Ok false, stuck) /\
    is_recording stuck = true /\ audio_data stuck = [] /\
    (releases env -> released stuck)).
  { unfold start_recording. rewrite Hrec.
    unfold try_except, try_clauses, bind, run_io, ret, raise, modify.
    rewrite Hinit. destruct (Nat.eqb_spec (device_count env) 0); [lia|].
    rewrite Hopen. destruct (thread_start env) as [[]|m]; [congruence|].
    caught.
    match goal with |- context [cleanup_audio env ?x] =>
      destruct (cleanup_audio_spec env x) as (s3 & Hc & Hr & Hd & _ & Hrel)
    end.
    rewrite Hc. exists s3. auto. }
  destruct Hrun as (stuck & -> & Hflag & Hdata & Hrel). cbn [fst snd].
  split; [reflexivity|].
  split; [intros env'; unfold start_recording; rewrite Hflag; reflexivity|].
  split; [unfold get_recording_duration; rewrite Hflag, Hdata; reflexivity|].
  split; [|exact Hrel].
  intros env' Halive.
  destruct (stop_recording_run env' stuck Hflag) as (s' & -> & Hidle & _).
  cbn [fst snd]. split; [|exact Hidle].
  unfold joined_data. rewrite Halive, Hdata.
  destruct (record_thread stuck); reflexivity.
Qed.

Lemma failed_launch_blocks_restart_witness :
  start_recording Fixtures.healthy_audio
    (start_recording Fixtures.failing_thread_start init).2
  = (Ok false, (start_recording Fixtures.failing_thread_start init).2).
Proof.
  destruct (failed_launch_blocks_restart Fixtures.failing_thread_start init
              eq_refl eq_refl ltac:(discriminate) eq_refl
              ltac:(discriminate)) as (_ & H & _).
  apply H.
Defined.

(** X19. What [_cleanup_audio] releases.  It never raises.  On a recorder
    whose handles are already released it changes nothing, and after a
    cleanup whose operations succeeded a second cleanup changes nothing.
    When stopping or closing the stream fails, the error is swallowed and
    the recorder is left exactly as it was: the stream is kept and
    [audio.terminate()] is not attempted.  When only [terminate] fails, the
    stream is released and the audio handle is kept. *)
Theorem cleanup_audio_release (env : AudioEnv) (self : t) :
  (cleanup_audio env self).1 = Ok tt /\
  (released self -> (cleanup_audio env self).2 = self) /\
  (forall env',
     releases env ->
     cleanup_audio env' (cleanup_audio env self).2
     = (Ok tt, (cleanup_audio env self).2)) /\
  (stream self <> None ->
   stop_stream env <> Done tt \/ close_stream env <> Done tt ->
   (cleanup_audio env self).2 = self) /\
  (stop_stream env = Done tt -> close_stream env = Done tt ->
   stream (cleanup_audio env self).2 = None) /\
  (stop_stream env = Done tt -> close_stream env = Done tt ->
   audio self <> None -> terminate env <> Done tt ->
   audio (cleanup_audio env self).2 = audio self).
Proof.
  unfold releases, released.
  destruct self as [rec data [a|] [s|] th];
    destruct (stop_stream env) as [[]|m1] eqn:E1;
    destruct (close_stream env) as [[]|m2] eqn:E2;
    destruct (terminate env) as [[]|m3] eqn:E3;
    run_recorder; rewrite ?E1, ?E2, ?E3; caught; cbn [fst snd];
    (split; [reflexivity|]);
    (split; [intros [H1 H2]; try discriminate; try reflexivity|]);
    (split; [intros env' (H1 & H2 & H3);
             try discriminate; try (run_recorder; reflexivity)|]);
    (split; [intros H0 [H|H];
             try congruence; try reflexivity|]);
    (split; [intros H1 H2; try discriminate; try reflexivity|]);
    try (intros H1 H2 H3 H4; first [discriminate | congruence | reflexivity]).
Qed.

Lemma cleanup_audio_release_witness :
  (cleanup_audio Fixtures.failing_stop_stream Fixtures.recording).2
  = Fixtures.recording.
Proof.
  destruct (cleanup_audio_release Fixtures.failing_stop_stream
              Fixtures.recording) as (_ & _ & _ & H & _).
  apply H; [discriminate | left; discriminate].
Defined.

(** X20. The recording duration.  It is 0 unless a session is in progress
    with a non-empty buffer.  Otherwise it is the double that the division
    of the buffered sample count (1024 per frame) by 16000 returns: positive
    and within a relative error of [2^-53] of the number of frames times
    0.064 seconds, but not that product in general; with one frame it is
    1152921504606847 / 2^54.  A successful start begins at 0, and after
    [stop_recording] the duration is 0 although the buffer is kept. *)
Theorem recording_duration (self : t) :
  (is_recording self = false -> get_recording_duration self = 0%Q) /\
  (audio_data self = [] -> get_recording_duration self = 0%Q) /\
  (is_recording self = true -> audio_data self <> [] ->
   get_recording_duration self
   = true_div (Z.of_nat (length (audio_data self)) * 1024) 16000 /\
   (0 < get_recording_duration self)%Q /\
   (inject_Z (Z.of_nat (length (audio_data self))) * frame_seconds
    * (1 - (1 # 2 ^ 53)) <= get_recording_duration self)%Q /\
   (get_recording_duration self
    <= inject_Z (Z.of_nat (length (audio_data self))) * frame_seconds
       * (1 + (1 # 2 ^ 53)))%Q) /\
  (forall f,
     is_recording self = true -> audio_data self = [f] ->
     (get_recording_duration self
      == 1152921504606847 # 18014398509481984)%Q /\
     ~ (get_recording_duration self == frame_seconds)%Q) /\
  (forall env, get_recording_duration (stop_recording env self).2 = 0%Q) /\
  (forall env,
     is_recording self = false -> (start_recording env self).1 = Ok true ->
     get_recording_duration (start_recording env self).2 = 0%Q).
Proof.
  split; [|split; [|split; [|split; [|split]]]].
  - intros Hrec. unfold get_recording_duration. rewrite Hrec. reflexivity.
  - intros Hdata. unfold get_recording_duration. rewrite Hdata.
    destruct (is_recording self); reflexivity.
  - intros Hrec Hdata.
    assert (Hrun : get_recording_duration self
                   = true_div (Z.of_nat (length (audio_data self)) * 1024)
                       16000).
    { unfold get_recording_duration. rewrite Hrec. cbn [negb].
      destruct (audio_data self) as [|f data]; [congruence | reflexivity]. }
    assert (Hlen : (1 <= Z.of_nat (length (audio_data self)))%Z).
    { destruct (audio_data self); [congruence | cbn [length]; lia]. }
    split; [exact Hrun|].
    rewrite Hrun.
    destruct (true_div_error (Z.of_nat (length (audio_data self)) * 1024)
                16000 ltac:(lia) ltac:(lia)) as [Hlow Hhigh].
    assert (Hexact :
      (inject_Z (Z.of_nat (length (audio_data self)) * 1024)
       / inject_Z 16000
       == inject_Z (Z.of_nat (length (audio_data self))) * frame_seconds)%Q).
    { rewrite inject_Z_mult. unfold frame_seconds.
      generalize (inject_Z (Z.of_nat (length (audio_data self)))).
      intros q. unfold Qeq, Qdiv, Qmult, Qinv; cbn. lia. }
    rewrite Hexact in Hlow, Hhigh.
    assert (Hpos : (1 <= inject_Z (Z.of_nat (length (audio_data self))))%Q).
    { change 1%Q with (inject_Z 1). rewrite <- Zle_Qle. exact Hlen. }
    unfold frame_seconds in *.
    set (n := inject_Z (Z.of_nat (length (audio_data self)))) in *.
    set (d := true_div (Z.of_nat (length (audio_data self)) * 1024) 16000)
      in *.
    clearbody n d.
    assert (Hbelow : (0 < n * (64 # 1000) * (1 - (1 # 2 ^ 53)))%Q).
    { clear Hlow Hhigh. destruct n as [num den].
      unfold Qlt, Qle, Qmult, Qminus, Qplus, Qopp in *.
      cbn [Qnum Qden] in *. lia. }
    split; [|split; [exact Hlow | exact Hhigh]].
    apply Qlt_le_trans with (n * (64 # 1000) * (1 - (1 # 2 ^ 53)))%Q;
      [exact Hbelow | exact Hlow].
  - intros f Hrec Hdata. unfold get_recording_duration.
    rewrite Hrec, Hdata. cbn [negb length].
    split; [vm_compute; reflexivity | vm_compute; discriminate].
  - intros env. destruct (is_recording self) eqn:Hrec.
    + destruct (stop_recording_run env self Hrec) as (s' & -> & Hidle & _).
      cbn [snd]. unfold get_recording_duration. rewrite Hidle. reflexivity.
    + unfold stop_recording. rewrite Hrec. cbn [negb snd].
      unfold get_recording_duration. rewrite Hrec. reflexivity.
  - intros env Hrec Hok.
    destruct (start_recording_spec env self Hrec) as (b & s' & Hrun & Hb & _).
    rewrite Hrun in *. cbn [fst snd] in *. injection Hok as ->.
    destruct (Hb eq_refl) as [Hflag Hdata].
    unfold get_recording_duration. rewrite Hflag, Hdata. reflexivity.
Qed.

(** X21. [__del__].  On a recorder whose [__init__] completed it never
    raises and leaves the recorder idle; the handles are released when the
    operations of its final [_cleanup_audio] succeed, whether or not a
    session had to be stopped first and whatever happened during that stop.
    [__init__] completes exactly when its temporary [pyaudio.PyAudio()] can
    be created and terminated, and raises that operation's [IOError]
    otherwise; the object then has no [is_recording] attribute and its
    [__del__] raises [AttributeError]. *)
Theorem del_releases (audio env_stop env : AudioEnv) (self : t) :
  (exists self',
     del env_stop env (Some self) = (Ok tt, Some self') /\
     is_recording self' = false /\
     (releases env -> released self') /\
     (is_recording self = false -> audio_data self' = audio_data self)) /\
  (exists e,
     del env_stop env None = (Raise e, None) /\
     exn_cls e = AttributeError) /\
  (construct audio = Ok init <->
   pyaudio_init audio = Done tt /\ terminate audio = Done tt) /\
  (forall r, construct audio = Ok r -> r = init) /\
  (forall e,
     construct audio = Raise e <->
     e = Exn OSError (exn_msg e) /\
     (pyaudio_init audio = Fails (exn_msg e) \/
      pyaudio_init audio = Done tt /\ terminate audio = Fails (exn_msg e))) /\
  (del env_stop env (constructed audio) = (Ok tt, Some init) <->
   pyaudio_init audio = Done tt /\ terminate audio = Done tt) /\
  ((exists e,
      del env_stop env (constructed audio) = (Raise e, None) /\
      exn_cls e = AttributeError) <->
   pyaudio_init audio <> Done tt \/ terminate audio <> Done tt).
Proof.
  assert (Hsome : exists self',
     del env_stop env (Some self) = (Ok tt, Some self') /\
     is_recording self' = false /\
     (releases env -> released self') /\
     (is_recording self = false -> audio_data self' = audio_data self)).
  { unfold del, del_constructed, bind.
    destruct (is_recording self) eqn:Hrec.
    - destruct (stop_recording_run env_stop self Hrec)
        as (s1 & -> & Hidle & _).
      unfold ret.
      destruct (cleanup_audio_spec env s1)
        as (s2 & -> & Hrec2 & _ & _ & Hrel).
      exists s2. split; [reflexivity|]. split; [congruence|].
      split; [exact Hrel | discriminate].
    - unfold ret.
      destruct (cleanup_audio_spec env self)
        as (s2 & -> & Hrec2 & Hdata & _ & Hrel).
      exists s2. split; [reflexivity|]. split; [congruence|].
      split; [exact Hrel | intros _; exact Hdata]. }
  assert (Hinit : del env_stop env (Some init) = (Ok tt, Some init))
    by reflexivity.
  split; [exact Hsome|].
  split; [eexists; split; reflexivity|].
  unfold constructed, construct.
  destruct (pyaudio_init audio) as [[]|m0]; [destruct (terminate audio) as [[]|m1]|].
  - split; [tauto|]. split; [intros r [= <-]; reflexivity|].
    split; [|split].
    + intros e. split; [discriminate|].
      intros (_ & [H | (_ & H)]); discriminate.
    + rewrite Hinit. tauto.
    + split; [intros (e & H & _); rewrite Hinit in H; discriminate|].
      intros [H | H]; congruence.
  - split; [split; [discriminate | intros (_ & H); discriminate]|].
    split; [discriminate|].
    split; [|split].
    + intros e. split.
      * intros [= <-]. cbn. auto.
      * intros (-> & [H | (_ & [= <-])]); [discriminate | reflexivity].
    + split; [discriminate | intros (_ & H); discriminate].
    + split; [intros _; right; discriminate|].
      intros _. eexists; split; reflexivity.
  - split; [split; [discriminate | intros (H & _); discriminate]|].
    split; [discriminate|].
    split; [|split].
    + intros e. split.
      * intros [= <-]. cbn. auto.
      * intros (-> & [[= <-] | (H & _)]); [reflexivity | discriminate].
    + split; [discriminate | intros (H & _); discriminate].
    + split; [intros _; left; discriminate|].
      intros _. eexists; split; reflexivity.
Qed.

End RecorderMore.

(* ===================================================================== *)
(** * Properties of the web endpoints *)
(* ===================================================================== *)

Section Endpoints.

Import STT App.

Ltac key_ne := apply str_ne; vm_compute; reflexivity.

(** The run of a decorated view in terms of the run of the view. *)
Lemma api_response_run {St} (w : World) (func : ST St endpoint_result)
  (s : St) :
  api_response w func s
  = match func s with
    | (Ok v, s') =>
      match payload v with
      | PDict d => (Ok (d ∪ envelope w, status_of v), s')
      | _ =>
        (Ok (error_response w (py "API endpoint must return a dictionary."),
             500%Z), s')
      end
    | (Raise e, s') =>
      if answered e then (Ok (error_response w (exn_msg e), 500%Z), s')
      else (Raise e, s')
    end.
Proof.
  unfold api_response, try_except, try_clauses, bind, answered.
  destruct (func s) as [[v|e] s'].
  - destruct v as [data|data c]; destruct data; reflexivity.
  - cbn [find_clause]. destruct (caught_by _ e); reflexivity.
Qed.

Lemma lookup_envelope_other (w : World) (k : str) :
  k <> py "success" -> k <> py "timestamp" -> envelope w !! k = None.
Proof.
  intros H1 H2.
  change (envelope w)
    with (<[py "success" := PBool true]>
            (<[py "timestamp" := PStr (now_isoformat w)]> (∅ : dict))).
  rewrite !lookup_insert_ne by congruence. apply lookup_empty.
Qed.

(** X22. The decorator [api_response].  The state is the one the view
    leaves.  An exception of the view is answered with status 500 and
    [success] false when it is a [ValueError], a [RuntimeError] or a
    [TypeError], and escapes otherwise; a view that returns something other
    than a dictionary is answered the same way.  For a dictionary the status
    is the view's (200 when it gave none) and the body holds every entry of
    the dictionary unchanged, plus [success] true and the timestamp unless
    the dictionary has entries of these names, which win. *)
Theorem api_response_spec {St} (w : World) (func : ST St endpoint_result)
  (s : St) :
  (api_response w func s).2 = (func s).2 /\
  (forall e,
     (api_response w func s).1 = Raise e <->
     (func s).1 = Raise e /\ answered e = false) /\
  (forall e,
     (func s).1 = Raise e -> answered e = true ->
     (api_response w func s).1
     = Ok (error_response w (exn_msg e), 500%Z)) /\
  (forall v,
     (func s).1 = Ok v -> is_dict (payload v) = false ->
     (api_response w func s).1
     = Ok (error_response w (py "API endpoint must return a dictionary."),
           500%Z)) /\
  (forall v d,
     (func s).1 = Ok v -> payload v = PDict d ->
     exists body,
       (api_response w func s).1 = Ok (body, status_of v) /\
       (forall k x, d !! k = Some x -> body !! k = Some x) /\
       (forall k,
          k <> py "success" -> k <> py "timestamp" -> body !! k = d !! k) /\
       (d !! py "success" = None ->
        body !! py "success" = Some (PBool true)) /\
       (d !! py "timestamp" = None ->
        body !! py "timestamp" = Some (PStr (now_isoformat w)))).
Proof.
  rewrite api_response_run.
  destruct (func s) as [[v|e] s']; cbn [fst snd].
  - destruct (payload v) as [| b | z | f | t | l | d] eqn:Hp;
      cbn [fst snd];
      (split; [reflexivity|]);
      (split; [intros e; split; [discriminate | intros [H _]; discriminate H]|]);
      (split; [intros e H; discriminate H|]).
    7: { split; [intros v' H Hd; injection H as <-; rewrite Hp in Hd;
                 discriminate Hd|].
         intros v' d' H Hd. injection H as <-. rewrite Hp in Hd.
         injection Hd as <-.
         exists (d ∪ envelope w). split; [reflexivity|].
         split; [intros k x Hk; apply lookup_union_Some_l; exact Hk|].
         split.
         { intros k H1 H2. destruct (d !! k) as [x|] eqn:Hk.
           - apply lookup_union_Some_l. exact Hk.
           - rewrite lookup_union_r by exact Hk.
             apply lookup_envelope_other; assumption. }
         split; intros Hk; rewrite lookup_union_r by exact Hk;
           vm_compute; reflexivity. }
    all: split; [intros v' H _; reflexivity
                |intros v' d' H Hd; injection H as <-; rewrite Hp in Hd;
                 discriminate Hd].
  - destruct (answered e) eqn:He; cbn [fst snd].
    + split; [reflexivity|].
      split; [intros e'; split;
              [discriminate | intros [H H']; injection H as <-; congruence]|].
      split; [intros e' H _; injection H as <-; reflexivity|].
      split; [intros v H; discriminate H | intros v d H; discriminate H].
    + split; [reflexivity|].
      split; [intros e'; split;
              [intros H; injection H as <-; auto
              |intros [H _]; injection H as <-; reflexivity]|].
      split; [intros e' H H'; injection H as <-; congruence|].
      split; [intros v H; discriminate H | intros v d H; discriminate H].
Qed.

(** X23. [recording_status] never fails and changes nothing: it answers 200
    with [success] true, the recording flag and the duration of the
    recorder, and [False] and 0.0 when the transcription service is
    missing. *)
Theorem recording_status_spec (w : World) (s : AppState) :
  exists body,
    recording_status w s = (Ok (body, 200%Z), s) /\
    body !! py "success" = Some (PBool true) /\
    body !! py "recording"
    = Some (PBool (match app_stt_service s with
                   | Some svc => STTService.is_recording svc
                   | None => false
                   end)) /\
    body !! py "duration"
    = Some (PFloat (Fin (match app_stt_service s with
                         | Some svc => STTService.get_recording_duration svc
                         | None => 0%Q
                         end))).
Proof.
  unfold recording_status. rewrite api_response_run.
  unfold recording_status_view, bind, with_stt, is_recording,
    get_recording_duration, ret.
  destruct s as [[svc|] calls unlinked];
    cbn [app_stt_service app_calls app_unlinked payload status_of];
    eexists; (split; [reflexivity|]).
  - generalize (STTService.is_recording svc),
      (STTService.get_recording_duration svc), (now_isoformat w).
    intros b q now. repeat split; vm_compute; reflexivity.
  - generalize (now_isoformat w). intros now.
    repeat split; vm_compute; reflexivity.
Qed.

Lemma recorder_start_returns (env : AudioEnv) (self : AudioRecorder.t) :
  exists started self',
    AudioRecorder.start_recording env self = (Ok started, self') /\
    (AudioRecorder.is_recording self = true ->
     started = false /\ self' = self).
Proof.
  destruct (AudioRecorder.is_recording self) eqn:Hrec.
  - exists false, self. unfold AudioRecorder.start_recording.
    rewrite Hrec. auto.
  - destruct (start_recording_spec env self Hrec) as (b & s' & Hrun & _).
    exists b, s'. split; [exact Hrun | discriminate].
Qed.

Lemma recorder_stop_returns (env : AudioEnv) (self : AudioRecorder.t) :
  exists recorded self',
    AudioRecorder.stop_recording env self = (Ok recorded, self') /\
    (AudioRecorder.is_recording self = false ->
     recorded = None /\ self' = self).
Proof.
  destruct (AudioRecorder.is_recording self) eqn:Hrec.
  - destruct (stop_recording_run env self Hrec) as (s' & Hrun & _).
    eexists _, s'. split; [exact Hrun | discriminate].
  - exists None, self. unfold AudioRecorder.stop_recording.
    rewrite Hrec. auto.
Qed.

(** X24. [start_recording_api].  Without the transcription service the
    answer is the 500 response carrying the unavailable message.  With it,
    the recorder's [start_recording] runs once and its state is stored; the
    answer is 200 with [recording] true when the recorder started, and 400
    with the microphone message when it did not, in particular when a
    session was already running.  The 400 body still carries [success]
    true, because the decorator adds it to every dictionary.  No backend is
    called and no file is removed. *)
Theorem start_recording_api_spec (w : World) (env : AudioEnv)
  (s : AppState) :
  (app_stt_service s = None ->
   start_recording_api w env s
   = (Ok (error_response w (exn_msg stt_unavailable), 500%Z), s)) /\
  (forall svc,
     app_stt_service s = Some svc ->
     exists started r' body,
       AudioRecorder.start_recording env (STTService.recorder svc)
       = (Ok started, r') /\
       start_recording_api w env s
       = (Ok (body, if started then 200%Z else 400%Z),
          with_service (Some (STTService.set_recorder r' svc)) s) /\
       body !! py "success" = Some (PBool true) /\
       (started = true ->
        body !! py "recording" = Some (PBool true) /\
        body !! py "error" = None) /\
       (started = false ->
        body !! py "error"
        = Some (PStr (py "無法開始錄音，請檢查麥克風設定"))) /\
       (STTService.is_recording svc = true ->
        started = false /\ r' = STTService.recorder svc)).
Proof.
  unfold start_recording_api. rewrite api_response_run.
  unfold start_recording_view, bind, with_stt, start_recording, on_service,
    STTService.start_recording, STTService.on_recorder.
  destruct s as [[svc|] calls unlinked];
    cbn [app_stt_service app_calls app_unlinked].
  2: { split; [intros _; reflexivity | intros svc H; discriminate H]. }
  split; [intros H; discriminate H|].
  intros svc' H. injection H as <-.
  destruct (recorder_start_returns env (STTService.recorder svc))
    as (started & r' & Hrun & Hbusy).
  rewrite Hrun. exists started, r'.
  destruct started; cbn [ret payload status_of error_body]; eexists;
    (split; [reflexivity|]); (split; [reflexivity|]);
    generalize (now_isoformat w); intros now.
  - split; [vm_compute; reflexivity|].
    split; [intros _; split; vm_compute; reflexivity|].
    split; [discriminate | exact Hbusy].
  - split; [vm_compute; reflexivity|].
    split; [discriminate|].
    split; [intros _; vm_compute; reflexivity | exact Hbusy].
Qed.

Lemma start_recording_api_spec_witness :
  exists body,
    start_recording_api Fixtures.offline Fixtures.healthy_audio
      (Fixtures.app_state Fixtures.recording)
    = (Ok (body, 400%Z), Fixtures.app_state Fixtures.recording) /\
    body !! py "success" = Some (PBool true).
Proof.
  destruct (start_recording_api_spec Fixtures.offline Fixtures.healthy_audio
              (Fixtures.app_state Fixtures.recording)) as [_ H].
  destruct (H (Fixtures.service Fixtures.recording) eq_refl)
    as (started & r' & body & _ & Hrun & Hsuccess & _ & _ & Hbusy).
  destruct (Hbusy eq_refl) as [-> ->].
  exists body. split; [exact Hrun | exact Hsuccess].
Defined.

Lemma request_reference_text_run {St} (request_json : option pyval)
  (s : St) :
  request_reference_text request_json s = (reference_of request_json, s).
Proof.
  unfold reference_of, request_reference_text.
  destruct request_json as [v|].
  - destruct (truthy v).
    + destruct v as [| b | z | f | t | l | d]; try reflexivity.
      destruct (dict_get d (py "reference_text") (PStr [])); reflexivity.
    + destruct (dict_get ∅ (py "reference_text") (PStr [])); reflexivity.
  - destruct (dict_get ∅ (py "reference_text") (PStr [])); reflexivity.
Qed.

(** Reading the reference text fails only with an [AttributeError], which
    the decorator does not answer. *)
Lemma reference_of_failure (request_json : option pyval) (e : exn) :
  reference_of request_json = Raise e -> answered e = false.
Proof.
  unfold reference_of, request_reference_text.
  assert (Hempty : dict_get (∅ : dict) (py "reference_text") (PStr [])
                   = PStr []) by reflexivity.
  destruct request_json as [v|]; [destruct (truthy v)|];
    rewrite ?Hempty; try discriminate.
  destruct v as [| b | z | f | t | l | d]; cbn [raise fst];
    try (intros H; injection H as <-; reflexivity).
  destruct (dict_get d (py "reference_text") (PStr [])); cbn [raise ret fst];
    intros H; first [discriminate H | injection H as <-; reflexivity].
Qed.

(** A request without a JSON body, or whose body is an empty or a falsy
    value, has no reference text. *)
Lemma reference_of_missing :
  reference_of None = Ok [] /\
  reference_of (Some (PDict ∅)) = Ok [] /\
  reference_of (Some (PList [])) = Ok [] /\
  reference_of (Some PNone) = Ok [].
Proof. repeat split. Qed.

(** The run of the undecorated stop view once the recorder has answered. *)
Lemma stop_recording_view_run (w : World) (evaluation_service : bool)
  (llm_service : option LLMService) (env : AudioEnv)
  (request_json : option pyval) (s : AppState) (svc : STTService.t)
  (recorded : option str) (r' : AudioRecorder.t) :
  app_stt_service s = Some svc ->
  AudioRecorder.stop_recording env (STTService.recorder svc)
  = (Ok recorded, r') ->
  stop_recording_view w evaluation_service llm_service env request_json s
  = let svc' := STTService.set_recorder r' svc in
    let idle := with_service (Some svc') s in
    match recorded with
    | None | Some [] =>
      (Ok (BodyStatus (error_body (py "沒有錄音資料或錄音失敗")) 400), idle)
    | Some path =>
      match reference_of request_json with
      | Raise e => (Raise e, idle)
      | Ok [] => (Ok (BodyStatus (error_body (py "缺少標準參考文本")) 400), idle)
      | Ok ref =>
        let evaluation :=
          module_evaluate_single_file evaluation_service w
            {| stt_service := Some svc'; llm_service := llm_service |}
            path ref (app_calls s) in
        (match evaluation.1 with
         | Ok r => Ok (Body (PDict (to_dict r)))
         | Raise e => Raise e
         end,
         {| app_stt_service := Some svc';
            app_calls := evaluation.2;
            app_unlinked :=
              match file_size w path with
              | Some _ => path :: app_unlinked s
              | None => app_unlinked s
              end |})
      end
    end.
Proof.
  intros Hsvc Hstop. cbv zeta.
  unfold stop_recording_view. unfold bind at 1. unfold with_stt.
  unfold stop_recording, on_service, STTService.stop_recording,
    STTService.on_recorder.
  rewrite Hsvc, Hstop.
  fold (with_service (Some (STTService.set_recorder r' svc)) s).
  destruct recorded as [[|p0 p]|]; [reflexivity| |reflexivity].
  unfold bind at 1. rewrite request_reference_text_run.
  destruct (reference_of request_json) as [[|c0 ref]|e];
    [reflexivity| |reflexivity].
  unfold try_finally, bind, with_calls, unlink_if_exists, ret.
  cbn [with_service app_stt_service app_calls app_unlinked].
  destruct (module_evaluate_single_file evaluation_service w _ _ _ _)
    as [[r|e] calls]; cbn [fst snd];
    destruct (file_size w (p0 :: p)); reflexivity.
Qed.

(** X25. [stop_recording_api] with the transcription service available.
    The recorder's [stop_recording] runs once and its state is stored.
    When it returns no file the answer is 400.  When it returns a file and
    reading the reference text fails (a JSON body that is not a mapping,
    a reference that is not a string) the [AttributeError] escapes the
    decorator; when the reference text is missing or blank the answer is
    400.  In both cases the recording that was just written is not removed
    and no backend is called.  Otherwise the file is evaluated against the
    stripped reference text and removed afterwards if it exists, whether the
    evaluation returned or raised; a result is answered with status 200 and
    its own [success] and [timestamp], also when the evaluation failed, and
    an exception is answered by the decorator or escapes. *)
Theorem stop_recording_api_spec (w : World) (evaluation_service : bool)
  (llm_service : option LLMService) (env : AudioEnv)
  (request_json : option pyval) (s : AppState) (svc : STTService.t) :
  app_stt_service s = Some svc ->
  exists recorded r',
    AudioRecorder.stop_recording env (STTService.recorder svc)
    = (Ok recorded, r') /\
    let svc' := STTService.set_recorder r' svc in
    let idle := with_service (Some svc') s in
    let run :=
      stop_recording_api w evaluation_service llm_service env request_json s in
    (recorded = None \/ recorded = Some [] ->
     exists body,
       run = (Ok (body, 400%Z), idle) /\
       body !! py "error" = Some (PStr (py "沒有錄音資料或錄音失敗"))) /\
    (forall path,
       recorded = Some path -> path <> [] ->
       match reference_of request_json with
       | Raise e => run = (Raise e, idle)
       | Ok [] =>
         exists body,
           run = (Ok (body, 400%Z), idle) /\
           body !! py "error" = Some (PStr (py "缺少標準參考文本"))
       | Ok ref =>
         let evaluation :=
           module_evaluate_single_file evaluation_service w
             {| stt_service := Some svc'; llm_service := llm_service |}
             path ref (app_calls s) in
         app_stt_service run.2 = Some svc' /\
         app_calls run.2 = evaluation.2 /\
         app_unlinked run.2
         = match file_size w path with
           | Some _ => path :: app_unlinked s
           | None => app_unlinked s
           end /\
         match evaluation.1 with
         | Ok r =>
           exists body,
             run.1 = Ok (body, 200%Z) /\
             body !! py "success" = Some (PBool (success r)) /\
             body !! py "timestamp" = Some (PStr (timestamp r)) /\
             body !! py "evaluation_metrics"
             = Some (PDict (evaluation_metrics r))
         | Raise e =>
           run.1 = if answered e
                   then Ok (error_response w (exn_msg e), 500%Z)
                   else Raise e
         end
       end).
Proof.
  intros Hsvc.
  destruct (recorder_stop_returns env (STTService.recorder svc))
    as (recorded & r' & Hstop & _).
  exists recorded, r'. split; [exact Hstop|]. cbv zeta.
  unfold stop_recording_api. rewrite api_response_run.
  rewrite (stop_recording_view_run w evaluation_service llm_service env
             request_json s svc recorded r' Hsvc Hstop).
  set (idle := with_service (Some (STTService.set_recorder r' svc)) s).
  split.
  - intros [-> | ->]; cbn [payload status_of error_body];
      eexists; (split; [reflexivity|]);
      generalize (now_isoformat w); intros now; vm_compute; reflexivity.
  - intros path -> Hne. destruct path as [|p0 p]; [congruence|].
    pose proof (reference_of_failure request_json) as Hescape.
    destruct (reference_of request_json) as [[|c0 ref]|e].
    + cbn [payload status_of error_body].
      eexists. split; [reflexivity|].
      generalize (now_isoformat w); intros now; vm_compute; reflexivity.
    + cbv zeta.
      destruct (module_evaluate_single_file evaluation_service w _ _ _ _)
        as [[r|e] calls]; cbn [fst snd].
      * cbn [fst snd app_stt_service app_calls app_unlinked payload
             status_of].
        split; [reflexivity|]. split; [reflexivity|]. split; [reflexivity|].
        exists (to_dict r ∪ envelope w). split; [reflexivity|].
        repeat split; apply lookup_union_Some_l;
          destruct r as [a1 b1 c1 d1 e1 f1 g1 h1 i1 j1];
          vm_compute; reflexivity.
      * destruct (answered e);
          cbn [fst snd app_stt_service app_calls app_unlinked];
          repeat split; reflexivity.
    + cbv beta iota zeta. rewrite (Hescape e eq_refl). reflexivity.
Qed.

Lemma stop_recording_api_spec_witness :
  exists body,
    stop_recording_api Fixtures.offline true (Some Fixtures.llm)
      Fixtures.healthy_audio None (Fixtures.app_state Fixtures.recording)
    = (Ok (body, 400%Z),
       with_service
         (Some (Fixtures.service
                  (AudioRecorder.stop_recording Fixtures.healthy_audio
                     Fixtures.recording).2))
         (Fixtures.app_state Fixtures.recording)) /\
    body !! py "error" = Some (PStr (py "缺少標準參考文本")).
Proof.
  destruct (stop_recording_api_spec Fixtures.offline true
              (Some Fixtures.llm) Fixtures.healthy_audio None
              (Fixtures.app_state Fixtures.recording)
              (Fixtures.service Fixtures.recording) eq_refl)
    as (recorded & r' & Hstop & _ & H).
  change (AudioRecorder.stop_recording Fixtures.healthy_audio
            (STTService.recorder (Fixtures.service Fixtures.recording)))
    with (AudioRecorder.stop_recording Fixtures.healthy_audio
            Fixtures.recording) in Hstop.
  assert (Hrun : AudioRecorder.stop_recording Fixtures.healthy_audio
                   Fixtures.recording
                 = (Ok (Some (py "/tmp/recording_0.wav")),
                    (AudioRecorder.stop_recording Fixtures.healthy_audio
                       Fixtures.recording).2)) by reflexivity.
  rewrite Hrun in Hstop. injection Hstop as <- <-.
  exact (H (py "/tmp/recording_0.wav") eq_refl ltac:(discriminate)).
Defined.

End Endpoints.
